(** * script.js of the personal-portfolio site: a shallow embedding

    The page script fetches a catalog of projects (projects.json), renders
    one card per record on the landing page, renders one record on the
    detail page, and turns the contact form into a mailto: navigation.

    The embedding follows the script function by function.  JavaScript
    values are an inductive type, exceptions and the mutable page are a
    state-and-exception monad over a record [window], and the elements the
    script looks up by id are a finite map from ids to their child nodes.

    Strings are byte strings holding the UTF-8 encoding of the script's
    strings, so a string of the model is always well formed (it has no lone
    surrogate, the one string on which encodeURIComponent raises).

    Where the script turns a value of the catalog into a string (a template
    literal, encodeURIComponent, textContent, innerHTML, setAttribute, href,
    src, alt) the conversion is [ToString], which raises a TypeError on an
    object that has an own toString property.

    Each loader is modelled from its call to its return, the awaited fetch
    being answered by the [network] of the window; the two loaders of one
    page work on different elements, and their interleaving at the await is
    not modelled.  setYear and enhanceStickyHeader, which only stamp the
    year and toggle a shadow, are left out. *)

From Stdlib Require Import ZArith Ascii.
From stdpp Require Import base gmap strings list pretty.

Local Open Scope Z_scope.
Local Set Warnings "-register-all".

(** ** JavaScript values *)

Module JS.

(** The values the script handles: what JSON.parse can return, and
    [undefined] for a property that is not there.  A number stands for an
    integral JSON number whose decimal numeral is its ToString (magnitude
    below 10^21); the catalog format has no numeric field. *)
Inductive value :=
| VUndefined
| VNull
| VBool (b : bool)
| VNum (n : Z)
| VStr (s : string)
| VArr (items : list value)
| VObj (props : list (string * value)).

(** Exceptions the script can meet. *)
Inductive error :=
| FetchRejected                 (* fetch() rejects: no response at all *)
| HttpError (status : Z)        (* new Error(`HTTP ${res.status}`) *)
| JsonSyntaxError               (* res.json() rejects *)
| TypeError (what : string).    (* property of null, call of a non-function,
                                   conversion of an object *)

Inductive result (A : Type) :=
| Ok (a : A)
| Raise (e : error).
Arguments Ok {A} a.
Arguments Raise {A} e.

Definition rbind {A B} (r : result A) (k : A → result B) : result B :=
  match r with
  | Ok a => k a
  | Raise e => Raise e
  end.

(** ToBoolean. *)
Definition truthy (v : value) : bool :=
  match v with
  | VUndefined | VNull => false
  | VBool b => b
  | VNum n => negb (n =? 0)
  | VStr s => negb (String.eqb s "")
  | VArr _ | VObj _ => true
  end.

(** [a || b]. *)
Definition or (a b : value) : value := if truthy a then a else b.

Definition join (sep : string) (l : list string) : string := String.concat sep l.

(** Own property lookup of an object literal from JSON (keys are distinct). *)
Fixpoint lookup_prop (k : string) (props : list (string * value)) : option value :=
  match props with
  | [] => None
  | (k', v) :: rest => if String.eqb k k' then Some v else lookup_prop k rest
  end.

(** The string ToString gives for a value whose conversion returns: the
    join of an array has nothing for a null or undefined entry, and an
    object is converted by Object.prototype.toString. *)
Fixpoint to_string (v : value) : string :=
  match v with
  | VUndefined => "undefined"
  | VNull => "null"
  | VBool true => "true"
  | VBool false => "false"
  | VNum n => pretty n
  | VStr s => s
  | VArr items =>
      join "," (map (λ x, match x with
                          | VUndefined | VNull => ""
                          | _ => to_string x
                          end) items)
  | VObj _ => "[object Object]"
  end.

(** The values whose conversion returns.  ToPrimitive calls the toString
    of an object when it is callable, then its valueOf.  A value from JSON is
    never callable, so an own toString property hides the one of
    Object.prototype, and valueOf (its own, or the one of Object.prototype,
    which returns the object) gives no primitive: the conversion raises.  An
    array converts each entry that is neither null nor undefined. *)
Fixpoint convertible (v : value) : bool :=
  match v with
  | VArr items => forallb convertible items
  | VObj props =>
      match lookup_prop "toString" props with
      | Some _ => false
      | None => true
      end
  | _ => true
  end.

Definition conversion_error : error :=
  TypeError "Cannot convert object to primitive value".

(** ToString, as a template literal, encodeURIComponent and a string
    attribute of the DOM apply it. *)
Definition ToString (v : value) : result string :=
  if convertible v then Ok (to_string v) else Raise conversion_error.

(** [v.k] for the keys the script reads (title, description, summary, slug,
    tags, cover, link, repo, body, bodyHtml, long, images, src, alt).  On
    null and undefined the access raises; a primitive or an array has none
    of these keys ([link], the one that String.prototype defines, is read
    only from a record whose slug matched, hence from an object). *)
Definition get (v : value) (k : string) : result value :=
  match v with
  | VUndefined => Raise (TypeError "Cannot read properties of undefined")
  | VNull => Raise (TypeError "Cannot read properties of null")
  | VObj props => Ok (default VUndefined (lookup_prop k props))
  | _ => Ok VUndefined
  end.

(** [v?.k]. *)
Definition get_opt (v : value) (k : string) : value :=
  match v with
  | VObj props => default VUndefined (lookup_prop k props)
  | _ => VUndefined
  end.

(** [v === s] against a string. *)
Definition strict_eq_str (v : value) (s : string) : bool :=
  match v with
  | VStr s' => String.eqb s' s
  | _ => false
  end.

(** [Array.isArray(v)]. *)
Definition isArray (v : value) : bool :=
  match v with VArr _ => true | _ => false end.

(** [typeof v === 'string'] and [typeof v === 'object']. *)
Definition is_string (v : value) : bool :=
  match v with VStr _ => true | _ => false end.
Definition typeof_object (v : value) : bool :=
  match v with VNull | VArr _ | VObj _ => true | _ => false end.

End JS.
Import JS.

Notation "'let?' x ':=' r 'in' k" := (rbind r (λ x, k))
  (at level 10, x name, r at level 100, k at level 200).


(** ** String primitives of the host *)

Module Str.

(** The line feed, and the double quote of `id="..."`. *)
Definition LF : string := String "010"%char "".
Definition DQUOTE : string := String "034"%char "".

Definition code (c : ascii) : N := N_of_ascii c.

Definition in_range (lo hi n : N) : bool := ((lo <=? n) && (n <=? hi))%N.

(** The characters encodeURIComponent leaves alone:
    A-Z a-z 0-9 - _ . ! ~ * ' ( ). *)
Definition unreserved (c : ascii) : bool :=
  let n := code c in
  in_range 65 90 n || in_range 97 122 n || in_range 48 57 n
  || bool_decide (n ∈ [45; 95; 46; 33; 126; 42; 39; 40; 41]%N).

Definition hex_digit (n : N) : ascii :=
  match n with
  | 0 => "0" | 1 => "1" | 2 => "2" | 3 => "3" | 4 => "4" | 5 => "5"
  | 6 => "6" | 7 => "7" | 8 => "8" | 9 => "9" | 10 => "A" | 11 => "B"
  | 12 => "C" | 13 => "D" | 14 => "E" | _ => "F"
  end%N%char.

(** encodeURIComponent: every byte of the UTF-8 encoding that is not
    unreserved becomes %XX, in upper-case hexadecimal. *)
Fixpoint encodeURIComponent (s : string) : string :=
  match s with
  | "" => ""
  | String c rest =>
      if unreserved c then String c (encodeURIComponent rest)
      else String "%" (String (hex_digit (code c / 16))
             (String (hex_digit (code c mod 16)) (encodeURIComponent rest)))
  end.

(** White space and line terminators of ECMAScript, by their UTF-8
    encodings: TAB LF VT FF CR SP; U+00A0; U+1680, U+2000..U+200A, U+2028,
    U+2029, U+202F, U+205F, U+3000 and U+FEFF. *)
Definition space1 (c : ascii) : bool :=
  bool_decide (code c ∈ [9; 10; 11; 12; 13; 32]%N).

Definition space2 (c1 c2 : ascii) : bool :=
  bool_decide (code c1 = 194%N) && bool_decide (code c2 = 160%N).

Definition space3 (c1 c2 c3 : ascii) : bool :=
  let a := code c1 in let b := code c2 in let c := code c3 in
  bool_decide ((a, b, c) ∈ [(225, 154, 128); (226, 129, 159); (227, 128, 128);
                            (239, 187, 191)]%N)
  || (bool_decide (a = 226%N) && bool_decide (b = 128%N)
      && (in_range 128 138 c || bool_decide (c ∈ [168; 169; 175]%N))).

Fixpoint trimStart (s : string) : string :=
  match s with
  | "" => ""
  | String c1 r1 =>
      if space1 c1 then trimStart r1 else
      match r1 with
      | String c2 r2 =>
          if space2 c1 c2 then trimStart r2 else
          match r2 with
          | String c3 r3 => if space3 c1 c2 c3 then trimStart r3 else s
          | "" => s
          end
      | "" => s
      end
  end.

(** The same scan from the end, on the reversed string. *)
Fixpoint trimStart_rev (s : string) : string :=
  match s with
  | "" => ""
  | String c1 r1 =>
      if space1 c1 then trimStart_rev r1 else
      match r1 with
      | String c2 r2 =>
          if space2 c2 c1 then trimStart_rev r2 else
          match r2 with
          | String c3 r3 => if space3 c3 c2 c1 then trimStart_rev r3 else s
          | "" => s
          end
      | "" => s
      end
  end.

Definition trimEnd (s : string) : string :=
  String.rev (trimStart_rev (String.rev s)).

(** String.prototype.trim. *)
Definition trim (s : string) : string := trimEnd (trimStart s).

(** U+00A0, the no-break space. *)
Definition NBSP : string := String "194"%char (String "160"%char "").

End Str.
Import Str.

(** ** The page: nodes, the window and its effects *)

Module Dom.

(** The closures the script registers as event listeners: [go] of a card
    (it captures the record [p]), the keydown listener around it, and the
    submit listener of the contact form. *)
Inductive handler :=
| Go (p : value)
| GoOnKey (p : value)
| SubmitContact.

(** A node: text, the fragment an innerHTML assignment parses (kept as its
    markup), or an element with its attributes and reflected properties in
    assignment order, its listeners and its children. *)
Inductive node :=
| Text (data : string)
| Html (markup : string)
| Elem (tag : string) (attrs : list (string * string))
       (listeners : list (string * handler)) (kids : list node).

Definition createElement (tag : string) : node := Elem tag [] [] [].

(** setAttribute and the assignment of a reflected property (className,
    href, target, rel, src, alt and the style properties) to a string: the
    script sets each at most once per node. *)
Definition setAttribute (k v : string) (n : node) : node :=
  match n with
  | Elem t a l c => Elem t (a ++ [(k, v)]) l c
  | _ => n
  end.

(** The same with a value of the catalog: it is converted first. *)
Definition set_attr (k : string) (v : value) (n : node) : result node :=
  let? s := ToString v in Ok (setAttribute k s n).

Definition appendChild (child : node) (n : node) : node :=
  match n with
  | Elem t a l c => Elem t a l (c ++ [child])
  | _ => n
  end.

Definition addEventListener (type : string) (h : handler) (n : node) : node :=
  match n with
  | Elem t a l c => Elem t a (l ++ [(type, h)]) c
  | _ => n
  end.

(** The children [textContent = v] leaves: a nullable DOMString, so null
    and undefined are the empty string without a conversion, and the empty
    string leaves no text node. *)
Definition text_nodes (s : string) : list node :=
  if String.eqb s "" then [] else [Text s].

Definition text_kids (v : value) : result (list node) :=
  match v with
  | VUndefined | VNull => Ok []
  | _ => let? s := ToString v in Ok (text_nodes s)
  end.

Definition with_kids (kids : list node) (n : node) : node :=
  match n with
  | Elem t a l _ => Elem t a l kids
  | _ => n
  end.

(** [node.textContent = v]. *)
Definition set_textContent (v : value) (n : node) : result node :=
  let? kids := text_kids v in Ok (with_kids kids n).

(** The children [innerHTML = v] leaves (null is the empty string; v is
    truthy where the script assigns one). *)
Definition html_kids (v : value) : result (list node) :=
  match v with
  | VNull => Ok []
  | _ => let? s := ToString v in Ok (if String.eqb s "" then [] else [Html s])
  end.

Record button := { disabled : bool; label : string }.

Inductive log :=
| Warn (prefix : option string) (e : error).

(** What the network answers to the request for the catalog: nothing, or a
    response with a status whose body parses as JSON or does not. *)
Inductive fetch_outcome :=
| NoResponse
| Response (status : Z) (json : option value).

(** The page as the script sees it. [elements] maps the id of an element of
    the document to its children (an id that is not bound is an element the
    page does not have); [controls] maps the id of a form control to its
    current value. *)
Record window := {
  elements : gmap string (list node);
  controls : gmap string string;
  contact_form : option (list (string * handler));
  submit_button : option button;
  doc_title : string;
  navigations : list string;       (* assignments to window.location.href *)
  alerts : list string;
  console : list log;
  requests : list string;          (* fetches issued *)
  timers : list (Z * string);      (* pending: delay, label to restore *)
  getParam : option (string → option string);
  network : fetch_outcome;
}.

Definition with_elements (f : gmap string (list node) → gmap string (list node))
    (w : window) : window :=
  {| elements := f (elements w); controls := controls w;
     contact_form := contact_form w; submit_button := submit_button w;
     doc_title := doc_title w; navigations := navigations w;
     alerts := alerts w; console := console w; requests := requests w;
     timers := timers w; getParam := getParam w; network := network w |}.

Definition with_contact_form (f : option (list (string * handler))) (w : window) : window :=
  {| elements := elements w; controls := controls w;
     contact_form := f; submit_button := submit_button w;
     doc_title := doc_title w; navigations := navigations w;
     alerts := alerts w; console := console w; requests := requests w;
     timers := timers w; getParam := getParam w; network := network w |}.

Definition with_submit_button (b : option button) (w : window) : window :=
  {| elements := elements w; controls := controls w;
     contact_form := contact_form w; submit_button := b;
     doc_title := doc_title w; navigations := navigations w;
     alerts := alerts w; console := console w; requests := requests w;
     timers := timers w; getParam := getParam w; network := network w |}.

Definition with_doc_title (s : string) (w : window) : window :=
  {| elements := elements w; controls := controls w;
     contact_form := contact_form w; submit_button := submit_button w;
     doc_title := s; navigations := navigations w;
     alerts := alerts w; console := console w; requests := requests w;
     timers := timers w; getParam := getParam w; network := network w |}.

Definition with_navigations (l : list string) (w : window) : window :=
  {| elements := elements w; controls := controls w;
     contact_form := contact_form w; submit_button := submit_button w;
     doc_title := doc_title w; navigations := l;
     alerts := alerts w; console := console w; requests := requests w;
     timers := timers w; getParam := getParam w; network := network w |}.

Definition with_alerts (l : list string) (w : window) : window :=
  {| elements := elements w; controls := controls w;
     contact_form := contact_form w; submit_button := submit_button w;
     doc_title := doc_title w; navigations := navigations w;
     alerts := l; console := console w; requests := requests w;
     timers := timers w; getParam := getParam w; network := network w |}.

Definition with_console (l : list log) (w : window) : window :=
  {| elements := elements w; controls := controls w;
     contact_form := contact_form w; submit_button := submit_button w;
     doc_title := doc_title w; navigations := navigations w;
     alerts := alerts w; console := l; requests := requests w;
     timers := timers w; getParam := getParam w; network := network w |}.

Definition with_requests (l : list string) (w : window) : window :=
  {| elements := elements w; controls := controls w;
     contact_form := contact_form w; submit_button := submit_button w;
     doc_title := doc_title w; navigations := navigations w;
     alerts := alerts w; console := console w; requests := l;
     timers := timers w; getParam := getParam w; network := network w |}.

Definition with_timers (l : list (Z * string)) (w : window) : window :=
  {| elements := elements w; controls := controls w;
     contact_form := contact_form w; submit_button := submit_button w;
     doc_title := doc_title w; navigations := navigations w;
     alerts := alerts w; console := console w; requests := requests w;
     timers := l; getParam := getParam w; network := network w |}.

(** *** The monad of the script: state and exceptions *)

Inductive outcome (A : Type) :=
| Done (a : A) (w : window)
| Threw (e : error) (w : window).
Arguments Done {A} a w.
Arguments Threw {A} e w.

Definition js (A : Type) : Type := window → outcome A.

Definition ret {A} (a : A) : js A := λ w, Done a w.

Definition bind {A B} (m : js A) (k : A → js B) : js B :=
  λ w, match m w with
       | Done a w' => k a w'
       | Threw e w' => Threw e w'
       end.

Definition throw {A} (e : error) : js A := λ w, Threw e w.

(** A pure computation that may raise. *)
Definition lift {A} (r : result A) : js A :=
  match r with
  | Ok a => ret a
  | Raise e => throw e
  end.

(** try { m } catch (e) { h e }. *)
Definition try_catch {A} (m : js A) (h : error → js A) : js A :=
  λ w, match m w with
       | Done a w' => Done a w'
       | Threw e w' => h e w'
       end.

Definition modify (f : window → window) : js unit := λ w, Done () (f w).
Definition read {A} (f : window → A) : js A := λ w, Done (f w) w.

(** The window an outcome ends in. *)
Definition final {A} (o : outcome A) : window :=
  match o with Done _ w | Threw _ w => w end.

Definition returns {A} (o : outcome A) : bool :=
  match o with Done _ _ => true | Threw _ _ => false end.

End Dom.
Import Dom.

Notation "'let!' x ':=' m 'in' k" := (bind m (λ x, k))
  (at level 10, x name, m at level 100, k at level 200).
Notation "m ';;' k" := (bind m (λ _, k))
  (at level 100, k at level 200, right associativity).
(** ** script.js *)

(** [$(sel)] for an id selector: the element is there, or it is null. *)
Definition has_element (id : string) (w : window) : bool :=
  bool_decide (is_Some (elements w !! id)).

(** [node.innerHTML = ''] and [node.appendChild(c)] on an element of the
    document. *)
Definition set_kids (id : string) (kids : list node) : js unit :=
  modify (with_elements (<[id := kids]>)).

Definition append_kid (id : string) (c : node) : js unit :=
  modify (with_elements (alter (λ kids, kids ++ [c]) id)).

(** [if (elt) elt.textContent = v]: the conversion of [v] comes before the
    children are replaced. *)
Definition set_text_if_present (id : string) (v : value) : js unit :=
  λ w, if has_element id w
       then (let! kids := lift (text_kids v) in set_kids id kids) w
       else ret () w.

(** [for (const [k, v] of Object.entries(opts.attrs)) node.setAttribute(k, v)]. *)
Fixpoint set_attrs (attrs : list (string * value)) (n : node) : result node :=
  match attrs with
  | [] => Ok n
  | (k, v) :: rest => let? n' := set_attr k v n in set_attrs rest n'
  end.

(** [el(tag, { className, attrs })]: the class first, then the attributes in
    the order of the literal. *)
Definition el (tag : string) (className : string) (attrs : list (string * value))
    : result node :=
  let node := createElement tag in
  let node := if negb (String.eqb className "") then setAttribute "class" className node
              else node in
  set_attrs attrs node.

(** [xs.forEach(f)]: a callback per entry, in order; on a value that is no
    array the call itself raises. *)
Fixpoint for_each {A} (f : A → js unit) (l : list A) : js unit :=
  match l with
  | [] => ret ()
  | x :: rest => f x ;; for_each f rest
  end.

Definition forEach (v : value) (f : value → js unit) : js unit :=
  match v with
  | VArr items => for_each f items
  | _ => throw (TypeError "forEach is not a function")
  end.

(** The same loop where the callback only builds nodes. *)
Fixpoint build_each {A} (f : value → A → result A) (l : list value) (acc : A) : result A :=
  match l with
  | [] => Ok acc
  | x :: rest => let? acc' := f x acc in build_each f rest acc'
  end.

Definition forEach_build {A} (v : value) (f : value → A → result A) (acc : A) : result A :=
  match v with
  | VArr items => build_each f items acc
  | _ => Raise (TypeError "forEach is not a function")
  end.

(** *** Projects loader *)

(** The fetch of the catalog, as both loaders write it:
    fetch('projects.json', { cache: 'no-store' }), a throw on a status
    outside 200..299, then res.json(). *)
Definition res_ok (status : Z) : bool := (200 <=? status) && (status <=? 299).

Definition fetch_json (url : string) : js value :=
  modify (λ w, with_requests (requests w ++ [url]) w) ;;
  let! net := read network in
  match net with
  | NoResponse => throw FetchRejected
  | Response status body =>
      if negb (res_ok status) then throw (HttpError status)
      else match body with
           | Some v => ret v
           | None => throw JsonSyntaxError
           end
  end.

(** The fallback demo data of loadProjects. *)
Definition fallback_projects : value :=
  VArr [VObj [("title", VStr "Sample Project");
              ("description", VStr "Replace projects.json to populate real projects.");
              ("slug", VStr "sample-project");
              ("tags", VArr [VStr "demo"; VStr "starter"]);
              ("cover", VStr "")]].

(** The callback of [(p.tags || []).forEach] (lines 129-133). *)
Definition add_tag (t : value) (tagRow : node) : result node :=
  let? tag := el "span" "tag" [] in
  let? tag := set_textContent t tag in
  Ok (appendChild tag tagRow).

(** The body of the forEach callback of renderProjects up to the card it
    appends (lines 102-149).  The template literals convert [p.title]. *)
Definition card (p : value) : result node :=
  let? title := get p "title" in
  let? label := ToString title in
  let? card := el "article" "card"
                 [("tabindex", VStr "0"); ("role", VStr "link");
                  ("aria-label", VStr ("Open " +:+ label +:+ " project"))] in
  let? cover := el "div" "card-cover" [] in
  let? pcover := get p "cover" in
  let? cover := if truthy pcover
                then let? alt := ToString title in
                     let? img := el "img" "" [("src", pcover);
                                              ("alt", VStr (alt +:+ " cover"))] in
                     Ok (appendChild img cover)
                else Ok cover in
  let card := appendChild cover card in
  let? body := el "div" "card-body" [] in
  let? h3 := el "h3" "card-title" [] in
  let? h3 := set_textContent (or title (VStr "Untitled")) h3 in
  let? desc := el "p" "card-desc" [] in
  let? description := get p "description" in
  let? desc := set_textContent (or description (VStr "No description yet.")) desc in
  let? tagRow := el "div" "card-tags" [] in
  let? tags := get p "tags" in
  let? tagRow := forEach_build (or tags (VArr [])) add_tag tagRow in
  let body := appendChild tagRow (appendChild desc (appendChild h3 body)) in
  let card := appendChild body card in
  Ok (addEventListener "keydown" (GoOnKey p) (addEventListener "click" (Go p) card)).

Definition renderProjects (projects : value) (grid : string) : js unit :=
  set_kids grid [] ;;
  forEach projects (λ p, let! c := lift (card p) in append_kid grid c).

Definition loadProjects : js unit :=
  λ w,
  if negb (has_element "project-grid" w) then ret () w else
  (let! projects :=
     try_catch (fetch_json "projects.json")
       (λ err,
          modify (λ w, with_console
                         (console w ++ [Warn (Some "Using fallback projects:") err]) w) ;;
          ret fallback_projects) in
   renderProjects projects "project-grid") w.

(** *** Events on a card *)

Record event := { key : string; defaultPrevented : bool }.

Definition preventDefault (e : event) : event :=
  {| key := key e; defaultPrevented := true |}.

(** [go] (lines 139-142): encodeURIComponent converts the slug. *)
Definition go (p : value) : js unit :=
  let! slug0 := lift (get p "slug") in
  let slug := or slug0 (VStr "sample-project") in
  let! s := lift (ToString slug) in
  modify (λ w, with_navigations
                 (navigations w ++ ["project.html?id=" +:+ encodeURIComponent s]) w).

(** The keydown listener (lines 144-149). *)
Definition go_on_key (p : value) (e : event) : js event :=
  if String.eqb (key e) "Enter" || String.eqb (key e) " "
  then let e := preventDefault e in go p ;; ret e
  else ret e.

(** *** Project detail *)

(** [data.find(pred)]: the first entry the predicate accepts, undefined when
    there is none; on a value that is no array the call raises. *)
Fixpoint find_first (pred : value → result bool) (l : list value) : result value :=
  match l with
  | [] => Ok VUndefined
  | x :: rest => let? b := pred x in if b then Ok x else find_first pred rest
  end.

Definition find (data : value) (pred : value → result bool) : result value :=
  match data with
  | VArr items => find_first pred items
  | _ => Raise (TypeError "data.find is not a function")
  end.

(** The arrow of line 193: [x => (x.slug || '') === id]. *)
Definition slug_is (id : string) (x : value) : result bool :=
  let? slug := get x "slug" in
  Ok (strict_eq_str (or slug (VStr "")) id).

(** Lines 200-205: title in the page and in the tab, summary. *)
Definition render_heading (p : value) : js unit :=
  let! title := lift (get p "title") in
  set_text_if_present "project-title" (or title (VStr "Untitled project")) ;;
  let! tab := lift (ToString (or title (VStr "Project"))) in
  modify (with_doc_title (tab +:+ " • My Portfolio")) ;;
  let! summary := lift (get p "summary") in
  let! description := lift (get p "description") in
  set_text_if_present "project-summary" (or (or summary description) (VStr "")).

(** The callback of [p.tags.forEach] (lines 216-219). *)
Definition add_pill (t : value) (row : node) : result node :=
  let tag := createElement "span" in
  let tag := setAttribute "class" "tag" tag in
  let? tag := set_textContent t tag in
  Ok (appendChild tag row).

(** An anchor of the meta area (lines 226-231 and 237-242). *)
Definition new_link (href : value) (text : string) : result node :=
  let link := createElement "a" in
  let? link := set_attr "href" href link in
  let link := setAttribute "target" "_blank" link in
  let link := setAttribute "rel" "noopener noreferrer" link in
  let link := setAttribute "class" "btn btn-secondary" link in
  set_textContent (VStr text) link.

(** Lines 208-245. *)
Definition render_meta (p : value) : js unit :=
  λ w,
  if negb (has_element "project-meta" w) then ret () w else
  (set_kids "project-meta" [] ;;
   let! tags := lift (get p "tags") in
   (match tags with
    | VArr (t :: ts) =>
        let row := setAttribute "class" "project-tags card-tags" (createElement "div") in
        let! row := lift (build_each add_pill (t :: ts) row) in
        append_kid "project-meta" row
    | _ => ret ()
    end) ;;
   let! link := lift (get p "link") in
   (if truthy link
    then let! a := lift (new_link link "View Live") in append_kid "project-meta" a
    else ret ()) ;;
   let! repo := lift (get p "repo") in
   (if truthy repo
    then let! a := lift (new_link repo "Source Code") in append_kid "project-meta" a
    else ret ())) w.

(** A paragraph of the body (lines 253-254, 260-261 and 264-265). *)
Definition new_para (text : value) : result node :=
  set_textContent text (createElement "p").

(** Lines 248-268. *)
Definition render_body (p : value) : js unit :=
  λ w,
  if negb (has_element "project-body" w) then ret () w else
  (set_kids "project-body" [] ;;
   let! body := lift (get p "body") in
   let! bodyHtml := lift (get p "bodyHtml") in
   let! long := lift (get p "long") in
   let! description := lift (get p "description") in
   if isArray body then
     forEach body (λ par, let! para := lift (new_para par) in
                          append_kid "project-body" para)
   else if truthy bodyHtml then
     let! kids := lift (html_kids bodyHtml) in set_kids "project-body" kids
   else if truthy long then
     let! para := lift (new_para long) in append_kid "project-body" para
   else if truthy description then
     let! para := lift (new_para description) in append_kid "project-body" para
   else ret ()) w.

(** The link one gallery entry becomes (lines 282-302). *)
Definition new_thumb (src alt : value) : result node :=
  let a := createElement "a" in
  let? a := set_attr "href" src a in
  let a := setAttribute "target" "_blank" a in
  let a := setAttribute "rel" "noopener noreferrer" a in
  let a := setAttribute "class" "card" a in
  let a := setAttribute "style.display" "block" a in
  let cover := setAttribute "class" "card-cover" (createElement "div") in
  let img := createElement "img" in
  let? img := set_attr "src" src img in
  let? img := set_attr "alt" alt img in
  let img := setAttribute "style.width" "100%" img in
  let img := setAttribute "style.height" "100%" img in
  let img := setAttribute "style.objectFit" "cover" img in
  let cover := appendChild img cover in
  let a := appendChild cover a in
  Ok (setAttribute "style.gridColumn" "span 6" a).

(** Lines 276-279: the source and the alternative text of an entry.  The
    template literal is evaluated, and converts the title, only for an
    entry without an alternative text of its own. *)
Definition image_src (it : value) : value :=
  if is_string it then it else get_opt it "src".

Definition alt_for (title it : value) : result value :=
  if typeof_object it && truthy (get_opt it "alt")
  then Ok (get_opt it "alt")
  else let? t := ToString title in Ok (VStr (t +:+ " image")).

(** Lines 271-305. *)
Definition render_gallery (p : value) : js unit :=
  λ w,
  if negb (has_element "project-gallery" w) then ret () w else
  (set_kids "project-gallery" [] ;;
   let! images := lift (get p "images") in
   let! title := lift (get p "title") in
   let imgs := if isArray images then images else VArr [] in
   forEach imgs (λ it,
     let src := image_src it in
     let! alt := lift (alt_for title it) in
     if negb (truthy src) then ret ()
     else let! a := lift (new_thumb src alt) in append_kid "project-gallery" a)) w.

(** Lines 200-305: the render of a record that was found. *)
Definition render_detail (p : value) : js unit :=
  render_heading p ;; render_meta p ;; render_body p ;; render_gallery p.

Definition of_param (id : option string) : value :=
  match id with
  | Some s => VStr s
  | None => VNull
  end.

(** The id is a string where the script compares and interpolates it. *)
Definition loadProjectDetail : js unit :=
  λ w,
  if negb (has_element "project-article" w) then ret () w else
  let id := match getParam w with
            | Some getParam => of_param (getParam "id")
            | None => VNull
            end in
  if negb (truthy id) then
    (set_text_if_present "project-title" (VStr "Project not specified") ;;
     set_text_if_present "project-summary" (VStr "Missing ?id=… in the URL.")) w
  else
  (let! fetched :=
     try_catch (let! data := fetch_json "projects.json" in ret (Some data))
       (λ e,
          set_text_if_present "project-title" (VStr "Error loading project") ;;
          set_text_if_present "project-summary" (VStr "Could not fetch projects.json.") ;;
          modify (λ w, with_console (console w ++ [Warn None e]) w) ;;
          ret None) in
   match fetched with
   | None => ret ()
   | Some data =>
       let! p := lift (find data (slug_is (to_string id))) in
       if negb (truthy p) then
         set_text_if_present "project-title" (VStr "Project not found") ;;
         set_text_if_present "project-summary"
           (VStr ("No project with id=" +:+ DQUOTE +:+ to_string id +:+ DQUOTE +:+ "."))
       else render_detail p
   end) w.

(** *** Contact (mailto) *)

Definition TO_EMAIL : string := "you@example.com".

(** [$('#id')?.value.trim() || '']. *)
Definition field (id : string) (w : window) : string :=
  match controls w !! id with
  | Some v => trim v
  | None => ""
  end.

Definition is_empty (s : string) : bool := String.eqb s "".

(** The submit listener (lines 322-358). *)
Definition submit_contact (e : event) : js event :=
  let e := preventDefault e in
  let! name := read (field "name") in
  let! email := read (field "email") in
  let! message := read (field "message") in
  if is_empty name || is_empty email || is_empty message then
    modify (λ w, with_alerts (alerts w ++ ["Please complete all fields."]) w) ;;
    ret e
  else
    let subject := "Portfolio contact from " +:+ name in
    let bodyLines := ["Name: " +:+ name; "Email: " +:+ email; ""; "Message:"; message] in
    let body := join LF bodyLines in
    let mailto := "mailto:" +:+ encodeURIComponent TO_EMAIL
                  +:+ "?subject=" +:+ encodeURIComponent subject
                  +:+ "&body=" +:+ encodeURIComponent body in
    modify (λ w, with_navigations (navigations w ++ [mailto]) w) ;;
    let! btn := read submit_button in
    (match btn with
     | Some b =>
         let prev := label b in
         modify (with_submit_button
                   (Some {| disabled := true; label := "Opening your email client…" |})) ;;
         modify (λ w, with_timers (timers w ++ [(2500, prev)]) w)
     | None => ret ()
     end) ;;
    ret e.

(** The callback of the timer: the button is enabled and relabelled. *)
Definition restore_button (prev : string) : js unit :=
  modify (with_submit_button (Some {| disabled := false; label := prev |})).

Definition wireContactForm : js unit :=
  λ w,
  match contact_form w with
  | None => ret () w
  | Some ls => modify (with_contact_form (Some (ls ++ [("submit", SubmitContact)]))) w
  end.

(** *** Dispatch of an event to a registered listener *)

Definition handle (h : handler) (e : event) : js event :=
  match h with
  | Go p => go p ;; ret e
  | GoOnKey p => go_on_key p e
  | SubmitContact => submit_contact e
  end.

(** The listeners of a node for an event type, in registration order. *)
Definition listeners_for (type : string) (n : node) : list handler :=
  match n with
  | Elem _ _ ls _ => omap (λ th, if String.eqb th.1 type then Some th.2 else None) ls
  | _ => []
  end.

(** A page to run the script on: the given elements and controls, nothing
    else yet. *)
Definition page (elts : list (string * list node)) (ctrls : list (string * string))
    (param : option (string → option string)) (net : fetch_outcome) : window :=
  {| elements := list_to_map elts; controls := list_to_map ctrls;
     contact_form := Some []; submit_button := Some {| disabled := false; label := "Send" |};
     doc_title := "My Portfolio"; navigations := []; alerts := []; console := [];
     requests := []; timers := []; getParam := param; network := net |}.

Definition landing_page (net : fetch_outcome) : window :=
  page [("project-grid", [])] [] None net.

Definition detail_page (id : option string) (net : fetch_outcome) : window :=
  page [("project-article", []); ("project-title", []); ("project-summary", []);
        ("project-meta", []); ("project-body", []); ("project-gallery", [])] []
       (Some (λ name, if String.eqb name "id" then id else None)) net.

Definition click : event := {| key := ""; defaultPrevented := false |}.
Definition keydown (k : string) : event := {| key := k; defaultPrevented := false |}.

(** ** Reading a rendered tree back *)

Module Query.

Definition attr (k : string) (n : node) : option string :=
  match n with
  | Elem _ attrs _ _ => snd <$> List.find (λ kv, String.eqb kv.1 k) attrs
  | _ => None
  end.

Definition tag_is (t : string) (n : node) : bool :=
  match n with
  | Elem t' _ _ _ => String.eqb t t'
  | _ => false
  end.

Definition class_is (c : string) (n : node) : bool :=
  match attr "class" n with
  | Some c' => String.eqb c c'
  | None => false
  end.

Definition kids_of (n : node) : list node :=
  match n with
  | Elem _ _ _ kids => kids
  | _ => []
  end.

(** querySelector: the first node in document order that [sel] accepts. *)
Fixpoint query (sel : node → bool) (n : node) : option node :=
  if sel n then Some n else
  match n with
  | Elem _ _ _ kids =>
      (fix first (l : list node) : option node :=
         match l with
         | [] => None
         | k :: rest => match query sel k with
                        | Some x => Some x
                        | None => first rest
                        end
         end) kids
  | _ => None
  end.

(** The textContent getter (the text of parsed markup is not modelled). *)
Fixpoint textContent (n : node) : string :=
  match n with
  | Text s => s
  | Html _ => ""
  | Elem _ _ _ kids => String.concat "" (map textContent kids)
  end.

(** The text a [textContent = v] assignment shows. *)
Definition shown (v : value) : string :=
  match v with
  | VUndefined | VNull => ""
  | _ => to_string v
  end.

(** What a card shows (the selectors are the class names of its parts). *)
Definition card_title (c : node) : option string :=
  textContent <$> query (class_is "card-title") c.
Definition card_desc (c : node) : option string :=
  textContent <$> query (class_is "card-desc") c.
Definition card_tags (c : node) : option (list string) :=
  (λ row, textContent <$> kids_of row) <$> query (class_is "card-tags") c.
Definition card_cover (c : node) : option (list node) :=
  kids_of <$> query (class_is "card-cover") c.

(** The alternative text of the image of a gallery entry. *)
Definition image_of (n : node) : option node := query (tag_is "img") n.
Definition alt_of (n : node) : option string := image_of n ≫= attr "alt".
Definition src_of (n : node) : option string := image_of n ≫= attr "src".

End Query.
Import Query.

(** ** The trees the script builds when its conversions return *)

Definition text_of (v : value) : list node :=
  match v with
  | VUndefined | VNull => []
  | _ => text_nodes (to_string v)
  end.

Definition with_text (v : value) (n : node) : node := with_kids (text_of v) n.

Definition html_of (v : value) : list node :=
  if String.eqb (to_string v) "" then [] else [Html (to_string v)].

(** An anchor of the meta area. *)
Definition meta_link (href : value) (text : string) : node :=
  Elem "a" [("href", to_string href); ("target", "_blank");
            ("rel", "noopener noreferrer"); ("class", "btn btn-secondary")] []
    (text_nodes text).

(** The pill of a tag, on a card and in the meta area. *)
Definition pill (t : value) : node := Elem "span" [("class", "tag")] [] (text_of t).

(** A paragraph of the body. *)
Definition paragraph (text : value) : node := Elem "p" [] [] (text_of text).

(** The link an entry of the gallery becomes. *)
Definition gallery_item (src alt : value) : node :=
  Elem "a" [("href", to_string src); ("target", "_blank");
            ("rel", "noopener noreferrer"); ("class", "card");
            ("style.display", "block"); ("style.gridColumn", "span 6")] []
    [Elem "div" [("class", "card-cover")] []
       [Elem "img" [("src", to_string src); ("alt", to_string alt);
                    ("style.width", "100%"); ("style.height", "100%");
                    ("style.objectFit", "cover")] [] []]].

(** The alternative text of an entry: its own, or the title followed by
    " image". *)
Definition image_alt (title it : value) : value :=
  if typeof_object it && truthy (get_opt it "alt")
  then get_opt it "alt"
  else VStr (to_string title +:+ " image").

(** ** Windows the theorems speak of *)

(** The element [id], when the page has it, holds [kids]. *)
Definition show (id : string) (kids : list node) (w : window) : window :=
  if has_element id w then with_elements (<[id := kids]>) w else w.

(** A title and a summary, and nothing else. *)
Definition notice (title summary : string) (w : window) : window :=
  show "project-summary" [Text summary] (show "project-title" [Text title] w).

(** The id the page was asked for: [getParam('id')] when the helper is
    defined. *)
Definition requested_id (w : window) : option string :=
  getParam w ≫= (λ getParam, getParam "id").

(** The catalog a fetch delivers: a response with a status in 200..299
    whose body parses. *)
Definition delivered (net : fetch_outcome) : option value :=
  match net with
  | Response status (Some data) => if res_ok status then Some data else None
  | _ => None
  end.

(** The error the fetch ends in otherwise. *)
Definition fetch_error (net : fetch_outcome) : error :=
  match net with
  | NoResponse => FetchRejected
  | Response status body => if res_ok status then JsonSyntaxError else HttpError status
  end.

(** The window once the request for the catalog went out. *)
Definition requesting (w : window) : window :=
  with_requests (requests w ++ ["projects.json"]) w.

(** The window after a warning on the console, a navigation, an alert. *)
Definition warned (prefix : option string) (e : error) (w : window) : window :=
  with_console (console w ++ [Warn prefix e]) w.

Definition navigated (url : string) (w : window) : window :=
  with_navigations (navigations w ++ [url]) w.

Definition alerted (msg : string) (w : window) : window :=
  with_alerts (alerts w ++ [msg]) w.

(** The slug field of a record holds a string, or is not there. *)
Definition slug_typed (props : list (string * value)) : Prop :=
  lookup_prop "slug" props = None ∨ ∃ s, lookup_prop "slug" props = Some (VStr s).



(** The callback of a loop that appends a node for some entries and skips
    the others. *)
Definition append_opt (id : string) (o : option node) : js unit :=
  match o with
  | Some n => append_kid id n
  | None => ret ()
  end.

(** The node an entry of [images] becomes; none when it has no source. *)
Definition gallery_entry (title it : value) : option node :=
  if truthy (image_src it)
  then Some (gallery_item (image_src it) (image_alt title it))
  else None.

(** The records the card renderer accepts: a value that is neither null
    nor undefined, whose title, cover and description convert to a string,
    and whose [tags], when it is there, is an array of values that convert. *)
Definition record_ok (p : value) : bool :=
  match p with
  | VUndefined | VNull => false
  | _ =>
      convertible (get_opt p "title")
      && convertible (get_opt p "cover")
      && convertible (get_opt p "description")
      && (negb (truthy (get_opt p "tags"))
          || isArray (get_opt p "tags") && convertible (get_opt p "tags"))
  end.

(** A value none of whose parts raises when it is converted: no object in
    it has an own toString property. *)
Fixpoint plain (v : value) : bool :=
  match v with
  | VArr items => forallb plain items
  | VObj props =>
      match lookup_prop "toString" props with
      | Some _ => false
      | None => forallb (λ kv, plain kv.2) props
      end
  | _ => true
  end.

(** An entry of [images] whose source and alternative text convert. *)
Definition image_ok (it : value) : bool :=
  convertible (image_src it) && convertible (get_opt it "alt").

(** The tags of a record, none when the field is no array. *)
Definition tags_of (p : value) : list value :=
  match get_opt p "tags" with
  | VArr ts => ts
  | _ => []
  end.

(** The card of a record, as a tree. *)
Definition card_of (p : value) : node :=
  let title := get_opt p "title" in
  let cover := get_opt p "cover" in
  Elem "article"
    [("class", "card"); ("tabindex", "0"); ("role", "link");
     ("aria-label", "Open " +:+ to_string title +:+ " project")]
    [("click", Go p); ("keydown", GoOnKey p)]
    [Elem "div" [("class", "card-cover")] []
       (if truthy cover
        then [Elem "img" [("src", to_string cover);
                          ("alt", to_string title +:+ " cover")] [] []]
        else []);
     Elem "div" [("class", "card-body")] []
       [Elem "h3" [("class", "card-title")] []
          (text_of (or title (VStr "Untitled")));
        Elem "p" [("class", "card-desc")] []
          (text_of (or (get_opt p "description") (VStr "No description yet.")));
        Elem "div" [("class", "card-tags")] [] (pill <$> tags_of p)]].

(** What a card shows of its record. *)
Definition card_shows (p : value) (c : node) : Prop :=
  card_title c
  = Some (if truthy (get_opt p "title") then to_string (get_opt p "title")
          else "Untitled")
  ∧ card_desc c
    = Some (if truthy (get_opt p "description") then to_string (get_opt p "description")
            else "No description yet.")
  ∧ card_tags c = Some (shown <$> tags_of p).

(** The nodes of the meta area: the row of tags when there is a tag, the
    live link, the repository link. *)
Definition meta_nodes (p : value) : list node :=
  match get_opt p "tags" with
  | VArr (t :: ts) =>
      [Elem "div" [("class", "project-tags card-tags")] [] (pill <$> (t :: ts))]
  | _ => []
  end
  ++ (if truthy (get_opt p "link") then [meta_link (get_opt p "link") "View Live"] else [])
  ++ (if truthy (get_opt p "repo") then [meta_link (get_opt p "repo") "Source Code"] else []).

(** The nodes of the body section, by priority. *)
Definition body_nodes (p : value) : list node :=
  match get_opt p "body" with
  | VArr pars => map paragraph pars
  | _ =>
      if truthy (get_opt p "bodyHtml") then html_of (get_opt p "bodyHtml")
      else if truthy (get_opt p "long") then [paragraph (get_opt p "long")]
      else if truthy (get_opt p "description") then [paragraph (get_opt p "description")]
      else []
  end.

(** The nodes of the gallery: the entries of [images] that have a source. *)
Definition gallery_nodes (p : value) : list node :=
  match get_opt p "images" with
  | VArr items => omap (gallery_entry (get_opt p "title")) items
  | _ => []
  end.

(** The heading: the visible title, the tab title, the summary. *)
Definition heading (p : value) (w : window) : window :=
  let title := get_opt p "title" in
  show "project-summary"
    (text_of (or (or (get_opt p "summary") (get_opt p "description")) (VStr "")))
    (with_doc_title (to_string (or title (VStr "Project")) +:+ " • My Portfolio")
       (show "project-title" (text_of (or title (VStr "Untitled project"))) w)).

(** The window after the full render of a record: the heading, then the
    meta area, the body and the gallery. *)
Definition rendered (p : value) (w : window) : window :=
  show "project-gallery" (gallery_nodes p)
    (show "project-body" (body_nodes p)
       (show "project-meta" (meta_nodes p) (heading p w))).

(** The placeholder record of loadProjects. *)
Definition placeholder : value :=
  VObj [("title", VStr "Sample Project");
        ("description", VStr "Replace projects.json to populate real projects.");
        ("slug", VStr "sample-project");
        ("tags", VArr [VStr "demo"; VStr "starter"]);
        ("cover", VStr "")].

(** A fetch fails: no response, a status outside 200..299, or a body that
    is not JSON. *)
Definition fetch_fails (net : fetch_outcome) : Prop :=
  net = NoResponse
  ∨ ∃ status body, net = Response status body
                   ∧ (status < 200 ∨ 299 < status ∨ body = None).

(** The location a card navigates to. *)
Definition target (p : value) : string :=
  "project.html?id="
  +:+ encodeURIComponent
        (if truthy (get_opt p "slug") then to_string (get_opt p "slug")
         else "sample-project").

(** The mailto target composed of the trimmed fields. *)
Definition mailto_of (name email message : string) : string :=
  "mailto:" +:+ encodeURIComponent TO_EMAIL
  +:+ "?subject=" +:+ encodeURIComponent ("Portfolio contact from " +:+ name)
  +:+ "&body="
  +:+ encodeURIComponent
        ("Name: " +:+ name +:+ LF +:+ "Email: " +:+ email +:+ LF +:+ LF
         +:+ "Message:" +:+ LF +:+ message).

(** The feedback on the submit button, when the form has one. *)
Definition feedback (w : window) : window :=
  match submit_button w with
  | Some b =>
      with_timers (timers w ++ [(2500, label b)])
        (with_submit_button
           (Some {| disabled := true; label := "Opening your email client…" |}) w)
  | None => w
  end.

(** A page with the contact form filled in. *)
Definition contact_page (name email message : string) : window :=
  page [] [("name", name); ("email", email); ("message", message)] None NoResponse.

(** ** Host behaviour and views for the further properties *)

(** Percent-decoding of what encodeURIComponent produces (the inverse the
    proofs of injectivity go through; the script never decodes). *)
Definition unhex (c : ascii) : N :=
  match c with
  | "0" => 0 | "1" => 1 | "2" => 2 | "3" => 3 | "4" => 4 | "5" => 5
  | "6" => 6 | "7" => 7 | "8" => 8 | "9" => 9 | "A" => 10 | "B" => 11
  | "C" => 12 | "D" => 13 | "E" => 14 | "F" => 15 | _ => 0
  end%char%N.

Fixpoint percent_decode (s : string) : string :=
  match s with
  | "" => ""
  | String c rest =>
      if Ascii.eqb c "%" then
        match rest with
        | String a (String b rest') =>
            String (ascii_of_N (16 * unhex a + unhex b)) (percent_decode rest')
        | _ => String c (percent_decode rest)
        end
      else String c (percent_decode rest)
  end.

Definition chars (s : string) : list ascii := String.list_ascii_of_string s.

(** A string of one-byte white space only (TAB LF VT FF CR SP). *)
Definition blank (s : string) : bool := forallb space1 (chars s).

(** A one-byte character that is no white space. *)
Definition visible (c : ascii) : bool := (code c <? 128)%N && negb (space1 c).

(** The characters that delimit the parts of a mailto target, and the white
    space a field may hold. *)
Definition delimiter (c : ascii) : bool :=
  bool_decide (code c ∈ [38; 61; 63; 35; 32; 10; 13; 9]%N).

(** The host runs the callback of the oldest pending timer of the script:
    [btn.disabled = false; btn.textContent = prev] (line 356). *)
Definition fire_timer : js unit :=
  λ w,
  match timers w with
  | (_, prev) :: rest => restore_button prev (with_timers rest w)
  | [] => ret () w
  end.

(** The host dispatches a submit event to the form: the submit listeners
    run in registration order. *)
Fixpoint run_listeners (hs : list handler) (e : event) : js event :=
  match hs with
  | [] => ret e
  | h :: rest => let! e' := handle h e in run_listeners rest e'
  end.

Definition submit_form (e : event) : js event :=
  λ w,
  match contact_form w with
  | Some ls =>
      run_listeners (omap (λ th, if String.eqb th.1 "submit" then Some th.2 else None) ls)
        e w
  | None => ret e w
  end.

(** Everything of the window that neither loader writes: the form and its
    controls, the location, the alerts, the timers. *)
Definition untouched (w w' : window) : Prop :=
  controls w' = controls w
  ∧ contact_form w' = contact_form w
  ∧ submit_button w' = submit_button w
  ∧ navigations w' = navigations w
  ∧ alerts w' = alerts w
  ∧ timers w' = timers w.

(** A node and everything below it, in document order. *)
Fixpoint descendants (n : node) : list node :=
  n :: match n with
       | Elem _ _ _ kids => flat_map descendants kids
       | _ => []
       end.

Definition is_markup (n : node) : bool :=
  match n with Html _ => true | _ => false end.

(** The tree holds a fragment parsed from markup. *)
Definition has_markup (n : node) : bool := existsb is_markup (descendants n).

(** An anchor opens in a new browsing context and gives it no opener. *)
Definition external (n : node) : bool :=
  bool_decide (attr "target" n = Some "_blank")
  && bool_decide (attr "rel" n = Some "noopener noreferrer").

(** Every anchor of the tree is external. *)
Definition anchors_external (n : node) : bool :=
  forallb (λ d, negb (tag_is "a" d) || external d) (descendants n).

(** The tree holds an anchor element. *)
Definition has_anchor (n : node) : bool := existsb (tag_is "a") (descendants n).

(** The slugs of a catalog: the string slugs of its records, in order. *)
Definition slugs (items : list value) : list string :=
  omap (λ p, match get_opt p "slug" with VStr s => Some s | _ => None end) items.

Definition is_object (v : value) : bool :=
  match v with VObj _ => true | _ => false end.

(** [w'] is [w] but for the page (elements, tab title, console) and [n] more
    requests for the catalog. *)
Definition footprint (n : nat) (w w' : window) : Prop :=
  untouched w w' ∧ requests w' = requests w ++ replicate n "projects.json".

(** A computation with that footprint, whether it returns or throws. *)
Definition issues {A} (n : nat) (m : js A) : Prop :=
  ∀ w, footprint n w (final (m w)).

(** * Properties *)

Example encode_sample : encodeURIComponent "a b&c/é" = "a%20b%26c%2F%C3%A9".
Proof. reflexivity. Qed.

Example trim_sample : trim (LF +:+ "  hi there " +:+ NBSP +:+ " ") = "hi there".
Proof. vm_compute. reflexivity. Qed.

(** ** Conversions *)

Lemma ToString_convertible (v : value) :
  convertible v = true → ToString v = Ok (to_string v).
Proof. intros H. unfold ToString. by rewrite H. Qed.

Lemma ToString_raises (v : value) :
  convertible v = false → ToString v = Raise conversion_error.
Proof. intros H. unfold ToString. by rewrite H. Qed.

(** What is falsy converts: undefined, null, false, 0 and the empty string. *)
Lemma convertible_falsy (v : value) : truthy v = false → convertible v = true.
Proof. by destruct v. Qed.

Lemma convertible_or (a b : value) :
  convertible a = true → convertible b = true → convertible (or a b) = true.
Proof. intros Ha Hb. unfold or. by destruct (truthy a). Qed.

Lemma text_kids_convertible (v : value) :
  convertible v = true → text_kids v = Ok (text_of v).
Proof.
  intros H. destruct v; try done; unfold text_kids, text_of;
    by rewrite ToString_convertible.
Qed.

Lemma text_kids_raises (v : value) :
  convertible v = false → text_kids v = Raise conversion_error.
Proof.
  intros H. destruct v; try done; unfold text_kids; by rewrite ToString_raises.
Qed.

Lemma set_textContent_convertible (v : value) (n : node) :
  convertible v = true → set_textContent v n = Ok (with_text v n).
Proof. intros H. unfold set_textContent. by rewrite text_kids_convertible. Qed.

Lemma set_attr_convertible (k : string) (v : value) (n : node) :
  convertible v = true → set_attr k v n = Ok (setAttribute k (to_string v) n).
Proof. intros H. unfold set_attr. by rewrite ToString_convertible. Qed.

Lemma html_kids_convertible (v : value) :
  truthy v = true → convertible v = true → html_kids v = Ok (html_of v).
Proof.
  intros Ht H. destruct v; try done; unfold html_kids, html_of;
    by rewrite ToString_convertible.
Qed.

(** Induction on a value, with the entries of an array and the properties of
    an object. *)
Lemma value_ind_deep (P : value → Prop) :
  P VUndefined → P VNull → (∀ b, P (VBool b)) → (∀ n, P (VNum n)) →
  (∀ s, P (VStr s)) →
  (∀ items, Forall P items → P (VArr items)) →
  (∀ props, Forall (λ kv, P kv.2) props → P (VObj props)) →
  ∀ v, P v.
Proof.
  intros Hu Hn Hb Hz Hs Ha Ho. fix IH 1.
  intros [| |b|n|s|items|props]; [done|done|apply Hb|apply Hz|apply Hs| |].
  - apply Ha. induction items as [|x rest IHl]; constructor; [apply IH|exact IHl].
  - apply Ho. induction props as [|[k x] rest IHl]; constructor; [apply IH|exact IHl].
Qed.

(** The parts of a plain value are plain, and a plain value converts. *)
Lemma plain_convertible (v : value) : plain v = true → convertible v = true.
Proof.
  induction v as [| | | | |items IH|props _] using value_ind_deep; try done.
  - cbn [plain convertible]. rewrite !forallb_forall. intros H x Hx.
    rewrite Forall_forall in IH. apply IH; [by apply list_elem_of_In|by apply H].
  - cbn [plain convertible]. by destruct (lookup_prop "toString" props).
Qed.

Lemma plain_lookup (props : list (string * value)) (k : string) (v : value) :
  forallb (λ kv, plain kv.2) props = true → lookup_prop k props = Some v → plain v = true.
Proof.
  induction props as [|[k' x] rest IH]; [done|].
  cbn [forallb lookup_prop]. intros [Hx Hrest]%andb_true_iff.
  destruct (String.eqb k k'); [by intros [= <-]|by apply IH].
Qed.

Lemma plain_get_opt (p : value) (k : string) : plain p = true → plain (get_opt p k) = true.
Proof.
  destruct p as [| | | | | |props]; try done.
  cbn [plain get_opt]. destruct (lookup_prop "toString" props); [done|].
  intros H. destruct (lookup_prop k props) as [v|] eqn:Hv; [|done].
  by apply (plain_lookup props k).
Qed.

Lemma plain_field (p : value) (k : string) :
  plain p = true → convertible (get_opt p k) = true.
Proof. intros H. by apply plain_convertible, plain_get_opt. Qed.

Lemma plain_entries (items : list value) :
  plain (VArr items) = true → Forall (λ x, plain x = true) items.
Proof.
  cbn [plain]. rewrite forallb_forall, Forall_forall.
  intros H x Hx. by apply H, list_elem_of_In.
Qed.

(** ** The resolver *)

Section Resolver.

Variable id : string.

Lemma find_first_none (items : list value) :
  Forall (λ x, slug_is id x = Ok false) items →
  find_first (slug_is id) items = Ok VUndefined.
Proof.
  induction 1 as [|x rest Hx _ IH]; simpl; [done|].
  by rewrite Hx.
Qed.

Lemma find_first_skip (l1 l2 : list value) :
  Forall (λ x, slug_is id x = Ok false) l1 →
  find_first (slug_is id) (l1 ++ l2) = find_first (slug_is id) l2.
Proof.
  induction 1 as [|x rest Hx _ IH]; simpl; [done|].
  by rewrite Hx.
Qed.

Lemma find_first_hit (l1 l2 : list value) (p : value) :
  Forall (λ x, slug_is id x = Ok false) l1 →
  slug_is id p = Ok true →
  find_first (slug_is id) (l1 ++ p :: l2) = Ok p.
Proof.
  intros H1 Hp. rewrite find_first_skip by done. simpl. by rewrite Hp.
Qed.

(** What [find_first] returns was accepted, and everything before it was
    looked at and refused. *)
Lemma find_first_inv (items : list value) (p : value) :
  find_first (slug_is id) items = Ok p →
  p = VUndefined ∧ Forall (λ x, slug_is id x = Ok false) items
  ∨ ∃ l1 l2, items = l1 ++ p :: l2
             ∧ Forall (λ x, slug_is id x = Ok false) l1
             ∧ slug_is id p = Ok true.
Proof.
  induction items as [|x rest IH]; simpl.
  - intros [= <-]. left. by split.
  - destruct (slug_is id x) as [[]|] eqn:Hx; simpl; [| |done].
    + intros [= <-]. right. exists [], rest. by repeat split.
    + intros H. destruct (IH H) as [[-> Hall]|(l1 & l2 & -> & Hall & Hp)].
      * left. split; [done|]. by constructor.
      * right. exists (x :: l1), l2. repeat split; [|done]. by constructor.
Qed.

Lemma truthy_str (s : string) : truthy (VStr s) = true ↔ s ≠ "".
Proof.
  unfold truthy. destruct (String.eqb_spec s ""); simpl; split; congruence.
Qed.

Lemma strict_eq_str_true (v : value) (s : string) :
  strict_eq_str v s = true ↔ v = VStr s.
Proof.
  destruct v; simpl; try (split; congruence).
  rewrite String.eqb_eq. split; congruence.
Qed.

Lemma Ok_strict_eq (v : value) (s : string) :
  Ok (strict_eq_str v s) = Ok true ↔ v = VStr s.
Proof.
  rewrite <- strict_eq_str_true. split; [|by intros ->].
  intros H. by injection H.
Qed.

Lemma no_slug_no_match : id ≠ "" → strict_eq_str (VStr "") id = false.
Proof.
  intros Hid. destruct (strict_eq_str (VStr "") id) eqn:E; [|done].
  apply strict_eq_str_true in E. congruence.
Qed.

(** Over a record and a non-empty id, the arrow accepts exactly the slug
    that is the string [id]. *)
Lemma slug_is_record (props : list (string * value)) :
  id ≠ "" →
  slug_is id (VObj props) = Ok true ↔ lookup_prop "slug" props = Some (VStr id).
Proof.
  intros Hid. unfold slug_is, get, rbind.
  destruct (lookup_prop "slug" props) as [v|] eqn:Hv.
  - change (default VUndefined (Some v)) with v.
    unfold or. destruct (truthy v) eqn:Ht.
    + split.
      * intros [= H%strict_eq_str_true]. by subst.
      * intros [= ->]. f_equal. by apply strict_eq_str_true.
    + cbv beta iota. rewrite no_slug_no_match by done. split; [done|].
      intros [= ->]. apply truthy_str in Hid. congruence.
  - change (default VUndefined None) with VUndefined. unfold or. simpl truthy.
    cbv beta iota. rewrite no_slug_no_match by done. done.
Qed.

End Resolver.

Lemma slug_is_typed (id : string) (props : list (string * value)) :
  slug_typed props →
  slug_is id (VObj props) = Ok true
  ↔ default (VStr "") (lookup_prop "slug" props) = VStr id.
Proof.
  intros [Hnone|[s Hs]]; unfold slug_is, get, rbind.
  - rewrite Hnone. change (default VUndefined None) with VUndefined.
    change (default (VStr "") None) with (VStr ""). unfold or. simpl truthy.
    cbv beta iota. apply Ok_strict_eq.
  - rewrite Hs. change (default VUndefined (Some (VStr s))) with (VStr s).
    change (default (VStr "") (Some (VStr s))) with (VStr s).
    unfold or. destruct (truthy (VStr s)) eqn:Ht; [apply Ok_strict_eq|].
    assert (s = "") as ->; [|apply Ok_strict_eq].
    destruct (decide (s = "")) as [|Hne]; [done|].
    apply truthy_str in Hne. congruence.
Qed.

(** C3. The resolver of the detail page, [data.find(x => (x.slug || '') === id)]:
    a record whose slug is a string or is missing is accepted exactly when
    its slug, with the empty string for a missing one, is the string [id]
    itself (no case folding, no trimming: the comparison is equality of
    strings), and for a non-empty id this holds of any record; the record
    returned is the first accepted one in catalog
    order, every record before it having been refused; and when every record
    is refused the result is undefined.  Resolving "abc" against two records
    of slug "abc" titled "A" and "B" returns the one titled "A", while "ABC",
    " abc" and "abc " resolve to nothing. *)
Theorem resolver_first_exact_match (id : string) :
  (∀ props, slug_typed props →
     slug_is id (VObj props) = Ok true
     ↔ default (VStr "") (lookup_prop "slug" props) = VStr id)
  ∧ (id ≠ "" →
     ∀ props, slug_is id (VObj props) = Ok true
              ↔ lookup_prop "slug" props = Some (VStr id))
  ∧ (∀ l1 p l2,
       Forall (λ x, slug_is id x = Ok false) l1 →
       slug_is id p = Ok true →
       find (VArr (l1 ++ p :: l2)) (slug_is id) = Ok p)
  ∧ (∀ items,
       Forall (λ x, slug_is id x = Ok false) items →
       find (VArr items) (slug_is id) = Ok VUndefined)
  ∧ (∀ items p,
       find (VArr items) (slug_is id) = Ok p →
       p = VUndefined ∧ Forall (λ x, slug_is id x = Ok false) items
       ∨ ∃ l1 l2, items = l1 ++ p :: l2
                  ∧ Forall (λ x, slug_is id x = Ok false) l1
                  ∧ slug_is id p = Ok true)
  ∧ (let a := VObj [("slug", VStr "abc"); ("title", VStr "A")] in
     let b := VObj [("slug", VStr "abc"); ("title", VStr "B")] in
     find (VArr [a; b]) (slug_is "abc") = Ok a
     ∧ find (VArr [a; b]) (slug_is "ABC") = Ok VUndefined
     ∧ find (VArr [a; b]) (slug_is " abc") = Ok VUndefined
     ∧ find (VArr [a; b]) (slug_is "abc ") = Ok VUndefined).
Proof.
  split; [|split; [|split; [|split; [|split]]]].
  - intros props. apply slug_is_typed.
  - intros Hid props. by apply slug_is_record.
  - intros l1 p l2. apply find_first_hit.
  - intros items. apply find_first_none.
  - intros items p. apply find_first_inv.
  - by vm_compute.
Qed.

Lemma resolver_first_exact_match_witness :
  find (VArr ([VObj [("slug", VStr "x")]; VObj []]
              ++ VObj [("slug", VStr "abc"); ("title", VStr "A")]
              :: [VObj [("slug", VStr "abc"); ("title", VStr "B")]]))
       (slug_is "abc")
  = Ok (VObj [("slug", VStr "abc"); ("title", VStr "A")])
  ∧ find (VArr [VObj [("slug", VStr "x")]; VObj []]) (slug_is "abc") = Ok VUndefined.
Proof.
  destruct (resolver_first_exact_match "abc") as (_ & _ & Hhit & Hnone & _).
  split.
  - apply Hhit; [|reflexivity].
    repeat constructor.
  - apply Hnone. repeat constructor.
Defined.

(** ** Effects on the window *)

Lemma has_element_show (id' id : string) (kids : list node) (w : window) :
  has_element id' (show id kids w) = has_element id' w.
Proof.
  unfold show. destruct (has_element id w) eqn:Hid; [|done].
  unfold has_element in *. simpl.
  destruct (decide (id = id')) as [->|Hne].
  - rewrite lookup_insert_eq. rewrite Hid. apply bool_decide_eq_true. eauto.
  - by rewrite lookup_insert_ne.
Qed.


Lemma show_lookup_ne (id id' : string) (kids : list node) (w : window) :
  id ≠ id' → elements (show id kids w) !! id' = elements w !! id'.
Proof.
  intros H. unfold show. destruct (has_element id w); [|done].
  simpl. by apply lookup_insert_ne.
Qed.

Lemma set_text_if_present_show (id : string) (v : value) (w : window) :
  convertible v = true →
  set_text_if_present id v w = Done () (show id (text_of v) w).
Proof.
  intros Hv. unfold set_text_if_present, show.
  destruct (has_element id w); [|done].
  unfold bind, lift. by rewrite text_kids_convertible.
Qed.

(** A value that does not convert leaves the element as it is. *)
Lemma set_text_if_present_raises (id : string) (v : value) (w : window) :
  has_element id w = true → convertible v = false →
  set_text_if_present id v w = Threw conversion_error w.
Proof.
  intros Hid Hv. unfold set_text_if_present. rewrite Hid.
  unfold bind, lift. by rewrite text_kids_raises.
Qed.

Lemma fetch_json_outcome (w : window) :
  fetch_json "projects.json" w =
  match delivered (network w) with
  | Some data => Done data (requesting w)
  | None => Threw (fetch_error (network w)) (requesting w)
  end.
Proof.
  unfold fetch_json, bind, modify, read, requesting, delivered, fetch_error. simpl.
  destruct (network w) as [|status [data|]]; simpl; [done| |];
    by destruct (res_ok status).
Qed.

Lemma fetch_fails_delivered (net : fetch_outcome) :
  fetch_fails net ↔ delivered net = None.
Proof.
  unfold fetch_fails, delivered, res_ok. split.
  - intros [-> | (status & body & -> & H)]; [done|].
    destruct body as [data|]; [|done].
    destruct H as [H|[H|H]]; [| |done].
    + by rewrite (proj2 (Z.leb_gt 200 status)) by lia.
    + rewrite (proj2 (Z.leb_gt status 299)) by lia. by rewrite andb_false_r.
  - destruct net as [|status [data|]]; [by left| |].
    + destruct (Z.leb_spec 200 status), (Z.leb_spec status 299); simpl;
        try done; intros _; right; exists status, (Some data);
        (split; [done|lia]).
    + intros _. right. exists status, None. split; [done|]. by right; right.
Qed.

Lemma delivered_ok (status : Z) (data : value) :
  200 ≤ status ≤ 299 → delivered (Response status (Some data)) = Some data.
Proof.
  intros [H1 H2]. unfold delivered, res_ok.
  by rewrite (proj2 (Z.leb_le 200 status)), (proj2 (Z.leb_le status 299)).
Qed.

Lemma truthy_of_param (o : option string) :
  truthy (of_param o) = true ↔ ∃ s, o = Some s ∧ s ≠ "".
Proof.
  destruct o as [s|]; simpl of_param.
  - rewrite truthy_str. split; [eauto|]. by intros (? & [= <-] & ?).
  - split; [done|]. by intros (? & [=] & _).
Qed.

Lemma id_of_window (w : window) :
  match getParam w with
  | Some getParam => of_param (getParam "id")
  | None => VNull
  end = of_param (requested_id w).
Proof. unfold requested_id. by destruct (getParam w). Qed.

(** A value the arrow accepts for a non-empty id is a record. *)
Lemma slug_is_object (id : string) (p : value) :
  id ≠ "" → slug_is id p = Ok true → ∃ props, p = VObj props.
Proof.
  intros Hid H. destruct p; try done; eauto;
    unfold slug_is, get, rbind, or in H; simpl truthy in H; cbv beta iota in H;
    rewrite no_slug_no_match in H by done; done.
Qed.

(** ** The detail page: what it shows for a missing or a wrong input *)

Section Detail.

Variable w : window.
Hypothesis on_detail_page : has_element "project-article" w = true.

Lemma detail_without_id :
  requested_id w = None ∨ requested_id w = Some "" →
  loadProjectDetail w
  = Done () (notice "Project not specified" "Missing ?id=… in the URL." w).
Proof.
  intros Hid. unfold loadProjectDetail.
  rewrite on_detail_page, id_of_window. cbn [negb].
  assert (truthy (of_param (requested_id w)) = false) as ->.
  { destruct Hid as [-> | ->]; reflexivity. }
  cbn [negb].
  unfold bind. by rewrite !set_text_if_present_show by done.
Qed.

Lemma detail_with_id (id : string) :
  requested_id w = Some id → id ≠ "" →
  loadProjectDetail w =
  match delivered (network w) with
  | None =>
      Done () (warned None (fetch_error (network w))
                 (notice "Error loading project" "Could not fetch projects.json."
                    (requesting w)))
  | Some data =>
      match find data (slug_is id) with
      | Raise e => Threw e (requesting w)
      | Ok p =>
          if truthy p then render_detail p (requesting w)
          else Done () (notice "Project not found"
                          ("No project with id=" +:+ DQUOTE +:+ id +:+ DQUOTE +:+ ".")
                          (requesting w))
      end
  end.
Proof.
  intros Hreq Hid. unfold loadProjectDetail.
  rewrite on_detail_page, id_of_window, Hreq. cbn [negb].
  assert (truthy (of_param (Some id)) = true) as -> by (apply truthy_of_param; eauto).
  cbn [negb].
  unfold bind at 1. unfold try_catch. unfold bind at 1.
  rewrite fetch_json_outcome.
  destruct (delivered (network w)) as [data|].
  - unfold ret at 1. simpl of_param. simpl to_string.
    unfold bind at 1. unfold lift.
    destruct (find data (slug_is id)) as [p|e]; [|done].
    unfold ret at 1. destruct (truthy p); cbn [negb]; [done|].
    unfold bind. by rewrite !set_text_if_present_show by done.
  - unfold bind. rewrite !set_text_if_present_show by done. reflexivity.
Qed.

End Detail.

Lemma show_fields (id : string) (kids : list node) (w : window) :
  doc_title (show id kids w) = doc_title w
  ∧ navigations (show id kids w) = navigations w
  ∧ alerts (show id kids w) = alerts w
  ∧ requests (show id kids w) = requests w
  ∧ console (show id kids w) = console w.
Proof. unfold show. by destruct (has_element id w). Qed.





(** ** Filling an element of the page *)

Lemma for_each_append {A} (id : string) (h : A → option node) (l : list A) (w : window) :
  for_each (λ x, append_opt id (h x)) l w
  = Done () (with_elements (alter (λ kids, kids ++ omap h l) id) w).
Proof.
  revert w. induction l as [|x rest IH]; intros w.
  - simpl. unfold ret. f_equal. destruct w. unfold with_elements. simpl. f_equal.
    symmetry. apply alter_id. intros kids _. apply app_nil_r.
  - simpl for_each. unfold bind. destruct (h x) as [n|] eqn:Hx; simpl append_opt.
    + unfold append_kid, modify. rewrite IH.
      f_equal. unfold with_elements. cbn. f_equal.
      rewrite alter_alter_eq. apply alter_ext. intros kids _. cbn.
      by rewrite Hx, <- app_assoc.
    + unfold ret. rewrite IH. cbn. by rewrite Hx.
Qed.

Lemma omap_Some_map {A B} (f : A → B) (l : list A) :
  omap (λ x, Some (f x)) l = map f l.
Proof. induction l as [|x rest IH]; [done|]. cbn. by f_equal. Qed.

(** Clearing an element, then appending to it. *)
Lemma fill_element {A} (id : string) (h : A → option node) (l : list A) (w : window) :
  (set_kids id [] ;; for_each (λ x, append_opt id (h x)) l) w
  = Done () (with_elements (<[id := omap h l]>) w).
Proof.
  unfold bind, set_kids, modify. rewrite for_each_append. f_equal.
  unfold with_elements. simpl. f_equal. by rewrite alter_insert_eq.
Qed.

Lemma for_each_ext {A} (f g : A → js unit) (l : list A) :
  (∀ x, f x = g x) → for_each f l = for_each g l.
Proof.
  intros Hfg. induction l as [|x rest IH]; [done|].
  simpl. by rewrite Hfg, IH.
Qed.

Lemma for_each_ext_Forall {A} (f g : A → js unit) (l : list A) :
  Forall (λ x, f x = g x) l → for_each f l = for_each g l.
Proof.
  induction 1 as [|x rest Hx _ IH]; [done|].
  simpl. by rewrite Hx, IH.
Qed.

(** A loop stops at the first callback that throws. *)
Lemma for_each_app_run {A} (f : A → js unit) (l1 l2 : list A) (w : window) :
  for_each f (l1 ++ l2) w
  = match for_each f l1 w with
    | Done _ w1 => for_each f l2 w1
    | Threw e w1 => Threw e w1
    end.
Proof.
  revert w. induction l1 as [|x l1 IH]; intros w; [done|].
  cbn [app for_each]. unfold bind. destruct (f x w) as [[] w1|e w1]; [|done].
  apply IH.
Qed.

(** ** The body of the detail page *)

Lemma new_para_convertible (v : value) :
  convertible v = true → new_para v = Ok (paragraph v).
Proof.
  intros H. unfold new_para. by rewrite set_textContent_convertible.
Qed.

Section Body.

Variable props : list (string * value).
Variable w : window.
Hypothesis has_body : has_element "project-body" w = true.

Let p := VObj props.

Lemma render_body_unfold :
  render_body p w =
  (set_kids "project-body" [] ;;
   if isArray (get_opt p "body") then
     forEach (get_opt p "body")
       (λ par, let! para := lift (new_para par) in append_kid "project-body" para)
   else if truthy (get_opt p "bodyHtml") then
     let! kids := lift (html_kids (get_opt p "bodyHtml")) in set_kids "project-body" kids
   else if truthy (get_opt p "long") then
     let! para := lift (new_para (get_opt p "long")) in append_kid "project-body" para
   else if truthy (get_opt p "description") then
     let! para := lift (new_para (get_opt p "description")) in
     append_kid "project-body" para
   else ret ()) w.
Proof.
  unfold render_body. rewrite has_body. cbn [negb]. reflexivity.
Qed.

Lemma render_body_array (pars : list value) :
  get_opt p "body" = VArr pars →
  Forall (λ par, convertible par = true) pars →
  render_body p w = Done () (with_elements (<["project-body" := map paragraph pars]>) w).
Proof.
  intros Hb Hpars. rewrite render_body_unfold, Hb. cbn [isArray forEach].
  rewrite <- omap_Some_map.
  rewrite (for_each_ext_Forall _ (λ par, append_opt "project-body" (Some (paragraph par)))).
  - apply (fill_element "project-body" (λ par, Some (paragraph par)) pars w).
  - eapply Forall_impl; [exact Hpars|]. intros par Hpar. cbv beta in Hpar.
    by rewrite new_para_convertible.
Qed.

(** An entry that does not convert stops the loop: the paragraphs before it
    stay, the entries after it are not looked at. *)
Lemma render_body_array_raises (l1 l2 : list value) (x : value) :
  get_opt p "body" = VArr (l1 ++ x :: l2) →
  Forall (λ par, convertible par = true) l1 →
  convertible x = false →
  render_body p w
  = Threw conversion_error (with_elements (<["project-body" := map paragraph l1]>) w).
Proof.
  intros Hb Hpars Hx. rewrite render_body_unfold, Hb. cbn [isArray forEach].
  unfold bind at 1, set_kids, modify. rewrite for_each_app_run.
  rewrite (for_each_ext_Forall _ (λ par, append_opt "project-body" (Some (paragraph par)))
             l1).
  - rewrite for_each_append, omap_Some_map. cbn [for_each]. unfold bind.
    unfold new_para, set_textContent. rewrite text_kids_raises by done.
    cbn [rbind lift]. unfold throw. f_equal. unfold with_elements. cbn. f_equal.
    by rewrite alter_insert_eq.
  - eapply Forall_impl; [exact Hpars|]. intros par Hpar. cbv beta in Hpar.
    by rewrite new_para_convertible.
Qed.

Lemma render_body_html :
  isArray (get_opt p "body") = false →
  truthy (get_opt p "bodyHtml") = true →
  convertible (get_opt p "bodyHtml") = true →
  render_body p w
  = Done () (with_elements (<["project-body" := html_of (get_opt p "bodyHtml")]>) w).
Proof.
  intros Hb Hh Hc. rewrite render_body_unfold, Hb, Hh.
  unfold bind, set_kids, modify, lift. rewrite html_kids_convertible by done.
  unfold ret. f_equal.
  unfold with_elements. cbn. f_equal. apply insert_insert_eq.
Qed.

Lemma render_body_long :
  isArray (get_opt p "body") = false →
  truthy (get_opt p "bodyHtml") = false →
  truthy (get_opt p "long") = true →
  convertible (get_opt p "long") = true →
  render_body p w
  = Done () (with_elements (<["project-body" := [paragraph (get_opt p "long")]]>) w).
Proof.
  intros Hb Hh Hl Hc. rewrite render_body_unfold, Hb, Hh, Hl.
  unfold bind, set_kids, append_kid, modify, lift. rewrite new_para_convertible by done.
  unfold ret. f_equal.
  unfold with_elements. cbn. f_equal. by rewrite alter_insert_eq.
Qed.

Lemma render_body_description :
  isArray (get_opt p "body") = false →
  truthy (get_opt p "bodyHtml") = false →
  truthy (get_opt p "long") = false →
  truthy (get_opt p "description") = true →
  convertible (get_opt p "description") = true →
  render_body p w
  = Done () (with_elements
               (<["project-body" := [paragraph (get_opt p "description")]]>) w).
Proof.
  intros Hb Hh Hl Hd Hc. rewrite render_body_unfold, Hb, Hh, Hl, Hd.
  unfold bind, set_kids, append_kid, modify, lift. rewrite new_para_convertible by done.
  unfold ret. f_equal.
  unfold with_elements. cbn. f_equal. by rewrite alter_insert_eq.
Qed.

Lemma render_body_empty :
  isArray (get_opt p "body") = false →
  truthy (get_opt p "bodyHtml") = false →
  truthy (get_opt p "long") = false →
  truthy (get_opt p "description") = false →
  render_body p w = Done () (with_elements (<["project-body" := []]>) w).
Proof.
  intros Hb Hh Hl Hd. by rewrite render_body_unfold, Hb, Hh, Hl, Hd.
Qed.

(** A markup that does not convert leaves the section cleared. *)
Lemma render_body_html_raises :
  isArray (get_opt p "body") = false →
  truthy (get_opt p "bodyHtml") = true →
  convertible (get_opt p "bodyHtml") = false →
  render_body p w
  = Threw conversion_error (with_elements (<["project-body" := []]>) w).
Proof.
  intros Hb Hh Hc. rewrite render_body_unfold, Hb, Hh.
  unfold bind, set_kids, modify, lift.
  assert (html_kids (get_opt p "bodyHtml") = Raise conversion_error) as ->; [|done].
  destruct (get_opt p "bodyHtml"); try done; unfold html_kids;
    by rewrite ToString_raises.
Qed.

End Body.

Lemma paragraph_text (s : string) :
  s ≠ "" → paragraph (VStr s) = Elem "p" [] [] [Text s].
Proof.
  intros Hs. unfold paragraph, text_of, text_nodes.
  simpl to_string. by destruct (String.eqb_spec s "").
Qed.

Lemma html_of_text (s : string) : s ≠ "" → html_of (VStr s) = [Html s].
Proof.
  intros Hs. unfold html_of. simpl to_string. by destruct (String.eqb_spec s "").
Qed.

(** C2. The body of the detail page of a resolved record, where a field is
    present when it holds a truthy value (for a string: a non-empty one),
    as [if (p.bodyHtml)] tests it, and where what is rendered converts to a
    string (as every string, number and boolean does, and every object
    without a toString property of its own).  When [body] is an array the body section
    holds one paragraph per entry, in the order of the array, each with the
    entry as text, whatever bodyHtml, long and description hold; otherwise a
    present bodyHtml is injected as markup; otherwise a present long is one
    text paragraph; otherwise a present description is one text paragraph;
    otherwise the section is left empty.  For body ["a","b"] the section
    holds exactly the paragraphs "a" and "b".  An entry of [body] that does
    not convert stops the render with a TypeError, the paragraphs before it
    in place. *)
Theorem render_body_priority (props : list (string * value)) (w : window) :
  has_element "project-body" w = true →
  let p := VObj props in
  let body_is kids :=
    render_body p w = Done () (with_elements (<["project-body" := kids]>) w) in
  (∀ pars, get_opt p "body" = VArr pars →
     Forall (λ par, convertible par = true) pars →
     body_is (map paragraph pars))
  ∧ (isArray (get_opt p "body") = false →
       (truthy (get_opt p "bodyHtml") = true →
          convertible (get_opt p "bodyHtml") = true →
          body_is (html_of (get_opt p "bodyHtml")))
       ∧ (truthy (get_opt p "bodyHtml") = false →
            (truthy (get_opt p "long") = true →
               convertible (get_opt p "long") = true →
               body_is [paragraph (get_opt p "long")])
            ∧ (truthy (get_opt p "long") = false →
                 (truthy (get_opt p "description") = true →
                    convertible (get_opt p "description") = true →
                    body_is [paragraph (get_opt p "description")])
                 ∧ (truthy (get_opt p "description") = false → body_is []))))
  ∧ (∀ s, paragraph (VStr s) = Elem "p" [] [] (text_nodes s)
          ∧ (s ≠ "" → paragraph (VStr s) = Elem "p" [] [] [Text s]
                      ∧ html_of (VStr s) = [Html s]))
  ∧ (∀ bodyHtml long description,
       render_body (VObj [("body", VArr [VStr "a"; VStr "b"]); ("bodyHtml", bodyHtml);
                          ("long", long); ("description", description)]) w
       = Done () (with_elements
                    (<["project-body" := [Elem "p" [] [] [Text "a"];
                                          Elem "p" [] [] [Text "b"]]]>) w))
  ∧ (∀ l1 x l2, get_opt p "body" = VArr (l1 ++ x :: l2) →
       Forall (λ par, convertible par = true) l1 →
       convertible x = false →
       render_body p w
       = Threw conversion_error
           (with_elements (<["project-body" := map paragraph l1]>) w)).
Proof.
  intros Hbody p body_is. subst body_is p. cbv beta.
  split; [|split; [|split; [|split]]].
  - intros pars. by apply render_body_array.
  - intros Hb. split; [by apply render_body_html|].
    intros Hh. split; [by apply render_body_long|].
    intros Hl. split; [by apply render_body_description|].
    by apply render_body_empty.
  - intros s. split; [done|].
    intros Hs. split; [by apply paragraph_text|by apply html_of_text].
  - intros bodyHtml long description.
    apply (render_body_array _ w Hbody [VStr "a"; VStr "b"]); [done|].
    by repeat constructor.
  - intros l1 x l2. by apply render_body_array_raises.
Qed.

Lemma render_body_priority_witness :
  render_body (VObj [("bodyHtml", VStr "<em>Hi</em>"); ("long", VStr "long text")])
    (detail_page (Some "abc") NoResponse)
  = Done () (with_elements (<["project-body" := [Html "<em>Hi</em>"]]>)
               (detail_page (Some "abc") NoResponse))
  ∧ render_body (VObj [("bodyHtml", VStr ""); ("long", VStr "long text")])
      (detail_page (Some "abc") NoResponse)
    = Done () (with_elements (<["project-body" := [Elem "p" [] [] [Text "long text"]]]>)
                 (detail_page (Some "abc") NoResponse))
  ∧ render_body (VObj [("description", VStr "short")])
      (detail_page (Some "abc") NoResponse)
    = Done () (with_elements (<["project-body" := [Elem "p" [] [] [Text "short"]]]>)
                 (detail_page (Some "abc") NoResponse))
  ∧ render_body (VObj [("title", VStr "T")]) (detail_page (Some "abc") NoResponse)
    = Done () (with_elements (<["project-body" := []]>)
                 (detail_page (Some "abc") NoResponse))
  ∧ render_body
      (VObj [("body", VArr ([VStr "a"] ++ VObj [("toString", VNum 1)] :: [VStr "c"]))])
      (detail_page (Some "abc") NoResponse)
    = Threw conversion_error
        (with_elements (<["project-body" := [Elem "p" [] [] [Text "a"]]]>)
           (detail_page (Some "abc") NoResponse)).
Proof.
  split; [|split; [|split; [|split]]].
  - destruct (render_body_priority
                [("bodyHtml", VStr "<em>Hi</em>"); ("long", VStr "long text")]
                (detail_page (Some "abc") NoResponse) eq_refl) as (_ & H & _).
    destruct (H eq_refl) as [Hh _]. exact (Hh eq_refl eq_refl).
  - destruct (render_body_priority
                [("bodyHtml", VStr ""); ("long", VStr "long text")]
                (detail_page (Some "abc") NoResponse) eq_refl) as (_ & H & _).
    destruct (H eq_refl) as [_ Hh]. destruct (Hh eq_refl) as [Hl _].
    exact (Hl eq_refl eq_refl).
  - destruct (render_body_priority [("description", VStr "short")]
                (detail_page (Some "abc") NoResponse) eq_refl) as (_ & H & _).
    destruct (H eq_refl) as [_ Hh]. destruct (Hh eq_refl) as [_ Hl].
    destruct (Hl eq_refl) as [Hd _]. exact (Hd eq_refl eq_refl).
  - destruct (render_body_priority [("title", VStr "T")]
                (detail_page (Some "abc") NoResponse) eq_refl) as (_ & H & _).
    destruct (H eq_refl) as [_ Hh]. destruct (Hh eq_refl) as [_ Hl].
    destruct (Hl eq_refl) as [_ Hd]. exact (Hd eq_refl).
  - destruct (render_body_priority
                [("body", VArr ([VStr "a"] ++ VObj [("toString", VNum 1)] :: [VStr "c"]))]
                (detail_page (Some "abc") NoResponse) eq_refl) as (_ & _ & _ & _ & H).
    apply (H [VStr "a"] (VObj [("toString", VNum 1)]) [VStr "c"] eq_refl);
      [by repeat constructor|reflexivity].
Defined.

(** ** The gallery of the detail page *)

Lemma alt_for_convertible (title it : value) :
  convertible title = true → alt_for title it = Ok (image_alt title it).
Proof.
  intros Ht. unfold alt_for, image_alt.
  destruct (typeof_object it && truthy (get_opt it "alt")); [done|].
  by rewrite ToString_convertible.
Qed.

Lemma image_alt_convertible (title it : value) :
  convertible (get_opt it "alt") = true → convertible (image_alt title it) = true.
Proof.
  intros H. unfold image_alt.
  by destruct (typeof_object it && truthy (get_opt it "alt")).
Qed.

Lemma new_thumb_convertible (src alt : value) :
  convertible src = true → convertible alt = true →
  new_thumb src alt = Ok (gallery_item src alt).
Proof.
  intros Hs Ha. unfold new_thumb, set_attr. by rewrite !ToString_convertible.
Qed.

Lemma new_thumb_raises (src alt : value) :
  convertible src = false → new_thumb src alt = Raise conversion_error.
Proof. intros Hs. unfold new_thumb, set_attr. by rewrite ToString_raises. Qed.

Lemma image_ok_parts (it : value) :
  image_ok it = true →
  convertible (image_src it) = true ∧ convertible (get_opt it "alt") = true.
Proof. unfold image_ok. by intros [? ?]%andb_true_iff. Qed.

Section Gallery.

Variable props : list (string * value).
Variable w : window.
Hypothesis has_gallery : has_element "project-gallery" w = true.

Let p := VObj props.
Let title := get_opt p "title".

(** The callback of [imgs.forEach] (lines 275-304). *)
Let entry (it : value) : js unit :=
  let! alt := lift (alt_for title it) in
  if negb (truthy (image_src it)) then ret ()
  else let! a := lift (new_thumb (image_src it) alt) in append_kid "project-gallery" a.

Lemma render_gallery_unfold :
  render_gallery p w =
  (set_kids "project-gallery" [] ;;
   forEach (if isArray (get_opt p "images") then get_opt p "images" else VArr []) entry) w.
Proof.
  unfold render_gallery. rewrite has_gallery. cbn [negb]. reflexivity.
Qed.

Lemma gallery_entry_built (it : value) :
  convertible title = true → image_ok it = true →
  entry it = append_opt "project-gallery" (gallery_entry title it).
Proof.
  intros Ht [Hs Ha]%image_ok_parts. unfold entry, gallery_entry.
  rewrite alt_for_convertible by done. cbn [lift]. unfold bind at 1, ret at 1.
  destruct (truthy (image_src it)); cbn [negb]; [|done].
  rewrite new_thumb_convertible by (done || by apply image_alt_convertible).
  reflexivity.
Qed.

Lemma render_gallery_array (items : list value) :
  get_opt p "images" = VArr items →
  convertible title = true →
  Forall (λ it, image_ok it = true) items →
  render_gallery p w
  = Done () (with_elements
               (<["project-gallery" := omap (gallery_entry title) items]>) w).
Proof.
  intros Hi Ht Hok. rewrite render_gallery_unfold, Hi. cbn [isArray forEach].
  rewrite (for_each_ext_Forall _
             (λ it, append_opt "project-gallery" (gallery_entry title it))).
  - apply fill_element.
  - eapply Forall_impl; [exact Hok|]. intros it Hit. by apply gallery_entry_built.
Qed.

Lemma render_gallery_no_array :
  isArray (get_opt p "images") = false →
  render_gallery p w = Done () (with_elements (<["project-gallery" := []]>) w).
Proof.
  intros Hi. rewrite render_gallery_unfold, Hi. cbn [forEach].
  apply (fill_element "project-gallery" (gallery_entry title) []).
Qed.

(** An entry whose source does not convert stops the loop: the entries
    before it stay. *)
Lemma render_gallery_raises (l1 l2 : list value) (x : value) :
  get_opt p "images" = VArr (l1 ++ x :: l2) →
  convertible title = true →
  Forall (λ it, image_ok it = true) l1 →
  convertible (image_src x) = false →
  render_gallery p w
  = Threw conversion_error
      (with_elements (<["project-gallery" := omap (gallery_entry title) l1]>) w).
Proof.
  intros Hi Ht Hok Hx. rewrite render_gallery_unfold, Hi. cbn [isArray forEach].
  unfold bind at 1, set_kids, modify. rewrite for_each_app_run.
  rewrite (for_each_ext_Forall _
             (λ it, append_opt "project-gallery" (gallery_entry title it)) l1).
  - rewrite for_each_append. cbn [for_each]. unfold bind at 1. unfold entry.
    rewrite alt_for_convertible by done. cbn [lift]. unfold bind at 1, ret at 1.
    assert (truthy (image_src x) = true) as ->.
    { destruct (truthy (image_src x)) eqn:E; [done|].
      apply convertible_falsy in E. congruence. }
    cbn [negb]. rewrite new_thumb_raises by done. cbn [lift]. unfold bind, throw.
    f_equal. unfold with_elements. cbn. f_equal. by rewrite alter_insert_eq.
  - eapply Forall_impl; [exact Hok|]. intros it Hit. by apply gallery_entry_built.
Qed.

(** Without an alternative text of its own an entry converts the title,
    whether it has a source or not. *)
Lemma render_gallery_title_raises (x : value) (rest : list value) :
  get_opt p "images" = VArr (x :: rest) →
  convertible title = false →
  truthy (get_opt x "alt") = false →
  render_gallery p w
  = Threw conversion_error (with_elements (<["project-gallery" := []]>) w).
Proof.
  intros Hi Ht Hx. rewrite render_gallery_unfold, Hi. cbn [isArray forEach].
  unfold bind at 1, set_kids, modify. cbn [for_each]. unfold bind at 1. unfold entry.
  unfold alt_for. rewrite Hx, andb_false_r, ToString_raises by done. done.
Qed.

End Gallery.

Lemma gallery_item_image (src alt : value) :
  src_of (gallery_item src alt) = Some (to_string src)
  ∧ alt_of (gallery_item src alt) = Some (to_string alt)
  ∧ attr "href" (gallery_item src alt) = Some (to_string src).
Proof. by repeat split. Qed.

Lemma gallery_entry_string (title : value) (s : string) :
  gallery_entry title (VStr s)
  = if String.eqb s "" then None
    else Some (gallery_item (VStr s) (VStr (to_string title +:+ " image"))).
Proof.
  unfold gallery_entry. cbn [image_src is_string image_alt typeof_object andb truthy].
  by destruct (String.eqb s "").
Qed.

Lemma gallery_entry_object (title : value) (o : list (string * value)) :
  gallery_entry title (VObj o)
  = let src := default VUndefined (lookup_prop "src" o) in
    let alt := default VUndefined (lookup_prop "alt" o) in
    if truthy src
    then Some (gallery_item src
                 (if truthy alt then alt else VStr (to_string title +:+ " image")))
    else None.
Proof.
  unfold gallery_entry. cbn [image_src is_string image_alt typeof_object andb get_opt].
  by destruct (truthy (default VUndefined (lookup_prop "src" o))).
Qed.

Lemma gallery_entry_other (title it : value) :
  is_string it = false → (∀ o, it ≠ VObj o) → gallery_entry title it = None.
Proof.
  intros Hs Ho. destruct it; try done. by destruct (Ho props).
Qed.

(** C4. The gallery of the detail page of a resolved record whose title
    converts to a string, as does the source and the alternative text of
    each entry of [images].  [images] counts
    as the empty sequence unless it is an array.  An entry that is a string
    is its own source and an entry that is an object has the source of its
    [src] field; an entry without a source (an empty one, or an entry that is
    neither) is skipped and the others are rendered in order.  The
    alternative text is the [alt] of an object entry that has one, and
    otherwise the title field followed by " image".  So
    ["x.png", {src:"y.png", alt:"Y"}] renders two entries, with the
    alternative texts "<title> image" and "Y", and [{}] renders none.  An
    entry whose source does not convert stops the render with a TypeError,
    the entries before it in place. *)
Theorem render_gallery_normalizes (props : list (string * value)) (w : window) :
  has_element "project-gallery" w = true →
  let p := VObj props in
  let title := get_opt p "title" in
  let fallback := VStr (to_string title +:+ " image") in
  let gallery_is kids :=
    render_gallery p w = Done () (with_elements (<["project-gallery" := kids]>) w) in
  (isArray (get_opt p "images") = false → gallery_is [])
  ∧ (∀ items, get_opt p "images" = VArr items →
       convertible title = true →
       Forall (λ it, image_ok it = true) items →
       gallery_is (omap (gallery_entry title) items))
  ∧ (∀ s, gallery_entry title (VStr s)
          = if String.eqb s "" then None else Some (gallery_item (VStr s) fallback))
  ∧ (∀ o, gallery_entry title (VObj o)
          = let src := default VUndefined (lookup_prop "src" o) in
            let alt := default VUndefined (lookup_prop "alt" o) in
            if truthy src
            then Some (gallery_item src (if truthy alt then alt else fallback))
            else None)
  ∧ (∀ it, is_string it = false → (∀ o, it ≠ VObj o) → gallery_entry title it = None)
  ∧ (∀ src alt, src_of (gallery_item src alt) = Some (to_string src)
                ∧ alt_of (gallery_item src alt) = Some (to_string alt)
                ∧ attr "href" (gallery_item src alt) = Some (to_string src))
  ∧ (get_opt p "images"
     = VArr [VStr "x.png"; VObj [("src", VStr "y.png"); ("alt", VStr "Y")]] →
     convertible title = true →
     ∃ first second,
       gallery_is [first; second]
       ∧ src_of first = Some "x.png"
       ∧ alt_of first = Some (to_string title +:+ " image")
       ∧ src_of second = Some "y.png"
       ∧ alt_of second = Some "Y")
  ∧ (get_opt p "images" = VArr [VObj []] → convertible title = true → gallery_is [])
  ∧ (∀ l1 x l2, get_opt p "images" = VArr (l1 ++ x :: l2) →
       convertible title = true →
       Forall (λ it, image_ok it = true) l1 →
       convertible (image_src x) = false →
       render_gallery p w
       = Threw conversion_error
           (with_elements
              (<["project-gallery" := omap (gallery_entry title) l1]>) w)).
Proof.
  intros Hg p title fallback gallery_is. subst gallery_is fallback title p. cbv beta.
  split; [by apply render_gallery_no_array|].
  split; [intros items; by apply render_gallery_array|].
  split; [apply gallery_entry_string|].
  split; [apply gallery_entry_object|].
  split; [apply gallery_entry_other|].
  split; [apply gallery_item_image|].
  split; [|split].
  - intros Hi Ht.
    exists (gallery_item (VStr "x.png")
              (VStr (to_string (get_opt (VObj props) "title") +:+ " image"))),
           (gallery_item (VStr "y.png") (VStr "Y")).
    split; [|by repeat split].
    rewrite (render_gallery_array props w Hg _ Hi Ht); [done|].
    by repeat constructor.
  - intros Hi Ht. apply (render_gallery_array props w Hg [VObj []]); [done|done|].
    by repeat constructor.
  - intros l1 x l2. by apply render_gallery_raises.
Qed.

Lemma render_gallery_normalizes_witness :
  render_gallery
    (VObj [("title", VStr "Demo");
           ("images", VArr [VStr "x.png"; VObj [("src", VStr "y.png"); ("alt", VStr "Y")]])])
    (detail_page (Some "abc") NoResponse)
  = Done ()
      (with_elements
         (<["project-gallery" :=
              [gallery_item (VStr "x.png") (VStr "Demo image");
               gallery_item (VStr "y.png") (VStr "Y")]]>)
         (detail_page (Some "abc") NoResponse))
  ∧ render_gallery (VObj [("title", VStr "Demo"); ("images", VArr [VObj []])])
      (detail_page (Some "abc") NoResponse)
    = Done () (with_elements (<["project-gallery" := []]>)
                 (detail_page (Some "abc") NoResponse))
  ∧ render_gallery (VObj [("title", VStr "Demo"); ("images", VStr "x.png")])
      (detail_page (Some "abc") NoResponse)
    = Done () (with_elements (<["project-gallery" := []]>)
                 (detail_page (Some "abc") NoResponse))
  ∧ render_gallery
      (VObj [("title", VStr "Demo");
             ("images", VArr ([VStr "x.png"]
                              ++ VObj [("src", VObj [("toString", VNum 1)])] :: []))])
      (detail_page (Some "abc") NoResponse)
    = Threw conversion_error
        (with_elements
           (<["project-gallery" := [gallery_item (VStr "x.png") (VStr "Demo image")]]>)
           (detail_page (Some "abc") NoResponse)).
Proof.
  split; [|split; [|split]].
  - destruct (render_gallery_normalizes
                [("title", VStr "Demo");
                 ("images", VArr [VStr "x.png";
                                  VObj [("src", VStr "y.png"); ("alt", VStr "Y")]])]
                (detail_page (Some "abc") NoResponse) eq_refl) as (_ & H & _).
    apply (H _ eq_refl eq_refl). by repeat constructor.
  - destruct (render_gallery_normalizes
                [("title", VStr "Demo"); ("images", VArr [VObj []])]
                (detail_page (Some "abc") NoResponse) eq_refl)
      as (_ & _ & _ & _ & _ & _ & _ & H & _).
    exact (H eq_refl eq_refl).
  - destruct (render_gallery_normalizes
                [("title", VStr "Demo"); ("images", VStr "x.png")]
                (detail_page (Some "abc") NoResponse) eq_refl) as (H & _).
    exact (H eq_refl).
  - destruct (render_gallery_normalizes
                [("title", VStr "Demo");
                 ("images", VArr ([VStr "x.png"]
                                  ++ VObj [("src", VObj [("toString", VNum 1)])] :: []))]
                (detail_page (Some "abc") NoResponse) eq_refl)
      as (_ & _ & _ & _ & _ & _ & _ & _ & H).
    apply (H [VStr "x.png"] (VObj [("src", VObj [("toString", VNum 1)])]) [] eq_refl);
      [reflexivity|by repeat constructor|reflexivity].
Defined.

(** ** The cards of the landing page *)

Lemma add_tag_convertible (t : value) (row : node) :
  convertible t = true → add_tag t row = Ok (appendChild (pill t) row).
Proof.
  intros Ht. unfold add_tag. cbn [el set_attrs rbind].
  by rewrite set_textContent_convertible.
Qed.

Lemma build_pills (ts : list value) (tag : string) (a : list (string * string))
    (l : list (string * handler)) (kids : list node) :
  Forall (λ t, convertible t = true) ts →
  build_each add_tag ts (Elem tag a l kids) = Ok (Elem tag a l (kids ++ (pill <$> ts))).
Proof.
  intros Hts. revert kids. induction Hts as [|t rest Ht _ IH]; intros kids.
  - simpl. by rewrite app_nil_r.
  - cbn [build_each]. rewrite add_tag_convertible by done. cbn [rbind appendChild].
    rewrite IH. by rewrite <- app_assoc.
Qed.

Lemma convertible_entries (ts : list value) :
  convertible (VArr ts) = true ↔ Forall (λ t, convertible t = true) ts.
Proof.
  cbn [convertible]. rewrite forallb_forall, Forall_forall. split.
  - intros H x Hx. by apply H, list_elem_of_In.
  - intros H x Hx. by apply H, list_elem_of_In.
Qed.

(** What a record the renderer accepts is made of. *)
Lemma record_ok_parts (p : value) :
  record_ok p = true →
  (∀ k, get p k = Ok (get_opt p k))
  ∧ convertible (get_opt p "title") = true
  ∧ convertible (get_opt p "cover") = true
  ∧ convertible (get_opt p "description") = true
  ∧ (truthy (get_opt p "tags") = false
     ∨ ∃ ts, get_opt p "tags" = VArr ts ∧ Forall (λ t, convertible t = true) ts).
Proof.
  intros Hp.
  assert (convertible (get_opt p "title")
          && convertible (get_opt p "cover")
          && convertible (get_opt p "description")
          && (negb (truthy (get_opt p "tags"))
              || isArray (get_opt p "tags") && convertible (get_opt p "tags")) = true
          ∧ ∀ k, get p k = Ok (get_opt p k)) as [H Hget] by (by destruct p).
  apply andb_true_iff in H as [H Htags].
  apply andb_true_iff in H as [H Hdesc].
  apply andb_true_iff in H as [Htitle Hcover].
  repeat (split; [done|]).
  apply orb_true_iff in Htags as [Hf|Ha]; [left; by apply negb_true_iff|right].
  apply andb_true_iff in Ha as [Harr Hc].
  destruct (get_opt p "tags") as [| | | | |ts|] eqn:E; try done.
  exists ts. split; [done|]. by apply convertible_entries.
Qed.

Lemma get_not_null (p : value) (k : string) :
  record_ok p = true → get p k = Ok (get_opt p k).
Proof. intros Hp. by destruct (record_ok_parts p Hp) as [H _]. Qed.

Lemma card_record (p : value) : record_ok p = true → card p = Ok (card_of p).
Proof.
  intros Hp.
  destruct (record_ok_parts p Hp) as (Hget & Htitle & Hcover & Hdesc & Htags).
  unfold card. rewrite !Hget. cbn [rbind].
  rewrite !(ToString_convertible (get_opt p "title")) by done. cbn [rbind].
  cbn [el set_attrs set_attr createElement negb String.eqb Ascii.eqb Bool.eqb
       ToString convertible to_string rbind setAttribute app fst snd].
  rewrite !set_textContent_convertible
    by (apply convertible_or; done).
  cbn [rbind].
  assert (forEach_build (or (get_opt p "tags") (VArr [])) add_tag
            (Elem "div" [("class", "card-tags")] [] [])
          = Ok (Elem "div" [("class", "card-tags")] [] (pill <$> tags_of p))) as ->.
  { unfold or, tags_of. destruct Htags as [Hf|(ts & -> & Hts)].
    - rewrite Hf. by destruct (get_opt p "tags").
    - cbn [truthy forEach_build].
      apply (build_pills ts "div" [("class", "card-tags")] [] [] Hts). }
  cbn [rbind]. unfold card_of.
  destruct (truthy (get_opt p "cover")).
  - rewrite set_attr_convertible by done. reflexivity.
  - reflexivity.
Qed.

Lemma textContent_text_of (v : value) :
  String.concat "" (map textContent (text_of v)) = shown v.
Proof.
  assert (∀ s, String.concat "" (map textContent (text_nodes s)) = s) as Hs.
  { intros s. unfold text_nodes. by destruct (String.eqb_spec s "") as [->|]. }
  destruct v; try done; apply Hs.
Qed.

Lemma shown_truthy (v : value) : truthy v = true → shown v = to_string v.
Proof. by destruct v. Qed.

Lemma or_truthy (v d : value) : truthy d = true → truthy (or v d) = true.
Proof. intros Hd. unfold or. by destruct (truthy v) eqn:Hv. Qed.

Lemma text_of_cases (v : value) : text_of v = [] ∨ ∃ s, text_of v = [Text s].
Proof.
  assert (∀ s, text_nodes s = [] ∨ ∃ s', text_nodes s = [Text s']) as Hs.
  { intros s. unfold text_nodes. destruct (String.eqb s ""); eauto. }
  destruct v; try (by left); apply Hs.
Qed.

Lemma card_of_shows (p : value) : card_shows p (card_of p).
Proof.
  unfold card_shows. repeat split.
  - transitivity (Some (String.concat ""
                    (map textContent (text_of (or (get_opt p "title") (VStr "Untitled")))))).
    { unfold card_of. by destruct (truthy (get_opt p "cover")). }
    rewrite textContent_text_of, shown_truthy; [|by apply or_truthy].
    unfold or. by destruct (truthy _).
  - transitivity (Some (String.concat ""
                    (map textContent
                       (text_of (or (get_opt p "description")
                                   (VStr "No description yet.")))))).
    { unfold card_of.
      destruct (text_of_cases (or (get_opt p "title") (VStr "Untitled")))
        as [-> | [s ->]];
        by destruct (truthy (get_opt p "cover")). }
    rewrite textContent_text_of, shown_truthy; [|by apply or_truthy].
    unfold or. by destruct (truthy _).
  - transitivity (Some (textContent <$> (pill <$> tags_of p))).
    { unfold card_of.
      destruct (text_of_cases (or (get_opt p "title") (VStr "Untitled")))
        as [-> | [s ->]];
        destruct (text_of_cases (or (get_opt p "description")
                                   (VStr "No description yet.")))
          as [-> | [s' ->]];
        by destruct (truthy (get_opt p "cover")). }
    f_equal. rewrite <- list_fmap_compose. apply list_fmap_ext.
    intros _ t _. apply textContent_text_of.
Qed.

Lemma renderProjects_records (items : list value) (grid : string) (w : window) :
  Forall (λ p, record_ok p = true) items →
  renderProjects (VArr items) grid w
  = Done () (with_elements (<[grid := card_of <$> items]>) w).
Proof.
  intros Hok. unfold renderProjects. cbn [forEach].
  rewrite (for_each_ext_Forall _ (λ p, append_opt grid (Some (card_of p)))).
  - by rewrite fill_element.
  - eapply Forall_impl; [exact Hok|]. intros p Hp. cbv beta in Hp.
    by rewrite card_record.
Qed.

(** C6. renderProjects on a catalog of records, that is of values that are
    neither null nor undefined, whose title, cover and description convert
    to a string, and whose [tags], when there, is an array of values that
    convert (these are exactly the entries for which the callback returns):
    the grid holds exactly one card per
    record, in the order of the catalog; each card shows the title of its
    record, or "Untitled" without one; its description, or "No description
    yet." without one; and one pill per tag, in the order of the tags. *)
Theorem renderProjects_one_card_per_record
    (items : list value) (grid : string) (w : window) :
  Forall (λ p, record_ok p = true) items →
  ∃ cards,
    renderProjects (VArr items) grid w
    = Done () (with_elements (<[grid := cards]>) w)
    ∧ length cards = length items
    ∧ Forall2 card_shows items cards.
Proof.
  intros Hok. exists (card_of <$> items).
  split; [by apply renderProjects_records|].
  split; [by rewrite length_fmap|].
  apply Forall2_fmap_r, Forall_Forall2_diag, Forall_forall.
  intros p _. apply card_of_shows.
Qed.

Lemma renderProjects_one_card_per_record_witness :
  ∃ cards,
    renderProjects
      (VArr [VObj [("title", VStr "Maze"); ("description", VStr "A maze solver.");
                   ("tags", VArr [VStr "c"; VStr "graphs"])];
             VObj [("slug", VStr "untitled")]])
      "project-grid" (landing_page NoResponse)
    = Done () (with_elements (<["project-grid" := cards]>) (landing_page NoResponse))
    ∧ length cards = 2%nat
    ∧ Forall2 card_shows
        [VObj [("title", VStr "Maze"); ("description", VStr "A maze solver.");
               ("tags", VArr [VStr "c"; VStr "graphs"])];
         VObj [("slug", VStr "untitled")]]
        cards.
Proof.
  apply (renderProjects_one_card_per_record
           [VObj [("title", VStr "Maze"); ("description", VStr "A maze solver.");
                  ("tags", VArr [VStr "c"; VStr "graphs"])];
            VObj [("slug", VStr "untitled")]]
           "project-grid" (landing_page NoResponse)).
  repeat constructor.
Defined.

(** ** The full render of a record *)

Lemma show_insert (id : string) (kids : list node) (w : window) :
  has_element id w = true → show id kids w = with_elements (<[id := kids]>) w.
Proof. intros H. unfold show. by rewrite H. Qed.

Lemma show_absent (id : string) (kids : list node) (w : window) :
  has_element id w = false → show id kids w = w.
Proof. intros H. unfold show. by rewrite H. Qed.

Lemma add_pill_convertible (t : value) (row : node) :
  convertible t = true → add_pill t row = Ok (appendChild (pill t) row).
Proof.
  intros Ht. unfold add_pill. by rewrite set_textContent_convertible.
Qed.

Lemma build_tag_row (ts : list value) (tag : string) (a : list (string * string))
    (l : list (string * handler)) (kids : list node) :
  Forall (λ t, convertible t = true) ts →
  build_each add_pill ts (Elem tag a l kids) = Ok (Elem tag a l (kids ++ (pill <$> ts))).
Proof.
  intros Hts. revert kids. induction Hts as [|t rest Ht _ IH]; intros kids.
  - simpl. by rewrite app_nil_r.
  - cbn [build_each]. rewrite add_pill_convertible by done. cbn [rbind appendChild].
    rewrite IH. by rewrite <- app_assoc.
Qed.

Lemma new_link_convertible (href : value) (text : string) :
  convertible href = true → new_link href text = Ok (meta_link href text).
Proof.
  intros H. unfold new_link. by rewrite set_attr_convertible.
Qed.

Section Render.

Variable props : list (string * value).
Variable w : window.

Let p := VObj props.

Lemma render_heading_record :
  convertible (get_opt p "title") = true →
  convertible (get_opt p "summary") = true →
  convertible (get_opt p "description") = true →
  render_heading p w = Done () (heading p w).
Proof.
  unfold p. intros Ht Hs Hd. unfold render_heading, heading.
  unfold bind at 1. cbn [lift get]. unfold ret at 1.
  unfold bind at 1. rewrite set_text_if_present_show by (by apply convertible_or).
  unfold bind at 1. rewrite ToString_convertible by (by apply convertible_or).
  cbn [lift]. unfold ret at 1.
  unfold bind at 1, modify at 1.
  unfold bind at 1, ret at 1. unfold bind at 1, ret at 1.
  apply set_text_if_present_show. by repeat apply convertible_or.
Qed.

Lemma render_meta_record :
  convertible (get_opt p "tags") = true →
  convertible (get_opt p "link") = true →
  convertible (get_opt p "repo") = true →
  render_meta p w = Done () (show "project-meta" (meta_nodes p) w).
Proof.
  unfold p. intros Ht Hl Hr.
  unfold render_meta. destruct (has_element "project-meta" w) eqn:Hm; cbn [negb].
  - rewrite show_insert by done.
    assert (∀ v label (w0 : window),
              convertible v = true →
              (if truthy v
               then let! a := lift (new_link v label) in append_kid "project-meta" a
               else ret ()) w0
              = Done () (with_elements
                           (alter (λ kids, kids ++
                                     (if truthy v then [meta_link v label] else []))
                              "project-meta") w0)) as Hlink.
    { intros v label w0 Hv. destruct (truthy v).
      - rewrite new_link_convertible by done. reflexivity.
      - unfold ret. f_equal. destruct w0. unfold with_elements. cbn. f_equal.
        symmetry. apply alter_id. intros kids _. apply app_nil_r. }
    assert (∀ (w0 : window),
              (match get_opt (VObj props) "tags" with
               | VArr (t :: ts) =>
                   let row := setAttribute "class" "project-tags card-tags"
                                (createElement "div") in
                   let! row := lift (build_each add_pill (t :: ts) row) in
                   append_kid "project-meta" row
               | _ => ret ()
               end) w0
              = Done () (with_elements
                           (alter (λ kids, kids ++
                                     match get_opt (VObj props) "tags" with
                                     | VArr (t :: ts) =>
                                         [Elem "div" [("class", "project-tags card-tags")]
                                            [] (pill <$> (t :: ts))]
                                     | _ => []
                                     end) "project-meta") w0)) as Htags.
    { intros w0.
      assert (Done () w0
              = Done () (with_elements
                           (alter (λ kids, kids ++ []) "project-meta") w0)) as Hnone.
      { f_equal. destruct w0. unfold with_elements. cbn. f_equal.
        symmetry. apply alter_id. intros kids _. apply app_nil_r. }
      destruct (get_opt (VObj props) "tags") as [| | | | |[|t ts]|]; try exact Hnone.
      apply convertible_entries in Ht.
      cbv zeta. unfold setAttribute, createElement. cbn [app].
      rewrite (build_tag_row (t :: ts) "div" _ [] [] Ht). reflexivity. }
    unfold bind at 1, set_kids at 1, modify at 1.
    unfold bind at 1. cbn [lift get]. unfold ret at 1.
    change (default VUndefined (lookup_prop "tags" props))
      with (get_opt (VObj props) "tags").
    change (default VUndefined (lookup_prop "link" props))
      with (get_opt (VObj props) "link").
    change (default VUndefined (lookup_prop "repo" props))
      with (get_opt (VObj props) "repo").
    unfold bind at 1. rewrite Htags.
    unfold bind at 1, ret at 1. unfold bind at 1. rewrite Hlink by done.
    unfold bind at 1, ret at 1. rewrite Hlink by done.
    unfold meta_nodes.
    f_equal. unfold with_elements. cbn. f_equal.
    rewrite !alter_alter_eq, alter_insert_eq. cbn. by rewrite <- app_assoc.
  - by rewrite show_absent.
Qed.

Lemma render_body_record :
  convertible (get_opt p "body") = true →
  convertible (get_opt p "bodyHtml") = true →
  convertible (get_opt p "long") = true →
  convertible (get_opt p "description") = true →
  render_body p w = Done () (show "project-body" (body_nodes p) w).
Proof.
  unfold p. intros Hcb Hch Hcl Hcd.
  destruct (has_element "project-body" w) eqn:Hb.
  - rewrite show_insert by done. unfold body_nodes.
    destruct (get_opt (VObj props) "body") as [| | | | |pars|] eqn:Hbody;
      try (destruct (truthy (get_opt (VObj props) "bodyHtml")) eqn:Hh;
           [apply render_body_html; [done|by rewrite Hbody|done|done]|];
           destruct (truthy (get_opt (VObj props) "long")) eqn:Hl;
           [apply render_body_long; [done|by rewrite Hbody|done|done|done]|];
           destruct (truthy (get_opt (VObj props) "description")) eqn:Hd;
           [apply render_body_description; [done|by rewrite Hbody|done|done|done|done]
           |apply render_body_empty; [done|by rewrite Hbody|done|done|done]]).
    apply render_body_array; [done|done|]. by apply convertible_entries.
  - rewrite show_absent by done. unfold render_body. by rewrite Hb.
Qed.

Lemma render_gallery_record :
  convertible (get_opt p "title") = true →
  (∀ items, get_opt p "images" = VArr items → Forall (λ it, image_ok it = true) items) →
  render_gallery p w = Done () (show "project-gallery" (gallery_nodes p) w).
Proof.
  unfold p. intros Ht Hok.
  destruct (has_element "project-gallery" w) eqn:Hg.
  - rewrite show_insert by done. unfold gallery_nodes.
    destruct (get_opt (VObj props) "images") as [| | | | |items|] eqn:Hi;
      try (apply render_gallery_no_array; [done|by rewrite Hi]).
    apply render_gallery_array; [done|done|done|by apply Hok].
  - rewrite show_absent by done. unfold render_gallery. by rewrite Hg.
Qed.

End Render.

(** An entry of a plain array of images converts its source and its
    alternative text. *)
Lemma plain_image_ok (it : value) : plain it = true → image_ok it = true.
Proof.
  intros H. unfold image_ok. apply andb_true_iff. split.
  - unfold image_src. destruct (is_string it); [by apply plain_convertible|].
    by apply plain_field.
  - by apply plain_field.
Qed.

Lemma plain_images (p : value) (items : list value) :
  plain p = true → get_opt p "images" = VArr items →
  Forall (λ it, image_ok it = true) items.
Proof.
  intros Hp Hi. pose proof (plain_get_opt p "images" Hp) as H. rewrite Hi in H.
  apply plain_entries in H. eapply Forall_impl; [exact H|].
  intros it. apply plain_image_ok.
Qed.

(** The full render of a plain record returns, with the five sections
    filled. *)
Lemma render_detail_record (props : list (string * value)) (w : window) :
  let p := VObj props in
  plain p = true →
  render_detail p w
  = Done () (show "project-gallery" (gallery_nodes p)
               (show "project-body" (body_nodes p)
                  (show "project-meta" (meta_nodes p) (heading p w)))).
Proof.
  intros p Hp. subst p. unfold render_detail, bind.
  rewrite render_heading_record by (by apply plain_field).
  rewrite render_meta_record by (by apply plain_field).
  rewrite render_body_record by (by apply plain_field).
  rewrite render_gallery_record; [done|by apply plain_field|].
  intros items. by apply plain_images.
Qed.

Lemma show_lookup_same (id : string) (kids : list node) (w : window) :
  elements (show id kids w) !! id = if has_element id w then Some kids else None.
Proof.
  unfold show. destruct (has_element id w) eqn:Hid.
  - cbn. apply lookup_insert_eq.
  - unfold has_element in Hid. apply bool_decide_eq_false in Hid.
    by apply eq_None_not_Some.
Qed.

(** What the five mount points hold after the render of a record. *)
Lemma rendered_lookups (p : value) (w : window) :
  elements (rendered p w) !! "project-title"
  = (if has_element "project-title" w
     then Some (text_of (or (get_opt p "title") (VStr "Untitled project"))) else None)
  ∧ elements (rendered p w) !! "project-summary"
    = (if has_element "project-summary" w
       then Some (text_of (or (or (get_opt p "summary") (get_opt p "description"))
                             (VStr "")))
       else None)
  ∧ elements (rendered p w) !! "project-meta"
    = (if has_element "project-meta" w then Some (meta_nodes p) else None)
  ∧ elements (rendered p w) !! "project-body"
    = (if has_element "project-body" w then Some (body_nodes p) else None)
  ∧ elements (rendered p w) !! "project-gallery"
    = (if has_element "project-gallery" w then Some (gallery_nodes p) else None).
Proof.
  unfold rendered, heading.
  assert (∀ id s w0, has_element id (with_doc_title s w0) = has_element id w0) as Hd
    by done.
  assert (∀ id s w0, elements (with_doc_title s w0) !! id = elements w0 !! id) as He
    by done.
  repeat split.
  - rewrite !show_lookup_ne, He by done. apply show_lookup_same.
  - rewrite !show_lookup_ne by done. rewrite show_lookup_same.
    by rewrite Hd, has_element_show.
  - rewrite !show_lookup_ne by done. rewrite show_lookup_same.
    by rewrite has_element_show, Hd, has_element_show.
  - rewrite !show_lookup_ne by done. rewrite show_lookup_same.
    by rewrite !has_element_show, Hd, has_element_show.
  - rewrite show_lookup_same.
    by rewrite !has_element_show, Hd, has_element_show.
Qed.

(** The render writes the five mount points and the tab title, nothing
    else. *)
Lemma rendered_fields (p : value) (w : window) :
  doc_title (rendered p w)
  = to_string (or (get_opt p "title") (VStr "Project")) +:+ " • My Portfolio"
  ∧ navigations (rendered p w) = navigations w
  ∧ alerts (rendered p w) = alerts w
  ∧ requests (rendered p w) = requests w
  ∧ console (rendered p w) = console w.
Proof.
  unfold rendered, heading.
  repeat match goal with
         | |- context [show ?id ?k ?w0] =>
             destruct (show_fields id k w0) as (-> & -> & -> & -> & ->)
         end.
  cbn [doc_title navigations alerts requests console with_doc_title].
  destruct (show_fields "project-title"
              (text_of (or (get_opt p "title") (VStr "Untitled project"))) w)
    as (_ & -> & -> & -> & ->).
  done.
Qed.

(** ** The entry point of the detail page *)




(** ** The title of the detail page *)

(** A title that does not convert stops the render at its first
    assignment, before anything is written. *)
Lemma render_detail_title_raises (props : list (string * value)) (w : window) :
  has_element "project-title" w = true →
  convertible (get_opt (VObj props) "title") = false →
  render_detail (VObj props) w = Threw conversion_error w.
Proof.
  intros Ht Hc. unfold render_detail, render_heading.
  unfold bind at 1. unfold bind at 1. cbn [lift get]. unfold ret at 1.
  unfold bind at 1.
  change (default VUndefined (lookup_prop "title" props))
    with (get_opt (VObj props) "title").
  rewrite set_text_if_present_raises; [done|done|].
  unfold or. destruct (truthy (get_opt (VObj props) "title")) eqn:E; [done|].
  apply convertible_falsy in E. congruence.
Qed.

(** C7, as the script has it.  The full render of a resolved record none of
    whose values raises when converted returns;
    the visible title is the title of the record, or "Untitled project" when
    the record has none (so it is neither empty nor "undefined"); the tab
    title is "<title> • My Portfolio" for a record with a title, and
    "Project • My Portfolio" for a record without one: the tab uses the
    fallback "Project", not the visible "Untitled project".  A title that
    does not convert to a string (an object with a toString property of its
    own) stops the render with a TypeError, the page as it was. *)
Theorem detail_title_and_tab (props : list (string * value)) (w : window) :
  has_element "project-title" w = true →
  let title := get_opt (VObj props) "title" in
  (plain (VObj props) = true →
   ∃ w', render_detail (VObj props) w = Done () w'
         ∧ elements w' !! "project-title"
           = Some (text_nodes (if truthy title then to_string title
                               else "Untitled project"))
         ∧ doc_title w'
           = (if truthy title then to_string title else "Project") +:+ " • My Portfolio"
         ∧ (truthy title = false →
              elements w' !! "project-title" = Some [Text "Untitled project"]
              ∧ doc_title w' = "Project • My Portfolio")
         ∧ (∀ s, title = VStr s → s ≠ "" →
              elements w' !! "project-title" = Some [Text s]
              ∧ doc_title w' = s +:+ " • My Portfolio"))
  ∧ (convertible title = false →
     render_detail (VObj props) w = Threw conversion_error w).
Proof.
  intros Ht title. subst title. split; [|by apply render_detail_title_raises].
  intros Hplain.
  exists (rendered (VObj props) w). split; [by apply render_detail_record|].
  destruct (rendered_lookups (VObj props) w) as (-> & _).
  destruct (rendered_fields (VObj props) w) as (-> & _).
  rewrite Ht.
  unfold or. destruct (truthy (get_opt (VObj props) "title")) eqn:Htitle.
  - split; [by rewrite <- (shown_truthy _ Htitle); destruct (get_opt (VObj props) "title")|].
    split; [done|]. split; [done|].
    intros s Hs Hne. rewrite Hs. cbn [text_of to_string].
    unfold text_nodes. by destruct (String.eqb_spec s "").
  - split; [done|]. split; [done|]. split; [done|].
    intros s Hs Hne. rewrite Hs in Htitle. apply truthy_str in Hne. congruence.
Qed.

Lemma detail_title_and_tab_witness :
  (∃ w', render_detail (VObj [("slug", VStr "abc"); ("title", VStr "Maze")])
           (detail_page (Some "abc") NoResponse) = Done () w'
         ∧ elements w' !! "project-title" = Some [Text "Maze"]
         ∧ doc_title w' = "Maze • My Portfolio")
  ∧ render_detail (VObj [("slug", VStr "abc"); ("title", VObj [("toString", VNum 1)])])
      (detail_page (Some "abc") NoResponse)
    = Threw conversion_error (detail_page (Some "abc") NoResponse).
Proof.
  split.
  - destruct (detail_title_and_tab [("slug", VStr "abc"); ("title", VStr "Maze")]
                (detail_page (Some "abc") NoResponse) eq_refl) as [H _].
    destruct (H eq_refl) as (w' & Hrun & _ & _ & _ & Hs).
    exists w'. split; [exact Hrun|]. by apply (Hs "Maze").
  - destruct (detail_title_and_tab
                [("slug", VStr "abc"); ("title", VObj [("toString", VNum 1)])]
                (detail_page (Some "abc") NoResponse) eq_refl) as [_ H].
    exact (H eq_refl).
Defined.

(** C7 as the claim states it fails on a record without a title: the visible
    title is "Untitled project" and the tab title is "Project • My
    Portfolio", which is not "Untitled project • My Portfolio". *)
Lemma detail_tab_title_differs :
  ∃ w', loadProjectDetail
          (detail_page (Some "abc")
             (Response 200 (Some (VArr [VObj [("slug", VStr "abc")]]))))
        = Done () w'
        ∧ elements w' !! "project-title" = Some [Text "Untitled project"]
        ∧ doc_title w' = "Project • My Portfolio"
        ∧ String.eqb (doc_title w') ("Untitled project" +:+ " • My Portfolio") = false.
Proof.
  eexists. split; [vm_compute; reflexivity|].
  by vm_compute.
Qed.

(** ** The landing page when the fetch fails *)

Lemma loadProjects_fallback (w : window) :
  has_element "project-grid" w = true →
  delivered (network w) = None →
  loadProjects w
  = Done () (with_elements (<["project-grid" := [card_of placeholder]]>)
               (warned (Some "Using fallback projects:") (fetch_error (network w))
                  (requesting w))).
Proof.
  intros Hgrid Hnet. unfold loadProjects. rewrite Hgrid. cbn [negb].
  unfold bind at 1. unfold try_catch. rewrite fetch_json_outcome, Hnet.
  unfold bind at 1. unfold modify at 1. unfold ret at 1.
  change fallback_projects with (VArr [placeholder]).
  rewrite renderProjects_records; [done|].
  by repeat constructor.
Qed.

(** C5. loadProjects on the landing page when the fetch of the catalog fails
    (no response, a status outside 200..299, or a body that does not parse):
    the function returns, the error is logged and not propagated, and the
    grid holds exactly one card, the card of the built-in placeholder record:
    title "Sample Project", the description that tells to replace
    projects.json, the tags demo and starter, an empty cover, and the
    default slug "sample-project" as the target of its navigation. *)
Theorem loadProjects_placeholder_on_failure (w : window) :
  has_element "project-grid" w = true →
  fetch_fails (network w) →
  ∃ c w',
    loadProjects w = Done () w'
    ∧ elements w' !! "project-grid" = Some [c]
    ∧ console w' = console w ++ [Warn (Some "Using fallback projects:")
                                   (fetch_error (network w))]
    ∧ card_title c = Some "Sample Project"
    ∧ card_desc c = Some "Replace projects.json to populate real projects."
    ∧ card_tags c = Some ["demo"; "starter"]
    ∧ card_cover c = Some []
    ∧ listeners_for "click" c = [Go placeholder]
    ∧ listeners_for "keydown" c = [GoOnKey placeholder]
    ∧ ∀ e w0, handle (Go placeholder) e w0
              = Done e (navigated "project.html?id=sample-project" w0).
Proof.
  intros Hgrid Hnet. apply fetch_fails_delivered in Hnet.
  eexists _, _. split; [by apply loadProjects_fallback|].
  split; [apply lookup_insert_eq|].
  by repeat split.
Qed.

Lemma loadProjects_placeholder_on_failure_witness :
  ∃ c w',
    loadProjects (landing_page (Response 404 None)) = Done () w'
    ∧ elements w' !! "project-grid" = Some [c]
    ∧ console w' = [Warn (Some "Using fallback projects:") (HttpError 404)]
    ∧ card_title c = Some "Sample Project".
Proof.
  destruct (loadProjects_placeholder_on_failure (landing_page (Response 404 None)) eq_refl)
    as (c & w' & Hrun & Hgrid & Hlog & Htitle & _).
  { right. exists 404, None. split; [reflexivity|]. right. by left. }
  exists c, w'. by repeat split.
Defined.

(** ** Activation of a card *)

Lemma build_each_raises (ts : list value) (row : node) :
  forallb convertible ts = false → ∃ e, build_each add_tag ts row = Raise e.
Proof.
  revert row. induction ts as [|t rest IH]; intros row; [done|].
  cbn [forallb build_each]. destruct (convertible t) eqn:Ht; cbn [andb].
  - intros Hrest. rewrite add_tag_convertible by done. cbn [rbind]. by apply IH.
  - intros _. unfold add_tag. cbn [el set_attrs rbind].
    unfold set_textContent. rewrite text_kids_raises by done. by eexists.
Qed.

(** What the renderer does not accept makes the callback raise. *)
Lemma card_raises (x : value) : record_ok x = false → ∃ e, card x = Raise e.
Proof.
  intros Hx.
  assert (x = VUndefined ∨ x = VNull
          ∨ (∀ k, get x k = Ok (get_opt x k))
            ∧ convertible (get_opt x "title")
              && convertible (get_opt x "cover")
              && convertible (get_opt x "description")
              && (negb (truthy (get_opt x "tags"))
                  || isArray (get_opt x "tags") && convertible (get_opt x "tags"))
              = false) as [->|[->|[Hget H]]];
    [destruct x; auto|by eexists|by eexists|].
  unfold card. rewrite !Hget. cbn [rbind].
  destruct (convertible (get_opt x "title")) eqn:Htitle;
    [|rewrite ToString_raises by done; by eexists].
  rewrite !(ToString_convertible (get_opt x "title")) by done. cbn [rbind].
  cbn [el set_attrs set_attr createElement negb String.eqb Ascii.eqb Bool.eqb
       ToString convertible to_string rbind setAttribute app fst snd].
  destruct (convertible (get_opt x "cover")) eqn:Hcover.
  2:{ assert (truthy (get_opt x "cover") = true) as ->.
      { destruct (truthy (get_opt x "cover")) eqn:E; [done|].
        apply convertible_falsy in E. congruence. }
      unfold set_attr. rewrite ToString_raises by done. by eexists. }
  assert (∃ cover, (if truthy (get_opt x "cover")
                    then let? img := (let? n' := set_attr "src" (get_opt x "cover")
                                                   (createElement "img") in
                                      Ok (setAttribute "alt"
                                            (to_string (get_opt x "title") +:+ " cover")
                                            n')) in
                         Ok (appendChild img (Elem "div" [("class", "card-cover")] [] []))
                    else Ok (Elem "div" [("class", "card-cover")] [] []))
                   = Ok cover) as [cover ->].
  { destruct (truthy (get_opt x "cover")); [|by eexists].
    rewrite set_attr_convertible by done. by eexists. }
  cbn [rbind].
  rewrite set_textContent_convertible by (by apply convertible_or). cbn [rbind].
  destruct (convertible (get_opt x "description")) eqn:Hdesc.
  2:{ assert (or (get_opt x "description") (VStr "No description yet.")
              = get_opt x "description") as ->.
      { unfold or. destruct (truthy (get_opt x "description")) eqn:E; [done|].
        apply convertible_falsy in E. congruence. }
      unfold set_textContent. rewrite text_kids_raises by done. by eexists. }
  rewrite set_textContent_convertible by (by apply convertible_or). cbn [rbind].
  cbn [andb] in H. apply orb_false_iff in H as [Hf Ha]. apply negb_false_iff in Hf.
  unfold or. rewrite Hf.
  destruct (get_opt x "tags") as [| | | | |ts|]; try (by eexists).
  cbn [isArray andb convertible] in Ha. cbn [forEach_build].
  destruct (build_each_raises ts (Elem "div" [("class", "card-tags")] [] []) Ha)
    as [e ->].
  by eexists.
Qed.

Lemma card_Ok_record (p : value) (c : node) : card p = Ok c → record_ok p = true.
Proof.
  intros Hc. destruct (record_ok p) eqn:Hp; [done|].
  destruct (card_raises p Hp) as [e He]. congruence.
Qed.

(** The renderer accepts exactly the records of [record_ok]. *)
Lemma record_ok_exact (p : value) : record_ok p = true ↔ ∃ c, card p = Ok c.
Proof.
  split.
  - intros Hp. exists (card_of p). by apply card_record.
  - intros [c Hc]. by apply (card_Ok_record p c).
Qed.

Lemma card_Ok_card_of (p : value) (c : node) : card p = Ok c → c = card_of p.
Proof.
  intros Hc. pose proof (card_Ok_record p c Hc) as Hp.
  rewrite (card_record p Hp) in Hc. by injection Hc.
Qed.

Lemma go_record (p : value) (w : window) :
  record_ok p = true → convertible (get_opt p "slug") = true →
  go p w = Done () (navigated (target p) w).
Proof.
  intros Hp Hs. unfold go. rewrite (get_not_null p) by done.
  unfold bind at 1. cbn [lift]. unfold ret at 1.
  rewrite ToString_convertible by (by apply convertible_or).
  unfold bind, lift, ret, modify, navigated, target, or.
  by destruct (truthy (get_opt p "slug")).
Qed.

(** A slug that does not convert makes [go] throw: no navigation. *)
Lemma go_raises (p : value) (w : window) :
  record_ok p = true → convertible (get_opt p "slug") = false →
  go p w = Threw conversion_error w.
Proof.
  intros Hp Hs. unfold go. rewrite (get_not_null p) by done.
  unfold bind at 1. cbn [lift]. unfold ret at 1.
  assert (or (get_opt p "slug") (VStr "sample-project") = get_opt p "slug") as ->.
  { unfold or. destruct (truthy (get_opt p "slug")) eqn:E; [done|].
    apply convertible_falsy in E. congruence. }
  by rewrite ToString_raises.
Qed.

Lemma hex_digit_unreserved (n : N) : unreserved (hex_digit n) = true.
Proof.
  destruct n as [|q]; [done|].
  do 5 (try destruct q as [q|q|]; try done).
Qed.

(** A percent-encoded string holds unreserved characters and % only. *)
Lemma encodeURIComponent_safe (s : string) :
  Forall (λ c, unreserved c = true ∨ c = "%"%char)
    (String.list_ascii_of_string (encodeURIComponent s)).
Proof.
  induction s as [|c rest IH]; simpl; [constructor|].
  destruct (unreserved c) eqn:Hc; simpl.
  - constructor; [by left|done].
  - constructor; [by right|].
    constructor; [left; apply hex_digit_unreserved|].
    constructor; [left; apply hex_digit_unreserved|done].
Qed.

(** C8. Every card renderProjects builds can take the focus (tabindex 0,
    role link) and listens to click and to keydown.  When the slug of the
    record converts to a string (as every string does), a click navigates
    to project.html?id=<slug>, where the slug of the
    record, or "sample-project" for a record without one, is percent-encoded
    (the parameter holds unreserved characters and % escapes only); a
    keydown of Enter or of Space prevents the default action and does the
    same navigation; any other key does nothing. *)
Theorem card_activation (p : value) (c : node) :
  card p = Ok c →
  convertible (get_opt p "slug") = true →
  attr "tabindex" c = Some "0"
  ∧ attr "role" c = Some "link"
  ∧ listeners_for "click" c = [Go p]
  ∧ listeners_for "keydown" c = [GoOnKey p]
  ∧ (∀ e w, handle (Go p) e w = Done e (navigated (target p) w))
  ∧ (∀ e w, key e = "Enter" ∨ key e = " " →
            handle (GoOnKey p) e w = Done (preventDefault e) (navigated (target p) w)
            ∧ defaultPrevented (preventDefault e) = true)
  ∧ (∀ e w, key e ≠ "Enter" → key e ≠ " " → handle (GoOnKey p) e w = Done e w)
  ∧ (truthy (get_opt p "slug") = false → target p = "project.html?id=sample-project")
  ∧ (∀ s, get_opt p "slug" = VStr s → s ≠ "" →
          target p = "project.html?id=" +:+ encodeURIComponent s)
  ∧ (∀ s, Forall (λ ch, unreserved ch = true ∨ ch = "%"%char)
            (String.list_ascii_of_string (encodeURIComponent s))).
Proof.
  intros Hc Hslug. pose proof (card_Ok_record p c Hc) as Hp.
  rewrite (card_Ok_card_of p c Hc).
  split; [done|]. split; [done|]. split; [done|]. split; [done|].
  split.
  { intros e w. unfold handle, bind. by rewrite go_record. }
  split.
  { intros e w Hkey. split; [|done]. unfold handle, go_on_key.
    assert (String.eqb (key e) "Enter" || String.eqb (key e) " " = true) as ->.
    { destruct Hkey as [-> | ->]; reflexivity. }
    unfold bind. by rewrite go_record. }
  split.
  { intros e w H1 H2. unfold handle, go_on_key.
    apply String.eqb_neq in H1, H2. by rewrite H1, H2. }
  split.
  { intros Hs. unfold target. by rewrite Hs. }
  split.
  { intros s Hs Hne. unfold target. rewrite Hs.
    apply truthy_str in Hne. by rewrite Hne. }
  apply encodeURIComponent_safe.
Qed.

Lemma card_activation_witness :
  handle (Go (VObj [("title", VStr "Maze"); ("slug", VStr "maze solver/1")]))
    click (landing_page NoResponse)
  = Done click (navigated "project.html?id=maze%20solver%2F1" (landing_page NoResponse))
  ∧ handle (GoOnKey (VObj [("title", VStr "Maze"); ("slug", VStr "maze solver/1")]))
      (keydown " ") (landing_page NoResponse)
    = Done (preventDefault (keydown " "))
        (navigated "project.html?id=maze%20solver%2F1" (landing_page NoResponse)).
Proof.
  destruct (card_activation
              (VObj [("title", VStr "Maze"); ("slug", VStr "maze solver/1")])
              (card_of (VObj [("title", VStr "Maze"); ("slug", VStr "maze solver/1")]))
              eq_refl eq_refl) as (_ & _ & _ & _ & Hclick & Hkey & _).
  split.
  - apply Hclick.
  - apply Hkey. by right.
Defined.

(** A card is built whatever the slug of its record is; a slug that does
    not convert shows when the card is activated: [go] throws and the
    window does not navigate. *)
Example activation_of_an_object_slug :
  ∃ c, card (VObj [("title", VStr "Maze"); ("slug", VObj [("toString", VNum 1)])]) = Ok c
       ∧ handle (Go (VObj [("title", VStr "Maze"); ("slug", VObj [("toString", VNum 1)])]))
           click (landing_page NoResponse)
         = Threw conversion_error (landing_page NoResponse).
Proof. by eexists. Qed.

(** ** Labels of a record without a title *)

Lemma title_absent (props : list (string * value)) :
  lookup_prop "title" props = None → get_opt (VObj props) "title" = VUndefined.
Proof. intros H. unfold get_opt. by rewrite H. Qed.

(** C10. For a record without a title the fallback of the visible title is
    not applied to the strings built by interpolation: the accessible label
    of its card is "Open undefined project" (while the card shows
    "Untitled"), and in its gallery, whose entries have sources and
    alternative texts that convert to strings, every entry that has no
    alternative text of its own gets the alternative text "undefined
    image". *)
Theorem absent_title_is_interpolated (props : list (string * value)) :
  lookup_prop "title" props = None →
  (∀ c, card (VObj props) = Ok c →
        attr "aria-label" c = Some "Open undefined project"
        ∧ card_title c = Some "Untitled")
  ∧ (∀ w items,
       has_element "project-gallery" w = true →
       get_opt (VObj props) "images" = VArr items →
       Forall (λ it, image_ok it = true) items →
       render_gallery (VObj props) w
       = Done () (with_elements
                    (<["project-gallery" := omap (gallery_entry VUndefined) items]>) w))
  ∧ (∀ it n,
       gallery_entry VUndefined it = Some n →
       truthy (get_opt it "alt") = false →
       alt_of n = Some "undefined image").
Proof.
  intros Ht. pose proof (title_absent props Ht) as Htitle.
  split; [|split].
  - intros c Hc. rewrite (card_Ok_card_of _ c Hc).
    destruct (card_of_shows (VObj props)) as (Hshown & _).
    rewrite Hshown. unfold card_of. rewrite Htitle. by split.
  - intros w items Hg Hi Hok.
    rewrite (render_gallery_array props w Hg items Hi); [|by rewrite Htitle|done].
    by rewrite Htitle.
  - intros it n Hn Halt. unfold gallery_entry in Hn.
    destruct (truthy (image_src it)); [|done]. injection Hn as <-.
    destruct (gallery_item_image (image_src it) (image_alt VUndefined it))
      as (_ & -> & _).
    unfold image_alt. rewrite Halt. by rewrite andb_false_r.
Qed.

Lemma absent_title_is_interpolated_witness :
  attr "aria-label" (card_of (VObj [("slug", VStr "abc")]))
  = Some "Open undefined project"
  ∧ render_gallery (VObj [("slug", VStr "abc"); ("images", VArr [VStr "x.png"])])
      (detail_page (Some "abc") NoResponse)
    = Done ()
        (with_elements
           (<["project-gallery" :=
                [gallery_item (VStr "x.png") (VStr "undefined image")]]>)
           (detail_page (Some "abc") NoResponse))
  ∧ alt_of (gallery_item (VStr "x.png") (VStr "undefined image"))
    = Some "undefined image".
Proof.
  split; [|split].
  - destruct (absent_title_is_interpolated [("slug", VStr "abc")] eq_refl) as (H & _).
    by destruct (H _ eq_refl).
  - destruct (absent_title_is_interpolated
                [("slug", VStr "abc"); ("images", VArr [VStr "x.png"])] eq_refl)
      as (_ & H & _).
    apply (H (detail_page (Some "abc") NoResponse) [VStr "x.png"] eq_refl eq_refl).
    by repeat constructor.
  - destruct (absent_title_is_interpolated [("slug", VStr "abc")] eq_refl) as (_ & _ & H).
    by apply (H (VStr "x.png")).
Defined.

(** ** The contact form *)

Lemma is_empty_true (s : string) : is_empty s = true ↔ s = "".
Proof. apply String.eqb_eq. Qed.

Lemma is_empty_false (s : string) : is_empty s = false ↔ s ≠ "".
Proof. apply String.eqb_neq. Qed.

(** C9. The submit listener of the contact form.  The three fields are read
    trimmed (a control that is missing reads as empty).  When one of them is
    empty, one alert "Please complete all fields." is issued and nothing
    else happens: no navigation.  When none is empty, no alert is issued and
    the window navigates to the mailto target of the recipient with the
    percent-encoded subject "Portfolio contact from <name>" and the
    percent-encoded body made of the lines "Name: <name>", "Email: <email>",
    an empty line, "Message:" and the message, joined by line feeds.  In both
    cases the default submission is prevented. *)
Theorem submit_contact_validates (e : event) (w : window) :
  let name := field "name" w in
  let email := field "email" w in
  let message := field "message" w in
  (∀ id, field id w = match controls w !! id with Some v => trim v | None => "" end)
  ∧ (name = "" ∨ email = "" ∨ message = "" →
       submit_contact e w
       = Done (preventDefault e) (alerted "Please complete all fields." w)
       ∧ navigations (alerted "Please complete all fields." w) = navigations w
       ∧ alerts (alerted "Please complete all fields." w)
         = alerts w ++ ["Please complete all fields."])
  ∧ (name ≠ "" → email ≠ "" → message ≠ "" →
       submit_contact e w
       = Done (preventDefault e) (feedback (navigated (mailto_of name email message) w))
       ∧ navigations (feedback (navigated (mailto_of name email message) w))
         = navigations w ++ [mailto_of name email message]
       ∧ alerts (feedback (navigated (mailto_of name email message) w)) = alerts w).
Proof.
  intros name email message. split; [done|]. split.
  - intros Hempty. split; [|done].
    unfold submit_contact, bind, read. fold name email message.
    assert (is_empty name || is_empty email || is_empty message = true) as ->.
    { destruct Hempty as [H|[H|H]]; apply is_empty_true in H; rewrite H;
        by rewrite ?orb_true_r. }
    reflexivity.
  - intros Hn He Hm.
    apply is_empty_false in Hn, He, Hm.
    assert (submit_contact e w
            = Done (preventDefault e)
                (feedback (navigated (mailto_of name email message) w))) as Hrun.
    { unfold submit_contact, bind, read. fold name email message.
      rewrite Hn, He, Hm. cbn [orb].
      unfold modify at 1. unfold feedback.
      change (submit_button (navigated ?u w)) with (submit_button w).
      change (submit_button (with_navigations ?l w)) with (submit_button w).
      by destruct (submit_button w). }
    split; [exact Hrun|].
    unfold feedback.
    change (submit_button (navigated ?u w)) with (submit_button w).
    by destruct (submit_button w).
Qed.

Lemma submit_contact_validates_witness :
  submit_contact click (contact_page " Ada " "ada@example.com" ("  " +:+ LF))
  = Done (preventDefault click)
      (alerted "Please complete all fields."
         (contact_page " Ada " "ada@example.com" ("  " +:+ LF)))
  ∧ navigations
      (final (submit_contact click (contact_page " Ada " "ada@example.com" "Hi there")))
    = ["mailto:you%40example.com?subject=Portfolio%20contact%20from%20Ada&body=Name%3A%20Ada%0AEmail%3A%20ada%40example.com%0A%0AMessage%3A%0AHi%20there"].
Proof.
  split.
  - destruct (submit_contact_validates click
                (contact_page " Ada " "ada@example.com" ("  " +:+ LF)))
      as (_ & H & _).
    apply H. right. right. by vm_compute.
  - destruct (submit_contact_validates click
                (contact_page " Ada " "ada@example.com" "Hi there"))
      as (_ & _ & H).
    destruct H as [-> [Hnav _]]; [by vm_compute..|].
    unfold final. rewrite Hnav. by vm_compute.
Defined.

(** ** Payloads that are no catalog *)

(** A body that parses but is no array of records is not caught on the
    landing page either: [forEach] is no function of an object, nor of the
    string a record has for [tags]. *)
Example landing_of_object_payload :
  returns (loadProjects (landing_page (Response 200 (Some (VObj []))))) = false.
Proof. reflexivity. Qed.

Example landing_of_string_tags :
  returns (loadProjects
             (landing_page (Response 200 (Some (VArr [VObj [("tags", VStr "demo")]])))))
  = false.
Proof. reflexivity. Qed.

(** * Further properties *)

(** ** Percent-encoding *)

Lemma unreserved_not_percent (c : ascii) : unreserved c = true → Ascii.eqb c "%" = false.
Proof.
  intros Hc. destruct (Ascii.eqb_spec c "%") as [->|]; [|done].
  by vm_compute in Hc.
Qed.

Lemma decode_byte (c : ascii) :
  ascii_of_N (16 * unhex (hex_digit (code c / 16)) + unhex (hex_digit (code c mod 16))) = c.
Proof. by destruct c as [[] [] [] [] [] [] [] []]. Qed.

Lemma percent_decode_encode (s : string) : percent_decode (encodeURIComponent s) = s.
Proof.
  induction s as [|c rest IH]; [done|].
  cbn [encodeURIComponent]. destruct (unreserved c) eqn:Hc.
  - cbn [percent_decode]. by rewrite (unreserved_not_percent c Hc), IH.
  - cbn [percent_decode]. change (Ascii.eqb "%" "%") with true. cbv iota.
    by rewrite decode_byte, IH.
Qed.

Lemma encodeURIComponent_inj (s t : string) :
  encodeURIComponent s = encodeURIComponent t → s = t.
Proof.
  intros H. rewrite <- (percent_decode_encode s), <- (percent_decode_encode t).
  by rewrite H.
Qed.

Lemma encodeURIComponent_app (s t : string) :
  encodeURIComponent (s +:+ t) = encodeURIComponent s +:+ encodeURIComponent t.
Proof.
  induction s as [|c rest IH]; [done|].
  change (String c rest +:+ t) with (String c (rest +:+ t)).
  cbn [encodeURIComponent]. rewrite IH.
  by destruct (unreserved c).
Qed.

Lemma encodeURIComponent_unreserved (s : string) :
  forallb unreserved (chars s) = true → encodeURIComponent s = s.
Proof.
  induction s as [|c rest IH]; [done|].
  cbn [chars String.list_ascii_of_string forallb]. intros [Hc Hrest]%andb_true_iff.
  cbn [encodeURIComponent]. rewrite Hc. f_equal. by apply IH.
Qed.

Lemma target_of_slug (p : value) (s : string) :
  get_opt p "slug" = VStr s → s ≠ "" →
  target p = "project.html?id=" +:+ encodeURIComponent s.
Proof.
  intros Hs Hne. unfold target. rewrite Hs.
  apply truthy_str in Hne. by rewrite Hne.
Qed.

(** X1. Cards of records with different non-empty string slugs navigate to
    different locations: percent-encoding is injective, so no two slugs
    share an id parameter. *)
Theorem different_slugs_different_targets (p q : value) (s t : string) :
  get_opt p "slug" = VStr s → get_opt q "slug" = VStr t →
  s ≠ "" → t ≠ "" → s ≠ t →
  String.eqb (target p) (target q) = false.
Proof.
  intros Hp Hq Hs Ht Hne. apply String.eqb_neq.
  rewrite (target_of_slug p s), (target_of_slug q t) by done.
  intros H. apply Hne, encodeURIComponent_inj.
  by apply (inj (String.app "project.html?id=")) in H.
Qed.

Lemma different_slugs_different_targets_witness :
  String.eqb (target (VObj [("slug", VStr "a b")]))
             (target (VObj [("slug", VStr "a%20b")])) = false.
Proof.
  apply (different_slugs_different_targets _ _ "a b" "a%20b"); by vm_compute.
Defined.

(** X2. A slug made of unreserved characters only (letters, digits and
    - _ . ! ~ * ' ( )) appears unchanged in the location of its card. *)
Theorem plain_slug_target (p : value) (s : string) :
  get_opt p "slug" = VStr s → s ≠ "" →
  forallb unreserved (chars s) = true →
  target p = "project.html?id=" +:+ s.
Proof.
  intros Hp Hs Hplain. rewrite (target_of_slug p s) by done.
  by rewrite encodeURIComponent_unreserved.
Qed.

Lemma plain_slug_target_witness :
  target (VObj [("title", VStr "Maze"); ("slug", VStr "maze-solver_v2.1")])
  = "project.html?id=maze-solver_v2.1".
Proof.
  apply (plain_slug_target _ "maze-solver_v2.1"); by vm_compute.
Defined.

(** ** The contact form: what is sent and what is refused *)

Lemma submit_contact_refuses (e : event) (w : window) :
  is_empty (field "name" w) || is_empty (field "email" w)
  || is_empty (field "message" w) = true →
  submit_contact e w = Done (preventDefault e) (alerted "Please complete all fields." w).
Proof. intros H. unfold submit_contact, bind, read. by rewrite H. Qed.

Lemma submit_contact_sends (e : event) (w : window) :
  is_empty (field "name" w) = false → is_empty (field "email" w) = false →
  is_empty (field "message" w) = false →
  submit_contact e w
  = Done (preventDefault e)
      (feedback (navigated (mailto_of (field "name" w) (field "email" w)
                              (field "message" w)) w)).
Proof.
  intros Hn He Hm. unfold submit_contact, bind, read. rewrite Hn, He, Hm. cbn [orb].
  unfold modify at 1. unfold feedback.
  change (submit_button (navigated ?u w)) with (submit_button w).
  change (submit_button (with_navigations ?l w)) with (submit_button w).
  by destruct (submit_button w).
Qed.

Lemma feedback_navigations (w : window) : navigations (feedback w) = navigations w.
Proof. unfold feedback. by destruct (submit_button w). Qed.

Lemma unreserved_no_delimiter (c : ascii) : unreserved c = true → delimiter c = false.
Proof. destruct c as [[] [] [] [] [] [] [] []]; by vm_compute. Qed.

Lemma encodeURIComponent_no_delimiter (s : string) :
  forallb (λ c, negb (delimiter c)) (chars (encodeURIComponent s)) = true.
Proof.
  apply forallb_forall. intros c Hc.
  pose proof (encodeURIComponent_safe s) as Hsafe.
  rewrite Forall_forall in Hsafe.
  destruct (Hsafe c) as [Hu| ->]; [by apply list_elem_of_In| |done].
  by rewrite unreserved_no_delimiter.
Qed.

Lemma append_assoc (a b c : string) : (a +:+ b) +:+ c = a +:+ b +:+ c.
Proof.
  induction a as [|x a IH]; [done|].
  change ((String x a +:+ b) +:+ c) with (String x ((a +:+ b) +:+ c)).
  by rewrite IH.
Qed.

Lemma mailto_of_parts (name email message : string) :
  mailto_of name email message
  = "mailto:you%40example.com?subject=Portfolio%20contact%20from%20"
    +:+ encodeURIComponent name
    +:+ "&body=Name%3A%20" +:+ encodeURIComponent name
    +:+ "%0AEmail%3A%20" +:+ encodeURIComponent email
    +:+ "%0A%0AMessage%3A%0A" +:+ encodeURIComponent message.
Proof.
  unfold mailto_of. rewrite !encodeURIComponent_app.
  change (encodeURIComponent TO_EMAIL) with "you%40example.com".
  change (encodeURIComponent "Portfolio contact from ")
    with "Portfolio%20contact%20from%20".
  change (encodeURIComponent "Name: ") with "Name%3A%20".
  change (encodeURIComponent "Email: ") with "Email%3A%20".
  change (encodeURIComponent "Message:") with "Message%3A".
  change (encodeURIComponent LF) with "%0A".
  by rewrite !append_assoc.
Qed.

(** X3. A submission with three non-empty fields navigates to exactly one
    location, the mailto target whose fixed parts are
    mailto:you%40example.com?subject=Portfolio%20contact%20from%20, &body=Name%3A%20,
    %0AEmail%3A%20 and %0A%0AMessage%3A%0A, with the percent-encoded trimmed
    fields between them; an encoded field never holds &, =, ?, # or white
    space, so what the visitor types cannot add or end a parameter. *)
Theorem mailto_target_is_escaped (e : event) (w : window) :
  field "name" w ≠ "" → field "email" w ≠ "" → field "message" w ≠ "" →
  navigations (final (submit_contact e w))
  = navigations w
    ++ ["mailto:you%40example.com?subject=Portfolio%20contact%20from%20"
        +:+ encodeURIComponent (field "name" w)
        +:+ "&body=Name%3A%20" +:+ encodeURIComponent (field "name" w)
        +:+ "%0AEmail%3A%20" +:+ encodeURIComponent (field "email" w)
        +:+ "%0A%0AMessage%3A%0A" +:+ encodeURIComponent (field "message" w)]
  ∧ forallb (λ c, negb (delimiter c)) (chars (encodeURIComponent (field "name" w))) = true
  ∧ forallb (λ c, negb (delimiter c)) (chars (encodeURIComponent (field "email" w))) = true
  ∧ forallb (λ c, negb (delimiter c)) (chars (encodeURIComponent (field "message" w)))
    = true.
Proof.
  intros Hn He Hm. apply is_empty_false in Hn, He, Hm.
  rewrite submit_contact_sends by done. cbn [final].
  rewrite feedback_navigations. cbn [navigated with_navigations navigations].
  rewrite mailto_of_parts.
  split; [done|]. repeat split; apply encodeURIComponent_no_delimiter.
Qed.

Lemma mailto_target_is_escaped_witness :
  navigations
    (final (submit_contact click
              (contact_page "Ada" "a@b.org" "x&subject=spam")))
  = ["mailto:you%40example.com?subject=Portfolio%20contact%20from%20Ada&body=Name%3A%20Ada%0AEmail%3A%20a%40b.org%0A%0AMessage%3A%0Ax%26subject%3Dspam"].
Proof.
  destruct (mailto_target_is_escaped click
              (contact_page "Ada" "a@b.org" "x&subject=spam")) as [H _];
    [by vm_compute..|].
  rewrite H. by vm_compute.
Defined.

Lemma trimStart_blank (s : string) : blank s = true → trimStart s = "".
Proof.
  induction s as [|c rest IH]; [done|].
  change (blank (String c rest)) with (space1 c && blank rest).
  intros [Hc Hrest]%andb_true_iff. cbn [trimStart]. rewrite Hc. by apply IH.
Qed.

Lemma trim_blank (s : string) : blank s = true → trim s = "".
Proof. intros H. unfold trim. by rewrite trimStart_blank. Qed.

Lemma field_blank (id : string) (w : window) :
  controls w !! id = None ∨ (∃ v, controls w !! id = Some v ∧ blank v = true) →
  is_empty (field id w) = true.
Proof.
  unfold field. intros [-> | (v & -> & Hv)]; [done|]. by rewrite trim_blank.
Qed.

(** X4. A submission is refused, with the one alert and without any
    navigation, as soon as one of the three controls is missing from the
    page or holds nothing but spaces, tabs and line breaks. *)
Theorem blank_field_is_refused (e : event) (w : window) (id : string) :
  id = "name" ∨ id = "email" ∨ id = "message" →
  controls w !! id = None ∨ (∃ v, controls w !! id = Some v ∧ blank v = true) →
  submit_contact e w = Done (preventDefault e) (alerted "Please complete all fields." w)
  ∧ navigations (alerted "Please complete all fields." w) = navigations w.
Proof.
  intros Hid Hblank. split; [|done]. apply submit_contact_refuses.
  apply field_blank in Hblank.
  destruct Hid as [-> | [-> | ->]]; rewrite Hblank; by rewrite ?orb_true_r.
Qed.

Lemma blank_field_is_refused_witness :
  submit_contact click (contact_page "Ada" ("  " +:+ LF +:+ " ") "Hello")
  = Done (preventDefault click)
      (alerted "Please complete all fields."
         (contact_page "Ada" ("  " +:+ LF +:+ " ") "Hello")).
Proof.
  apply (blank_field_is_refused click _ "email").
  - right. by left.
  - right. exists ("  " +:+ LF +:+ " "). by split.
Defined.

(** ** Trimming *)

Lemma append_nil_r (s : string) : s +:+ "" = s.
Proof.
  induction s as [|c s IH]; [done|].
  change (String c s +:+ "") with (String c (s +:+ "")). by rewrite IH.
Qed.

Lemma rev_app_append (s acc : string) : String.rev_app s acc = String.rev s +:+ acc.
Proof.
  revert acc. induction s as [|c s IH]; intros acc; [done|].
  unfold String.rev. cbn [String.rev_app].
  rewrite (IH (String c acc)), (IH (String c "")). by rewrite append_assoc.
Qed.

Lemma rev_append (a b : string) : String.rev (a +:+ b) = String.rev b +:+ String.rev a.
Proof.
  induction a as [|c a IH].
  - change ("" +:+ b) with b. by rewrite append_nil_r.
  - change (String c a +:+ b) with (String c (a +:+ b)).
    unfold String.rev at 1 3. cbn [String.rev_app].
    by rewrite !rev_app_append, IH, append_assoc.
Qed.

Lemma rev_rev (s : string) : String.rev (String.rev s) = s.
Proof.
  induction s as [|c s IH]; [done|].
  unfold String.rev at 2. cbn [String.rev_app].
  by rewrite rev_app_append, rev_append, IH.
Qed.

Lemma blank_cons (c : ascii) (s : string) : blank (String c s) = space1 c && blank s.
Proof. reflexivity. Qed.

Lemma blank_append (a b : string) : blank (a +:+ b) = blank a && blank b.
Proof.
  induction a as [|c a IH]; [done|].
  change (String c a +:+ b) with (String c (a +:+ b)).
  by rewrite !blank_cons, IH, andb_assoc.
Qed.

Lemma blank_rev (s : string) : blank (String.rev s) = blank s.
Proof.
  induction s as [|c s IH]; [done|].
  unfold String.rev. cbn [String.rev_app].
  rewrite rev_app_append, blank_append, IH, !blank_cons.
  change (blank "") with true. by rewrite andb_true_r, andb_comm.
Qed.

Lemma space2_bytes (c1 c2 : ascii) :
  space2 c1 c2 = true → code c1 = 194%N ∧ code c2 = 160%N.
Proof.
  unfold space2. intros [H1 H2]%andb_true_iff.
  by apply bool_decide_eq_true in H1, H2.
Qed.

Lemma space3_bytes (c1 c2 c3 : ascii) :
  space3 c1 c2 c3 = true → (128 ≤ code c1)%N ∧ (128 ≤ code c3)%N.
Proof.
  unfold space3, in_range. cbv zeta. intros [H|H]%orb_true_iff.
  - apply bool_decide_eq_true in H.
    rewrite !elem_of_cons, elem_of_nil in H.
    destruct H as [H|[H|[H|[H|[]]]]]; injection H as H1 H2 H3; lia.
  - apply andb_true_iff in H as [[H1 H2]%andb_true_iff H3].
    apply bool_decide_eq_true in H1. split; [lia|].
    apply orb_true_iff in H3 as [[H3 _]%andb_true_iff|H3].
    + apply N.leb_le in H3. lia.
    + apply bool_decide_eq_true in H3.
      rewrite !elem_of_cons, elem_of_nil in H3.
      destruct H3 as [H3|[H3|[H3|[]]]]; lia.
Qed.

Lemma visible_code (c : ascii) :
  visible c = true → (code c < 128)%N ∧ space1 c = false.
Proof.
  unfold visible. intros [H1 H2]%andb_true_iff.
  apply N.ltb_lt in H1. by apply negb_true_iff in H2.
Qed.

Lemma trimStart_visible (c : ascii) (rest : string) :
  visible c = true → trimStart (String c rest) = String c rest.
Proof.
  intros [Hc Hs]%visible_code. cbn [trimStart]. rewrite Hs.
  destruct rest as [|c2 [|c3 r3]]; [done| |].
  - destruct (space2 c c2) eqn:E2; [|done]. apply space2_bytes in E2. lia.
  - destruct (space2 c c2) eqn:E2; [apply space2_bytes in E2; lia|].
    destruct (space3 c c2 c3) eqn:E3; [|done]. apply space3_bytes in E3. lia.
Qed.

Lemma trimStart_rev_visible (c : ascii) (rest : string) :
  visible c = true → trimStart_rev (String c rest) = String c rest.
Proof.
  intros [Hc Hs]%visible_code. cbn [trimStart_rev]. rewrite Hs.
  destruct rest as [|c2 [|c3 r3]]; [done| |].
  - destruct (space2 c2 c) eqn:E2; [|done]. apply space2_bytes in E2. lia.
  - destruct (space2 c2 c) eqn:E2; [apply space2_bytes in E2; lia|].
    destruct (space3 c3 c2 c) eqn:E3; [|done]. apply space3_bytes in E3. lia.
Qed.

Lemma trimStart_padding (pad s : string) :
  blank pad = true → trimStart (pad +:+ s) = trimStart s.
Proof.
  induction pad as [|c pad IH]; [done|].
  rewrite blank_cons. intros [Hc Hpad]%andb_true_iff.
  change (String c pad +:+ s) with (String c (pad +:+ s)).
  cbn [trimStart]. rewrite Hc. by apply IH.
Qed.

Lemma trimStart_rev_padding (pad s : string) :
  blank pad = true → trimStart_rev (pad +:+ s) = trimStart_rev s.
Proof.
  induction pad as [|c pad IH]; [done|].
  rewrite blank_cons. intros [Hc Hpad]%andb_true_iff.
  change (String c pad +:+ s) with (String c (pad +:+ s)).
  cbn [trimStart_rev]. rewrite Hc. by apply IH.
Qed.

Lemma trim_padding (pad pad' s front back : string) (c d : ascii) :
  blank pad = true → blank pad' = true →
  s = String c back → s = front +:+ String d "" →
  visible c = true → visible d = true →
  trim (pad +:+ s +:+ pad') = s.
Proof.
  intros Hpad Hpad' Hc Hd Hvc Hvd. unfold trim, trimEnd.
  rewrite trimStart_padding by done.
  assert (trimStart (s +:+ pad') = s +:+ pad') as ->.
  { rewrite Hc. change (String c back +:+ pad') with (String c (back +:+ pad')).
    by apply trimStart_visible. }
  rewrite rev_append, trimStart_rev_padding by by rewrite blank_rev.
  assert (trimStart_rev (String.rev s) = String.rev s) as ->.
  { rewrite Hd, rev_append. by apply trimStart_rev_visible. }
  apply rev_rev.
Qed.

(** X5. The script reads a control trimmed: spaces, tabs and line breaks
    around the text are dropped and the text itself, which starts and ends
    with a visible one-byte character, is kept as it is, inner spaces
    included. *)
Theorem field_drops_padding (w : window) (id pad pad' s front back : string) (c d : ascii) :
  controls w !! id = Some (pad +:+ s +:+ pad') →
  blank pad = true → blank pad' = true →
  s = String c back → s = front +:+ String d "" →
  visible c = true → visible d = true →
  field id w = s.
Proof.
  intros Hv Hpad Hpad' Hc Hd Hvc Hvd. unfold field. rewrite Hv.
  by apply (trim_padding pad pad' s front back c d).
Qed.

Lemma field_drops_padding_witness :
  field "name" (contact_page ("  " +:+ "Ada  Lovelace" +:+ (" " +:+ LF)) "a@b.org" "Hi")
  = "Ada  Lovelace".
Proof.
  apply (field_drops_padding _ "name" "  " (" " +:+ LF) "Ada  Lovelace"
           "Ada  Lovelac" "da  Lovelace" "A" "e"); by vm_compute.
Defined.

(** ** The submit button and the wiring of the form *)

(** X6. After a submission that is sent, on a page whose submit button is
    enabled and has no timer pending, the button is disabled and reads
    "Opening your email client…", and one timer of 2500 ms is pending; once
    its callback has run the button is enabled and labelled as before, and
    the window is the one the navigation alone would have left. *)
Theorem button_feedback_is_undone (e : event) (w : window) (b : button) :
  field "name" w ≠ "" → field "email" w ≠ "" → field "message" w ≠ "" →
  submit_button w = Some b → disabled b = false → timers w = [] →
  ∃ w1,
    submit_contact e w = Done (preventDefault e) w1
    ∧ submit_button w1
      = Some {| disabled := true; label := "Opening your email client…" |}
    ∧ timers w1 = [(2500, label b)]
    ∧ fire_timer w1
      = Done () (navigated (mailto_of (field "name" w) (field "email" w)
                              (field "message" w)) w).
Proof.
  intros Hn He Hm Hb Hd Ht. apply is_empty_false in Hn, He, Hm.
  eexists. split; [by apply submit_contact_sends|].
  unfold feedback.
  change (submit_button (navigated ?u w)) with (submit_button w).
  rewrite Hb. split; [done|]. split; [cbn; by rewrite Ht|].
  unfold fire_timer. cbn [timers with_timers with_submit_button navigated
                          with_navigations]. rewrite Ht. cbn [app].
  unfold restore_button, modify. f_equal.
  destruct b as [dis lab]. cbn in Hd. subst dis.
  clear Hn He Hm. generalize (mailto_of (field "name" w) (field "email" w)
                                (field "message" w)). intros url.
  destruct w. cbn in Hb, Ht. subst. reflexivity.
Qed.

Lemma button_feedback_is_undone_witness :
  ∃ w1,
    submit_contact click (contact_page "Ada" "a@b.org" "Hi") = Done (preventDefault click) w1
    ∧ submit_button w1
      = Some {| disabled := true; label := "Opening your email client…" |}
    ∧ timers w1 = [(2500, "Send")]
    ∧ fire_timer w1
      = Done () (navigated (mailto_of "Ada" "a@b.org" "Hi")
                   (contact_page "Ada" "a@b.org" "Hi")).
Proof.
  apply (button_feedback_is_undone click (contact_page "Ada" "a@b.org" "Hi")
           {| disabled := false; label := "Send" |}); by vm_compute.
Defined.

(** X7. wireContactForm registers one submit listener on a form that has
    none: a submit event dispatched afterwards runs the validation of the
    fields exactly once. *)
Theorem wired_form_runs_the_listener (e : event) (w : window) :
  contact_form w = Some [] →
  (wireContactForm ;; submit_form e) w
  = submit_contact e (with_contact_form (Some [("submit", SubmitContact)]) w).
Proof.
  intros Hf. unfold bind at 1. unfold wireContactForm. rewrite Hf.
  unfold modify. cbv beta iota. unfold submit_form.
  change (contact_form (with_contact_form ?f w)) with f. cbv beta iota.
  change (omap _ ([] ++ [("submit", SubmitContact)])) with [SubmitContact].
  cbn [run_listeners handle]. unfold bind.
  by destruct (submit_contact e _).
Qed.

Lemma wired_form_runs_the_listener_witness :
  (wireContactForm ;; submit_form click) (contact_page "Ada" "" "Hi")
  = Done (preventDefault click)
      (alerted "Please complete all fields."
         (with_contact_form (Some [("submit", SubmitContact)])
            (contact_page "Ada" "" "Hi"))).
Proof.
  rewrite (wired_form_runs_the_listener click (contact_page "Ada" "" "Hi") eq_refl).
  reflexivity.
Defined.

(** ** What the loaders leave alone *)

Lemma footprint_refl (w : window) : footprint 0 w w.
Proof. repeat split. cbn. by rewrite app_nil_r. Qed.

Lemma footprint_trans (n : nat) (w1 w2 w3 : window) :
  footprint n w1 w2 → footprint 0 w2 w3 → footprint n w1 w3.
Proof.
  unfold footprint, untouched.
  intros [(? & ? & ? & ? & ? & ?) Hr1] [(? & ? & ? & ? & ? & ?) Hr2].
  cbn in Hr2. rewrite app_nil_r in Hr2.
  repeat split; congruence.
Qed.

Section Issues.

Context {A B : Type}.

Lemma issues_ret (a : A) : issues 0 (ret a).
Proof. intros w. apply footprint_refl. Qed.

Lemma issues_throw (e : error) : issues 0 (@throw A e).
Proof. intros w. apply footprint_refl. Qed.

Lemma issues_lift (r : result A) : issues 0 (lift r).
Proof. destruct r; [apply issues_ret|apply issues_throw]. Qed.

Lemma issues_bind (n : nat) (m : js A) (k : A → js B) :
  issues n m → (∀ a, issues 0 (k a)) → issues n (bind m k).
Proof.
  intros Hm Hk w. unfold bind. specialize (Hm w).
  destruct (m w) as [a w'|e w']; [|done].
  eapply footprint_trans; [exact Hm|apply Hk].
Qed.

Lemma issues_try_catch (n : nat) (m : js A) (h : error → js A) :
  issues n m → (∀ e, issues 0 (h e)) → issues n (try_catch m h).
Proof.
  intros Hm Hh w. unfold try_catch. specialize (Hm w).
  destruct (m w) as [a w'|e w']; [done|].
  eapply footprint_trans; [exact Hm|apply Hh].
Qed.

Lemma issues_guard (n : nat) (c : window → bool) (m1 m2 : js A) :
  issues n m1 → issues n m2 → issues n (λ w, if c w then m1 w else m2 w).
Proof. intros H1 H2 w. destruct (c w); [apply H1|apply H2]. Qed.

End Issues.

Lemma issues_modify (f : window → window) :
  (∀ w, footprint 0 w (f w)) → issues 0 (modify f).
Proof. intros Hf w. apply Hf. Qed.

Lemma issues_for_each {A} (f : A → js unit) (l : list A) :
  (∀ x, issues 0 (f x)) → issues 0 (for_each f l).
Proof.
  intros Hf. induction l as [|x rest IH]; [apply issues_ret|].
  apply issues_bind; [apply Hf|]. intros _. apply IH.
Qed.

Lemma issues_forEach (v : value) (f : value → js unit) :
  (∀ x, issues 0 (f x)) → issues 0 (forEach v f).
Proof.
  intros Hf. destruct v; try apply issues_throw. by apply issues_for_each.
Qed.

Lemma issues_elements (f : gmap string (list node) → gmap string (list node)) :
  issues 0 (modify (with_elements f)).
Proof. apply issues_modify. intros w. repeat split. cbn. by rewrite app_nil_r. Qed.

Lemma issues_set_text (id : string) (v : value) : issues 0 (set_text_if_present id v).
Proof.
  unfold set_text_if_present, set_kids.
  apply (issues_guard 0 (has_element id)); [|apply issues_ret].
  apply issues_bind; [apply issues_lift|]. intros kids. apply issues_elements.
Qed.

Lemma issues_fetch_json : issues 1 (fetch_json "projects.json").
Proof.
  intros w. rewrite fetch_json_outcome.
  by destruct (delivered (network w)).
Qed.

Ltac issues_step :=
  first
    [ apply issues_set_text
    | apply issues_elements
    | apply issues_fetch_json
    | apply issues_ret
    | apply issues_throw
    | apply issues_lift
    | apply issues_forEach; intros ?
    | apply issues_for_each; intros ?
    | apply issues_try_catch; [|intros ?]
    | apply issues_bind; [|intros ?]
    | apply issues_guard
    | apply issues_modify; intros ?; repeat split; cbn; by rewrite app_nil_r
    | match goal with
      | |- issues _ (match ?x with _ => _ end) => destruct x
      end
    | progress cbv zeta ].

Ltac issues := repeat issues_step.

Lemma issues_renderProjects (projects : value) (grid : string) :
  issues 0 (renderProjects projects grid).
Proof. unfold renderProjects, set_kids, append_kid. issues. Qed.

Lemma issues_render_detail (p : value) : issues 0 (render_detail p).
Proof.
  unfold render_detail, render_heading, render_meta, render_body, render_gallery,
    set_kids, append_kid.
  issues.
Qed.

Ltac issues_loader :=
  repeat first
    [ apply issues_render_detail | apply issues_renderProjects | issues_step ].

(** X8. Whatever the page, the network and the catalog are, and whether it
    returns or throws, loadProjectDetail never navigates, never alerts and
    never touches the form, its controls or the timers; it issues one
    request for projects.json when the page has the article and an id was
    given, and none otherwise: there is no retry. *)
Theorem loadProjectDetail_footprint (w : window) :
  untouched w (final (loadProjectDetail w))
  ∧ requests (final (loadProjectDetail w))
    = if has_element "project-article" w && truthy (of_param (requested_id w))
      then requests w ++ ["projects.json"]
      else requests w.
Proof.
  unfold loadProjectDetail. rewrite id_of_window.
  destruct (has_element "project-article" w); cbn [negb andb];
    [|by repeat split].
  destruct (truthy (of_param (requested_id w))); cbn [negb].
  - match goal with |- untouched ?w0 (final (?m ?w0)) ∧ _ =>
      assert (issues 1 m) as Hm; [|apply Hm] end.
    issues_loader.
  - match goal with |- untouched ?w0 (final (?m ?w0)) ∧ _ =>
      assert (issues 0 m) as Hm; [issues|] end.
    destruct (Hm w) as [Hu Hr]. split; [done|].
    rewrite Hr. cbn. by rewrite app_nil_r.
Qed.

(** X9. Whatever the network answers and the catalog holds, and whether it
    returns or throws, loadProjects never navigates, never alerts and never
    touches the form, its controls or the timers; it issues one request for
    projects.json when the page has the grid, and none otherwise. *)
Theorem loadProjects_footprint (w : window) :
  untouched w (final (loadProjects w))
  ∧ requests (final (loadProjects w))
    = if has_element "project-grid" w then requests w ++ ["projects.json"]
      else requests w.
Proof.
  unfold loadProjects.
  destruct (has_element "project-grid" w); cbn [negb]; [|by repeat split].
  match goal with |- untouched ?w0 (final (?m ?w0)) ∧ _ =>
    assert (issues 1 m) as Hm; [|apply Hm] end.
  issues_loader.
Qed.

(** ** The landing page on a catalog, well formed or not *)

(** X10. When the fetch delivers a catalog of records the renderer accepts,
    loadProjects returns
    with one card per record in the grid, in catalog order, each showing its
    record; nothing is logged on the console and one request went out. *)
Theorem loadProjects_renders_the_catalog (w : window) (status : Z) (items : list value) :
  has_element "project-grid" w = true →
  network w = Response status (Some (VArr items)) →
  200 ≤ status ≤ 299 →
  Forall (λ p, record_ok p = true) items →
  ∃ cards w',
    loadProjects w = Done () w'
    ∧ elements w' !! "project-grid" = Some cards
    ∧ Forall2 card_shows items cards
    ∧ console w' = console w
    ∧ requests w' = requests w ++ ["projects.json"].
Proof.
  intros Hgrid Hnet Hstatus Hok.
  exists (card_of <$> items), (with_elements (<["project-grid" := card_of <$> items]>)
                                 (requesting w)).
  split.
  - unfold loadProjects. rewrite Hgrid. cbn [negb].
    unfold bind at 1. unfold try_catch.
    rewrite fetch_json_outcome, Hnet, delivered_ok by done.
    by apply renderProjects_records.
  - split; [apply lookup_insert_eq|]. split; [|done].
    apply Forall2_fmap_r, Forall_Forall2_diag, Forall_forall.
    intros p _. apply card_of_shows.
Qed.

Lemma loadProjects_renders_the_catalog_witness :
  ∃ cards w',
    loadProjects
      (landing_page (Response 200 (Some (VArr [VObj [("title", VStr "Maze")];
                                                VObj [("title", VStr "Chess")]]))))
    = Done () w'
    ∧ elements w' !! "project-grid" = Some cards
    ∧ Forall2 card_shows [VObj [("title", VStr "Maze")]; VObj [("title", VStr "Chess")]]
        cards
    ∧ console w' = []
    ∧ requests w' = ["projects.json"].
Proof.
  apply (loadProjects_renders_the_catalog
           (landing_page (Response 200 (Some (VArr [VObj [("title", VStr "Maze")];
                                                     VObj [("title", VStr "Chess")]]))))
           200 [VObj [("title", VStr "Maze")]; VObj [("title", VStr "Chess")]]);
    [reflexivity|reflexivity|lia|repeat constructor].
Defined.

(** X11. An entry the renderer does not accept (null; a [tags] that is
    neither falsy nor an array; a title, a cover, a description or a tag
    that does not convert to a string, such as an object with a toString
    property of its own) stops renderProjects with an exception: the grid
    keeps the cards of the records before it, in order, and the entries
    after it are never rendered. *)
Theorem renderProjects_stops_at_a_bad_entry
    (l1 l2 : list value) (x : value) (grid : string) (w : window) :
  Forall (λ p, record_ok p = true) l1 →
  record_ok x = false →
  ∃ e, card x = Raise e
       ∧ renderProjects (VArr (l1 ++ x :: l2)) grid w
         = Threw e (with_elements (<[grid := card_of <$> l1]>) w).
Proof.
  intros Hok Hx. destruct (card_raises x Hx) as [e He]. exists e. split; [done|].
  unfold renderProjects. cbn [forEach]. unfold bind at 1, set_kids, modify.
  rewrite for_each_app_run.
  rewrite (for_each_ext_Forall _ (λ p, append_opt grid (Some (card_of p))) l1).
  - rewrite for_each_append. cbn [for_each]. unfold bind. rewrite He. cbn [lift].
    unfold throw. f_equal. unfold with_elements. cbn. f_equal.
    by rewrite alter_insert_eq.
  - eapply Forall_impl; [exact Hok|]. intros p Hp. cbv beta in Hp.
    by rewrite card_record.
Qed.

Lemma renderProjects_stops_at_a_bad_entry_witness :
  (∃ e, card VNull = Raise e
        ∧ renderProjects (VArr ([VObj [("title", VStr "Maze")]]
                                 ++ VNull :: [VObj [("title", VStr "Chess")]]))
            "project-grid" (landing_page NoResponse)
          = Threw e (with_elements
                       (<["project-grid" := card_of <$> [VObj [("title", VStr "Maze")]]]>)
                       (landing_page NoResponse)))
  ∧ (∃ e, card (VObj [("title", VObj [("toString", VNull)])]) = Raise e
          ∧ renderProjects
              (VArr ([VObj [("title", VStr "Maze")]]
                     ++ VObj [("title", VObj [("toString", VNull)])]
                     :: [VObj [("title", VStr "Chess")]]))
              "project-grid" (landing_page NoResponse)
            = Threw e (with_elements
                         (<["project-grid" :=
                              card_of <$> [VObj [("title", VStr "Maze")]]]>)
                         (landing_page NoResponse))).
Proof.
  split.
  - apply (renderProjects_stops_at_a_bad_entry [VObj [("title", VStr "Maze")]]
             [VObj [("title", VStr "Chess")]] VNull);
      [repeat constructor|reflexivity].
  - apply (renderProjects_stops_at_a_bad_entry [VObj [("title", VStr "Maze")]]
             [VObj [("title", VStr "Chess")]]
             (VObj [("title", VObj [("toString", VNull)])]));
      [repeat constructor|reflexivity].
Defined.

(** X12. A body that parses to something other than an array is not treated
    as a failed fetch: no placeholder is used, loadProjects throws a
    TypeError, and the grid is left empty, its previous content cleared. *)
Theorem loadProjects_on_a_payload_that_is_no_array
    (w : window) (status : Z) (data : value) :
  has_element "project-grid" w = true →
  network w = Response status (Some data) →
  200 ≤ status ≤ 299 →
  isArray data = false →
  loadProjects w
  = Threw (TypeError "forEach is not a function")
      (with_elements (<["project-grid" := []]>) (requesting w))
  ∧ console (requesting w) = console w.
Proof.
  intros Hgrid Hnet Hstatus Harr. split; [|done].
  unfold loadProjects. rewrite Hgrid. cbn [negb].
  unfold bind at 1. unfold try_catch.
  rewrite fetch_json_outcome, Hnet, delivered_ok by done.
  unfold renderProjects, bind, set_kids, modify.
  by destruct data.
Qed.

Lemma loadProjects_on_a_payload_that_is_no_array_witness :
  loadProjects (landing_page (Response 200 (Some (VObj [("projects", VArr [])]))))
  = Threw (TypeError "forEach is not a function")
      (with_elements (<["project-grid" := []]>)
         (requesting (landing_page (Response 200 (Some (VObj [("projects", VArr [])])))))).
Proof.
  apply (loadProjects_on_a_payload_that_is_no_array
           (landing_page (Response 200 (Some (VObj [("projects", VArr [])]))))
           200 (VObj [("projects", VArr [])])); [reflexivity|reflexivity|lia|reflexivity].
Defined.

(** ** Rendering again *)

(** X13. renderProjects starts from an empty grid: for catalogs of records
    the renderer accepts, rendering a second
    catalog after a first one leaves exactly what rendering the second alone
    leaves, so no card of the first survives and none is doubled. *)
Theorem renderProjects_replaces_the_grid
    (earlier later : list value) (grid : string) (w : window) :
  Forall (λ p, record_ok p = true) earlier →
  Forall (λ p, record_ok p = true) later →
  (renderProjects (VArr earlier) grid ;; renderProjects (VArr later) grid) w
  = renderProjects (VArr later) grid w.
Proof.
  intros H1 H2. unfold bind.
  rewrite (renderProjects_records earlier grid w H1).
  rewrite !(renderProjects_records later) by done.
  f_equal. unfold with_elements. cbn. f_equal. apply insert_insert_eq.
Qed.

Lemma renderProjects_replaces_the_grid_witness :
  (renderProjects (VArr [VObj [("title", VStr "Maze")]; VObj []]) "project-grid" ;;
   renderProjects (VArr [VObj [("title", VStr "Chess")]]) "project-grid")
    (landing_page NoResponse)
  = renderProjects (VArr [VObj [("title", VStr "Chess")]]) "project-grid"
      (landing_page NoResponse).
Proof.
  apply renderProjects_replaces_the_grid; repeat constructor.
Defined.

(** ** Rendering a record again *)

Lemma has_element_insert (id id' : string) (kids : list node) (w : window) :
  has_element id (with_elements (<[id' := kids]>) w)
  = if decide (id' = id) then true else has_element id w.
Proof.
  unfold has_element. cbn. destruct (decide (id' = id)) as [->|Hne].
  - rewrite lookup_insert_eq. apply bool_decide_eq_true. eauto.
  - by rewrite lookup_insert_ne.
Qed.

Lemma show_show (id : string) (k1 k2 : list node) (w : window) :
  show id k2 (show id k1 w) = show id k2 w.
Proof.
  unfold show. destruct (has_element id w) eqn:Hid; [|by rewrite Hid].
  rewrite has_element_insert. rewrite decide_True by done.
  unfold with_elements. cbn. f_equal. apply insert_insert_eq.
Qed.

Lemma show_comm (i j : string) (a b : list node) (w : window) :
  i ≠ j → show i a (show j b w) = show j b (show i a w).
Proof.
  intros Hne. unfold show.
  destruct (has_element j w) eqn:Hj, (has_element i w) eqn:Hi;
    rewrite ?has_element_insert, ?decide_False, ?Hi, ?Hj by done; try done.
  unfold with_elements. cbn. f_equal. by apply insert_insert_ne.
Qed.

Lemma show_doc_title (i : string) (a : list node) (s : string) (w : window) :
  show i a (with_doc_title s w) = with_doc_title s (show i a w).
Proof.
  unfold show. change (has_element i (with_doc_title s w)) with (has_element i w).
  by destruct (has_element i w).
Qed.

Lemma doc_title_doc_title (s1 s2 : string) (w : window) :
  with_doc_title s2 (with_doc_title s1 w) = with_doc_title s2 w.
Proof. reflexivity. Qed.

(** X14. The render of a record rebuilds the title, the summary, the meta
    area, the body, the gallery and the tab title from scratch: for records
    none of whose values raises when converted, rendering a
    second record after a first leaves exactly what rendering the second
    alone leaves, so nothing of the first record stays on the page. *)
Theorem render_detail_replaces_the_page (earlier later : list (string * value)) (w : window) :
  plain (VObj earlier) = true →
  plain (VObj later) = true →
  (render_detail (VObj earlier) ;; render_detail (VObj later)) w
  = render_detail (VObj later) w
  ∧ render_detail (VObj later) w = Done () (rendered (VObj later) w).
Proof.
  intros He Hl. split; [|by apply render_detail_record].
  unfold bind. rewrite (render_detail_record earlier w), !render_detail_record by done.
  f_equal. unfold heading.
  rewrite (show_comm "project-title" "project-gallery"),
    (show_comm "project-title" "project-body"),
    (show_comm "project-title" "project-meta"),
    (show_comm "project-title" "project-summary") by done.
  rewrite (show_doc_title "project-title"), show_show.
  rewrite <- (show_doc_title "project-gallery"), <- (show_doc_title "project-body"),
    <- (show_doc_title "project-meta"), <- (show_doc_title "project-summary").
  rewrite doc_title_doc_title.
  rewrite (show_comm "project-summary" "project-gallery"),
    (show_comm "project-summary" "project-body"),
    (show_comm "project-summary" "project-meta") by done.
  rewrite (show_show "project-summary").
  rewrite (show_comm "project-meta" "project-gallery"),
    (show_comm "project-meta" "project-body") by done.
  rewrite (show_show "project-meta").
  rewrite (show_comm "project-body" "project-gallery") by done.
  rewrite (show_show "project-body").
  by rewrite (show_show "project-gallery").
Qed.

Lemma render_detail_replaces_the_page_witness :
  (render_detail (VObj [("title", VStr "Maze"); ("link", VStr "https://example.org/maze");
                        ("images", VArr [VStr "maze.png"])]) ;;
   render_detail (VObj [("title", VStr "Chess")])) (detail_page (Some "chess") NoResponse)
  = render_detail (VObj [("title", VStr "Chess")]) (detail_page (Some "chess") NoResponse)
  ∧ elements (final (render_detail (VObj [("title", VStr "Chess")])
                       (detail_page (Some "chess") NoResponse)))
      !! "project-gallery" = Some [].
Proof.
  destruct (render_detail_replaces_the_page
              [("title", VStr "Maze"); ("link", VStr "https://example.org/maze");
               ("images", VArr [VStr "maze.png"])]
              [("title", VStr "Chess")] (detail_page (Some "chess") NoResponse)
              eq_refl eq_refl) as [H1 H2].
  split; [exact H1|]. rewrite H2. reflexivity.
Defined.

(** ** The summary and the meta area *)

Lemma text_of_truthy (v : value) : truthy v = true → text_of v = text_nodes (to_string v).
Proof. by destruct v. Qed.

(** X15. On the detail page of a record none of whose values raises when
    converted, the line under the title shows the summary of
    the record; without a summary it shows the description; without either
    it is left empty, with no text node at all. *)
Theorem detail_summary_falls_back (props : list (string * value)) (w : window) :
  has_element "project-summary" w = true →
  plain (VObj props) = true →
  let summary := get_opt (VObj props) "summary" in
  let description := get_opt (VObj props) "description" in
  ∃ w', render_detail (VObj props) w = Done () w'
        ∧ elements w' !! "project-summary"
          = Some (if truthy summary then text_nodes (to_string summary)
                  else if truthy description then text_nodes (to_string description)
                  else []).
Proof.
  intros Hs Hplain summary description. subst summary description.
  exists (rendered (VObj props) w). split; [by apply render_detail_record|].
  destruct (rendered_lookups (VObj props) w) as (_ & -> & _). rewrite Hs. f_equal.
  set (s := get_opt (VObj props) "summary").
  set (d := get_opt (VObj props) "description").
  destruct (truthy s) eqn:H1.
  - assert (or (or s d) (VStr "") = s) as ->.
    { unfold or. by rewrite H1, H1. }
    by apply text_of_truthy.
  - destruct (truthy d) eqn:H2.
    + assert (or (or s d) (VStr "") = d) as ->.
      { unfold or. by rewrite H1, H2. }
      by apply text_of_truthy.
    + assert (or (or s d) (VStr "") = VStr "") as ->.
      { unfold or. by rewrite H1, H2. }
      done.
Qed.

Lemma detail_summary_falls_back_witness :
  ∃ w', render_detail (VObj [("title", VStr "Maze"); ("description", VStr "A maze solver.")])
          (detail_page (Some "maze") NoResponse) = Done () w'
        ∧ elements w' !! "project-summary" = Some [Text "A maze solver."].
Proof.
  apply (detail_summary_falls_back
           [("title", VStr "Maze"); ("description", VStr "A maze solver.")]
           (detail_page (Some "maze") NoResponse) eq_refl eq_refl).
Defined.

Lemma tag_pill_text (ts : list value) :
  textContent <$> (pill <$> ts) = shown <$> ts.
Proof.
  induction ts as [|t ts IH]; [done|].
  cbn [fmap list_fmap]. f_equal; [|exact IH].
  apply textContent_text_of.
Qed.

(** X16. The meta area of the detail page of a record none of whose values
    raises when converted holds, in this order and each only
    when the record has it: one row with one pill per tag, in the order of
    the tags and each with its tag as text (when [tags] is a non-empty
    array); an anchor "View Live" to [link]; an anchor "Source Code" to
    [repo]. *)
Theorem detail_meta_area (props : list (string * value)) (w : window) :
  has_element "project-meta" w = true →
  plain (VObj props) = true →
  let p := VObj props in
  let anchor := λ (href : value) (text : string),
    Elem "a" [("href", to_string href); ("target", "_blank");
              ("rel", "noopener noreferrer"); ("class", "btn btn-secondary")] []
      [Text text] in
  ∃ w' pills,
    render_detail p w = Done () w'
    ∧ elements w' !! "project-meta"
      = Some (match tags_of p with
              | [] => []
              | _ => [Elem "div" [("class", "project-tags card-tags")] [] pills]
              end
              ++ (if truthy (get_opt p "link")
                  then [anchor (get_opt p "link") "View Live"] else [])
              ++ (if truthy (get_opt p "repo")
                  then [anchor (get_opt p "repo") "Source Code"] else []))
    ∧ Forall2 (λ t n, n = Elem "span" [("class", "tag")] [] (text_of t)
                      ∧ textContent n = shown t)
        (tags_of p) pills.
Proof.
  intros Hm Hplain p anchor. subst p anchor.
  exists (rendered (VObj props) w), (pill <$> tags_of (VObj props)).
  split; [by apply render_detail_record|].
  split.
  - destruct (rendered_lookups (VObj props) w) as (_ & _ & -> & _). rewrite Hm.
    f_equal. unfold meta_nodes, tags_of.
    by destruct (get_opt (VObj props) "tags") as [| | | | |[|t ts]|].
  - apply Forall2_fmap_r, Forall_Forall2_diag, Forall_forall.
    intros t _. split; [done|]. apply textContent_text_of.
Qed.

Lemma detail_meta_area_witness :
  ∃ w',
    render_detail
      (VObj [("title", VStr "Maze"); ("tags", VArr [VStr "c"; VStr "graphs"]);
             ("repo", VStr "https://example.org/maze.git")])
      (detail_page (Some "maze") NoResponse) = Done () w'
    ∧ elements w' !! "project-meta"
      = Some [Elem "div" [("class", "project-tags card-tags")] []
                [Elem "span" [("class", "tag")] [] [Text "c"];
                 Elem "span" [("class", "tag")] [] [Text "graphs"]];
              Elem "a" [("href", "https://example.org/maze.git"); ("target", "_blank");
                        ("rel", "noopener noreferrer"); ("class", "btn btn-secondary")]
                [] [Text "Source Code"]].
Proof.
  destruct (detail_meta_area
              [("title", VStr "Maze"); ("tags", VArr [VStr "c"; VStr "graphs"]);
               ("repo", VStr "https://example.org/maze.git")]
              (detail_page (Some "maze") NoResponse) eq_refl eq_refl)
    as (w' & pills & Hrun & Hmeta & Hpills).
  exists w'. split; [exact Hrun|]. rewrite Hmeta.
  cbn [tags_of get_opt lookup_prop String.eqb Ascii.eqb Bool.eqb default truthy
       negb app to_string] in Hpills |- *.
  apply Forall2_cons_inv_l in Hpills as (n1 & rest & [-> _] & Hrest & ->).
  apply Forall2_cons_inv_l in Hrest as (n2 & rest' & [-> _] & Hnil & ->).
  apply Forall2_nil_inv_l in Hnil as ->.
  reflexivity.
Defined.

(** ** Links and markup in what the script builds *)

Lemma descendants_elem (t : string) (a : list (string * string))
    (l : list (string * handler)) (kids : list node) :
  descendants (Elem t a l kids) = Elem t a l kids :: flat_map descendants kids.
Proof. reflexivity. Qed.

Lemma forallb_flat_map {A B} (f : B → bool) (g : A → list B) (l : list A) :
  forallb f (flat_map g l) = forallb (λ x, forallb f (g x)) l.
Proof.
  induction l as [|x l IH]; [done|].
  cbn [flat_map forallb]. by rewrite forallb_app, IH.
Qed.

Lemma existsb_flat_map {A B} (f : B → bool) (g : A → list B) (l : list A) :
  existsb f (flat_map g l) = existsb (λ x, existsb f (g x)) l.
Proof.
  induction l as [|x l IH]; [done|].
  cbn [flat_map existsb]. by rewrite existsb_app, IH.
Qed.

Lemma anchors_external_elem (t : string) (a : list (string * string))
    (l : list (string * handler)) (kids : list node) :
  anchors_external (Elem t a l kids)
  = (negb (String.eqb "a" t) || external (Elem t a l kids))
    && forallb anchors_external kids.
Proof.
  unfold anchors_external at 1. rewrite descendants_elem. cbn [forallb tag_is].
  by rewrite forallb_flat_map.
Qed.

Lemma has_markup_elem (t : string) (a : list (string * string))
    (l : list (string * handler)) (kids : list node) :
  has_markup (Elem t a l kids) = existsb has_markup kids.
Proof.
  unfold has_markup at 1. rewrite descendants_elem. cbn [existsb is_markup orb].
  by rewrite existsb_flat_map.
Qed.

Lemma text_of_plain (v : value) :
  forallb anchors_external (text_of v) = true ∧ existsb has_markup (text_of v) = false.
Proof. by destruct (text_of_cases v) as [-> | [s ->]]. Qed.

Lemma forallb_fmap {A B} (f : B → bool) (g : A → B) (l : list A) :
  (∀ x, f (g x) = true) → forallb f (g <$> l) = true.
Proof.
  intros H. induction l as [|x l IH]; [done|].
  cbn [fmap list_fmap forallb]. by rewrite H, IH.
Qed.

Lemma existsb_fmap {A B} (f : B → bool) (g : A → B) (l : list A) :
  (∀ x, f (g x) = false) → existsb f (g <$> l) = false.
Proof.
  intros H. induction l as [|x l IH]; [done|].
  cbn [fmap list_fmap existsb]. by rewrite H, IH.
Qed.

Lemma forallb_omap {A B} (f : B → bool) (g : A → option B) (l : list A) :
  (∀ x y, g x = Some y → f y = true) → forallb f (omap g l) = true.
Proof.
  intros H. induction l as [|x l IH]; [done|].
  cbn [omap list_omap]. destruct (g x) as [y|] eqn:Hx; [|exact IH].
  cbn [forallb]. by rewrite (H x y Hx), IH.
Qed.

Lemma existsb_omap {A B} (f : B → bool) (g : A → option B) (l : list A) :
  (∀ x y, g x = Some y → f y = false) → existsb f (omap g l) = false.
Proof.
  intros H. induction l as [|x l IH]; [done|].
  cbn [omap list_omap]. destruct (g x) as [y|] eqn:Hx; [|exact IH].
  cbn [existsb]. by rewrite (H x y Hx), IH.
Qed.

Lemma tag_pill_plain (t : value) :
  anchors_external (pill t) = true ∧ has_markup (pill t) = false.
Proof.
  change (pill t) with (Elem "span" [("class", "tag")] [] (text_of t)).
  rewrite anchors_external_elem, has_markup_elem.
  by destruct (text_of_plain t) as [-> ->].
Qed.

Lemma meta_link_plain (href : value) (text : string) :
  anchors_external (meta_link href text) = true ∧ has_markup (meta_link href text) = false.
Proof.
  unfold meta_link.
  rewrite anchors_external_elem, has_markup_elem.
  change (text_nodes text) with (text_of (VStr text)).
  by destruct (text_of_plain (VStr text)) as [-> ->].
Qed.

Lemma gallery_item_plain (src alt : value) :
  anchors_external (gallery_item src alt) = true
  ∧ has_markup (gallery_item src alt) = false.
Proof. by split. Qed.

Lemma paragraph_plain (v : value) :
  anchors_external (paragraph v) = true ∧ has_markup (paragraph v) = false.
Proof.
  change (paragraph v) with (Elem "p" [] [] (text_of v)).
  rewrite anchors_external_elem, has_markup_elem.
  by destruct (text_of_plain v) as [-> ->].
Qed.

Lemma meta_nodes_plain (p : value) :
  forallb anchors_external (meta_nodes p) = true
  ∧ existsb has_markup (meta_nodes p) = false.
Proof.
  unfold meta_nodes. rewrite !forallb_app, !existsb_app.
  assert (∀ h t, forallb anchors_external [meta_link h t] = true
                 ∧ existsb has_markup [meta_link h t] = false) as Hlink.
  { intros h t. cbn [forallb existsb].
    by destruct (meta_link_plain h t) as [-> ->]. }
  assert (∀ ts, forallb anchors_external
                  [Elem "div" [("class", "project-tags card-tags")] [] (pill <$> ts)]
                = true
                ∧ existsb has_markup
                    [Elem "div" [("class", "project-tags card-tags")] []
                       (pill <$> ts)] = false) as Hrow.
  { intros ts. cbn [forallb existsb].
    rewrite anchors_external_elem, has_markup_elem.
    rewrite forallb_fmap by apply tag_pill_plain.
    by rewrite existsb_fmap by apply tag_pill_plain. }
  destruct (get_opt p "tags") as [| | | | |[|t ts]|];
    destruct (truthy (get_opt p "link")), (truthy (get_opt p "repo"));
    rewrite ?(proj1 (Hlink _ _)), ?(proj2 (Hlink _ _)),
      ?(proj1 (Hrow _)), ?(proj2 (Hrow _)); by split.
Qed.

Lemma gallery_nodes_plain (p : value) :
  forallb anchors_external (gallery_nodes p) = true
  ∧ existsb has_markup (gallery_nodes p) = false.
Proof.
  unfold gallery_nodes. destruct (get_opt p "images"); try done.
  split.
  - apply forallb_omap. intros it n Hn. unfold gallery_entry in Hn.
    destruct (truthy (image_src it)); [|done]. injection Hn as <-.
    apply gallery_item_plain.
  - apply existsb_omap. intros it n Hn. unfold gallery_entry in Hn.
    destruct (truthy (image_src it)); [|done]. injection Hn as <-.
    apply gallery_item_plain.
Qed.

Lemma paragraphs_plain (pars : list value) :
  forallb anchors_external (map paragraph pars) = true
  ∧ existsb has_markup (map paragraph pars) = false.
Proof.
  induction pars as [|v pars [IH1 IH2]]; [done|].
  cbn [map forallb existsb].
  by destruct (paragraph_plain v) as [-> ->].
Qed.

Lemma body_nodes_anchors (p : value) : forallb anchors_external (body_nodes p) = true.
Proof.
  assert (∀ v, forallb anchors_external (html_of v) = true) as Hhtml.
  { intros v. unfold html_of. by destruct (String.eqb (to_string v) ""). }
  assert (∀ v, forallb anchors_external [paragraph v] = true) as Hpar.
  { intros v. cbn [forallb]. by rewrite (proj1 (paragraph_plain v)). }
  unfold body_nodes.
  destruct (get_opt p "body"); try apply paragraphs_plain;
    destruct (truthy (get_opt p "bodyHtml")); try apply Hhtml;
    destruct (truthy (get_opt p "long")); try apply Hpar;
    by destruct (truthy (get_opt p "description")).
Qed.

Lemma body_nodes_markup (p : value) :
  existsb has_markup (body_nodes p) = true →
  isArray (get_opt p "body") = false ∧ truthy (get_opt p "bodyHtml") = true.
Proof.
  assert (∀ v, existsb has_markup [paragraph v] = false) as Hpar.
  { intros v. cbn [existsb]. by rewrite (proj2 (paragraph_plain v)). }
  unfold body_nodes.
  destruct (get_opt p "body") eqn:Hb;
    try (rewrite (proj2 (paragraphs_plain _)); done);
    (destruct (truthy (get_opt p "bodyHtml")); [done|]);
    (destruct (truthy (get_opt p "long")); [by rewrite Hpar|]);
    (destruct (truthy (get_opt p "description")); [by rewrite Hpar|done]).
Qed.

Lemma text_of_no_anchor (v : value) : existsb has_anchor (text_of v) = false.
Proof.
  assert (∀ s, existsb has_anchor (text_nodes s) = false) as Hs.
  { intros s. unfold text_nodes. by destruct (String.eqb s ""). }
  destruct v; try done; apply Hs.
Qed.

Lemma body_nodes_no_anchor (p : value) : existsb has_anchor (body_nodes p) = false.
Proof.
  assert (∀ v, has_anchor (paragraph v) = false) as Hpar.
  { intros v. unfold paragraph, has_anchor. rewrite descendants_elem.
    cbn [existsb tag_is String.eqb Ascii.eqb Bool.eqb orb].
    rewrite existsb_flat_map. apply text_of_no_anchor. }
  assert (∀ v, existsb has_anchor (html_of v) = false) as Hhtml.
  { intros v. unfold html_of. by destruct (String.eqb (to_string v) ""). }
  unfold body_nodes.
  destruct (get_opt p "body") as [| | | | |pars|];
    try (destruct (truthy (get_opt p "bodyHtml")); [apply Hhtml|];
         destruct (truthy (get_opt p "long")); [cbn [existsb]; by rewrite Hpar|];
         destruct (truthy (get_opt p "description")); [cbn [existsb]; by rewrite Hpar|done]).
  induction pars as [|v pars IH]; [done|].
  cbn [map existsb]. by rewrite Hpar, IH.
Qed.

(** X17. In the render of a record none of whose values raises when
    converted, every anchor of the meta area and of the gallery opens in a
    new browsing context without an opener (target _blank, rel noopener
    noreferrer), and the title, the summary and the body hold no anchor
    element of the script.  (Anchors inside the markup of bodyHtml are the
    catalog's own.) *)
Theorem detail_anchors_are_external (props : list (string * value)) (w : window) :
  plain (VObj props) = true →
  ∃ w', render_detail (VObj props) w = Done () w'
        ∧ (∀ id kids,
             id ∈ ["project-meta"; "project-gallery"] →
             elements w' !! id = Some kids →
             forallb anchors_external kids = true)
        ∧ (∀ id kids,
             id ∈ ["project-title"; "project-summary"; "project-body"] →
             elements w' !! id = Some kids →
             existsb has_anchor kids = false).
Proof.
  intros Hplain.
  exists (rendered (VObj props) w). split; [by apply render_detail_record|].
  destruct (rendered_lookups (VObj props) w) as (Ht & Hs & Hm & Hb & Hg).
  split.
  - intros id kids Hid. rewrite !elem_of_cons, elem_of_nil in Hid.
    destruct Hid as [-> | [-> | []]].
    + rewrite Hm. destruct (has_element "project-meta" w); [|done]. intros [= <-].
      apply meta_nodes_plain.
    + rewrite Hg. destruct (has_element "project-gallery" w); [|done]. intros [= <-].
      apply gallery_nodes_plain.
  - intros id kids Hid. rewrite !elem_of_cons, elem_of_nil in Hid.
    destruct Hid as [-> | [-> | [-> | []]]].
    + rewrite Ht. destruct (has_element "project-title" w); [|done]. intros [= <-].
      apply text_of_no_anchor.
    + rewrite Hs. destruct (has_element "project-summary" w); [|done]. intros [= <-].
      apply text_of_no_anchor.
    + rewrite Hb. destruct (has_element "project-body" w); [|done]. intros [= <-].
      apply body_nodes_no_anchor.
Qed.

Lemma detail_anchors_are_external_witness :
  ∃ w' meta gallery,
    render_detail
      (VObj [("title", VStr "Maze"); ("link", VStr "https://example.org/maze");
             ("images", VArr [VStr "maze.png"])])
      (detail_page (Some "maze") NoResponse) = Done () w'
    ∧ elements w' !! "project-meta" = Some meta
    ∧ (tag_is "a" <$> meta) = [true]
    ∧ forallb anchors_external meta = true
    ∧ elements w' !! "project-gallery" = Some gallery
    ∧ (tag_is "a" <$> gallery) = [true]
    ∧ forallb anchors_external gallery = true.
Proof.
  destruct (detail_anchors_are_external
              [("title", VStr "Maze"); ("link", VStr "https://example.org/maze");
               ("images", VArr [VStr "maze.png"])]
              (detail_page (Some "maze") NoResponse) eq_refl)
    as (w' & Hrun & Hall & _).
  pose proof Hrun as Hrun'. rewrite render_detail_record in Hrun' by done.
  injection Hrun' as Hw'.
  exists w', [meta_link (VStr "https://example.org/maze") "View Live"],
         [gallery_item (VStr "maze.png") (VStr "Maze image")].
  assert (elements w' !! "project-meta"
          = Some [meta_link (VStr "https://example.org/maze") "View Live"]) as Hmeta.
  { rewrite <- Hw'. by vm_compute. }
  assert (elements w' !! "project-gallery"
          = Some [gallery_item (VStr "maze.png") (VStr "Maze image")]) as Hgal.
  { rewrite <- Hw'. by vm_compute. }
  split; [exact Hrun|]. split; [exact Hmeta|]. split; [reflexivity|].
  split; [apply (Hall "project-meta"); [rewrite !elem_of_cons; auto|exact Hmeta]|].
  split; [exact Hgal|]. split; [reflexivity|].
  apply (Hall "project-gallery"); [rewrite !elem_of_cons; auto|exact Hgal].
Defined.

(** X18. The render of a record none of whose values raises when converted
    parses markup in one place only: the title,
    the summary, the meta area and the gallery never hold a parsed fragment,
    whatever text the fields of the record contain, and the body holds one
    only when [body] is no array and bodyHtml is present. *)
Theorem detail_markup_only_from_bodyHtml (props : list (string * value)) (w : window) :
  plain (VObj props) = true →
  ∃ w', render_detail (VObj props) w = Done () w'
        ∧ (∀ id kids,
             id ∈ ["project-title"; "project-summary"; "project-meta";
                   "project-gallery"] →
             elements w' !! id = Some kids →
             existsb has_markup kids = false)
        ∧ (∀ kids,
             elements w' !! "project-body" = Some kids →
             existsb has_markup kids = true →
             isArray (get_opt (VObj props) "body") = false
             ∧ truthy (get_opt (VObj props) "bodyHtml") = true).
Proof.
  intros Hplain.
  exists (rendered (VObj props) w). split; [by apply render_detail_record|].
  destruct (rendered_lookups (VObj props) w) as (Ht & Hs & Hm & Hb & Hg).
  split.
  - intros id kids Hid. rewrite !elem_of_cons, elem_of_nil in Hid.
    destruct Hid as [-> | [-> | [-> | [-> | []]]]].
    + rewrite Ht. destruct (has_element "project-title" w); [|done]. intros [= <-].
      apply text_of_plain.
    + rewrite Hs. destruct (has_element "project-summary" w); [|done]. intros [= <-].
      apply text_of_plain.
    + rewrite Hm. destruct (has_element "project-meta" w); [|done]. intros [= <-].
      apply meta_nodes_plain.
    + rewrite Hg. destruct (has_element "project-gallery" w); [|done]. intros [= <-].
      apply gallery_nodes_plain.
  - intros kids. rewrite Hb. destruct (has_element "project-body" w); [|done].
    intros [= <-]. apply body_nodes_markup.
Qed.

Lemma detail_markup_only_from_bodyHtml_witness :
  ∃ w' kids,
    render_detail
      (VObj [("title", VStr "<b>Maze</b>"); ("summary", VStr "<i>solver</i>");
             ("bodyHtml", VStr "<p>Trusted</p>")])
      (detail_page (Some "maze") NoResponse) = Done () w'
    ∧ elements w' !! "project-title" = Some kids
    ∧ kids = [Text "<b>Maze</b>"]
    ∧ existsb has_markup kids = false
    ∧ elements w' !! "project-body" = Some [Html "<p>Trusted</p>"].
Proof.
  destruct (detail_markup_only_from_bodyHtml
              [("title", VStr "<b>Maze</b>"); ("summary", VStr "<i>solver</i>");
               ("bodyHtml", VStr "<p>Trusted</p>")]
              (detail_page (Some "maze") NoResponse) eq_refl)
    as (w' & Hrun & Hplain & _).
  pose proof Hrun as Hrun'. rewrite render_detail_record in Hrun' by done.
  injection Hrun' as Hw'.
  exists w', [Text "<b>Maze</b>"].
  assert (elements w' !! "project-title" = Some [Text "<b>Maze</b>"]) as Htitle.
  { rewrite <- Hw'. by vm_compute. }
  split; [exact Hrun|]. split; [exact Htitle|]. split; [reflexivity|].
  split.
  - apply (Hplain "project-title"); [|exact Htitle]. rewrite !elem_of_cons. auto.
  - rewrite <- Hw'. by vm_compute.
Defined.

Lemma card_of_plain (p : value) : has_markup (card_of p) = false.
Proof.
  unfold card_of. rewrite has_markup_elem. cbn [existsb].
  rewrite !has_markup_elem. cbn [existsb]. rewrite !has_markup_elem.
  rewrite (proj2 (text_of_plain _)), (proj2 (text_of_plain _)).
  rewrite existsb_fmap.
  - by destruct (truthy (get_opt p "cover")).
  - intros t. unfold pill. rewrite has_markup_elem. apply text_of_plain.
Qed.

(** X19. The cards of the landing page never hold parsed markup: whatever
    text the title, the description, the tags and the cover of the records
    the renderer accepts contain, it is shown as text and attribute
    values. *)
Theorem cards_hold_no_markup (items : list value) (grid : string) (w : window) :
  Forall (λ p, record_ok p = true) items →
  ∃ cards,
    renderProjects (VArr items) grid w = Done () (with_elements (<[grid := cards]>) w)
    ∧ existsb has_markup cards = false.
Proof.
  intros Hok. exists (card_of <$> items).
  split; [by apply renderProjects_records|].
  apply existsb_fmap, card_of_plain.
Qed.

Lemma cards_hold_no_markup_witness :
  ∃ cards,
    renderProjects
      (VArr [VObj [("title", VStr "<b>Maze</b>");
                   ("description", VStr "<script>alert(1)</script>");
                   ("tags", VArr [VStr "<i>c</i>"])]])
      "project-grid" (landing_page NoResponse)
    = Done () (with_elements (<["project-grid" := cards]>) (landing_page NoResponse))
    ∧ existsb has_markup cards = false.
Proof.
  apply (cards_hold_no_markup
           [VObj [("title", VStr "<b>Maze</b>");
                  ("description", VStr "<script>alert(1)</script>");
                  ("tags", VArr [VStr "<i>c</i>"])]]
           "project-grid" (landing_page NoResponse)).
  repeat constructor.
Defined.

(** ** Slugs and the resolver *)

Lemma slug_of_record (props : list (string * value)) (s : string) :
  get_opt (VObj props) "slug" = VStr s ↔ lookup_prop "slug" props = Some (VStr s).
Proof.
  unfold get_opt. destruct (lookup_prop "slug" props) as [v|]; cbn.
  - split; congruence.
  - split; [done|]. intros [=].
Qed.

Lemma slug_is_decides (id : string) (props : list (string * value)) :
  ∃ b, slug_is id (VObj props) = Ok b.
Proof. unfold slug_is, get, rbind. eauto. Qed.

Lemma slugs_cons_object (props : list (string * value)) (rest : list value) :
  slugs (VObj props :: rest)
  = match get_opt (VObj props) "slug" with
    | VStr s => s :: slugs rest
    | _ => slugs rest
    end.
Proof.
  unfold slugs. cbn [omap list_omap].
  by destruct (get_opt (VObj props) "slug").
Qed.

Lemma slug_in_slugs (items : list value) (i : nat) (p : value) (s : string) :
  items !! i = Some p → get_opt p "slug" = VStr s → s ∈ slugs items.
Proof.
  intros Hi Hs. unfold slugs. apply list_elem_of_omap.
  exists p. split; [by eapply list_elem_of_lookup_2|]. by rewrite Hs.
Qed.

(** X20. In a catalog of objects whose string slugs are pairwise different,
    every record with a non-empty string slug is the one the resolver
    returns for that slug, wherever it stands in the catalog. *)
Theorem unique_slug_resolves_to_its_record
    (items : list value) (i : nat) (p : value) (s : string) :
  Forall (λ x, is_object x = true) items →
  NoDup (slugs items) →
  items !! i = Some p →
  get_opt p "slug" = VStr s → s ≠ "" →
  find (VArr items) (slug_is s) = Ok p.
Proof.
  intros Hobj Hnodup Hi Hs Hne. cbn [find].
  revert i Hi Hnodup. induction Hobj as [|x rest Hx _ IH]; intros i Hi Hnodup; [done|].
  destruct x as [| | | | | |xp]; try done.
  destruct i as [|j]; cbn in Hi.
  - injection Hi as <-. cbn [find_first].
    rewrite (proj2 (slug_is_record s xp Hne)); [done|]. by apply slug_of_record.
  - cbn [find_first]. destruct (slug_is_decides s xp) as [b Hb]. rewrite Hb. cbn [rbind].
    rewrite slugs_cons_object in Hnodup.
    destruct b.
    + apply (slug_is_record s xp Hne), slug_of_record in Hb. rewrite Hb in Hnodup.
      apply NoDup_cons in Hnodup as [Hnotin _].
      destruct Hnotin. by eapply slug_in_slugs.
    + apply (IH j Hi).
      destruct (get_opt (VObj xp) "slug"); try done.
      by apply NoDup_cons in Hnodup as [_ ?].
Qed.

Lemma unique_slug_resolves_to_its_record_witness :
  find (VArr [VObj [("title", VStr "Maze")];
              VObj [("slug", VStr "chess"); ("title", VStr "Chess")];
              VObj [("slug", VStr "go"); ("title", VStr "Go")]])
       (slug_is "go")
  = Ok (VObj [("slug", VStr "go"); ("title", VStr "Go")]).
Proof.
  apply (unique_slug_resolves_to_its_record _ 2%nat);
    [repeat constructor| |reflexivity|reflexivity|done].
  change (NoDup ["chess"; "go"]).
  apply NoDup_cons. split; [|apply NoDup_singleton].
  intros H. apply list_elem_of_In in H. by destruct H.
Defined.

(** X21. A record the resolver returns for a non-empty id carries that id as
    its slug.  So a record without a slug is never resolved, although its
    card navigates to the id sample-project: that id shows a record whose
    slug is the string sample-project, or "Project not found". *)
Theorem resolved_record_carries_the_id
    (p q : value) (items : list value) (id : string) :
  truthy (get_opt p "slug") = false →
  id ≠ "" →
  find (VArr items) (slug_is id) = Ok q →
  truthy q = true →
  get_opt q "slug" = VStr id
  ∧ truthy (get_opt q "slug") = true
  ∧ target p = "project.html?id=sample-project".
Proof.
  intros Hp Hid Hfind Hq. cbn [find] in Hfind.
  assert (get_opt q "slug" = VStr id) as Hslug.
  { destruct (find_first_inv id items q Hfind) as [[-> _]|(l1 & l2 & _ & _ & Hm)];
      [done|].
    destruct (slug_is_object id q Hid Hm) as [props ->].
    by apply slug_of_record, (slug_is_record id props Hid). }
  split; [done|]. split.
  - rewrite Hslug. by apply truthy_str.
  - unfold target. by rewrite Hp.
Qed.

Lemma resolved_record_carries_the_id_witness :
  get_opt (VObj [("slug", VStr "sample-project"); ("title", VStr "Other")]) "slug"
  = VStr "sample-project"
  ∧ truthy (get_opt (VObj [("slug", VStr "sample-project"); ("title", VStr "Other")])
              "slug") = true
  ∧ target (VObj [("title", VStr "Maze")]) = "project.html?id=sample-project".
Proof.
  apply (resolved_record_carries_the_id
           (VObj [("title", VStr "Maze")])
           (VObj [("slug", VStr "sample-project"); ("title", VStr "Other")])
           [VObj [("title", VStr "Maze")];
            VObj [("slug", VStr "sample-project"); ("title", VStr "Other")]]
           "sample-project"); by vm_compute.
Defined.

(** ** The cover of a card *)

(** X22. The cover of a card holds one image when the record has a cover,
    with the cover as source and "<title> cover" as alternative text, and
    nothing (the gradient placeholder) when it has none. *)
Theorem card_cover_image (p : value) (c : node) :
  card p = Ok c →
  card_cover c
  = Some (if truthy (get_opt p "cover")
          then [Elem "img" [("src", to_string (get_opt p "cover"));
                            ("alt", to_string (get_opt p "title") +:+ " cover")] [] []]
          else []).
Proof.
  intros Hc. rewrite (card_Ok_card_of p c Hc). unfold card_of, card_cover.
  by destruct (truthy (get_opt p "cover")).
Qed.

Lemma card_cover_image_witness :
  card_cover (card_of (VObj [("title", VStr "Maze"); ("cover", VStr "maze.png")]))
  = Some [Elem "img" [("src", "maze.png"); ("alt", "Maze cover")] [] []].
Proof.
  apply (card_cover_image (VObj [("title", VStr "Maze"); ("cover", VStr "maze.png")])).
  reflexivity.
Defined.

(** ** The detail page on a catalog of objects *)

Lemma find_first_objects (id : string) (items : list value) :
  Forall (λ x, is_object x = true) items →
  ∃ p, find_first (slug_is id) items = Ok p
       ∧ (p = VUndefined ∨ is_object p = true ∧ p ∈ items).
Proof.
  induction 1 as [|x rest Hx _ (p & IH & Hp)]; [exists VUndefined; by split; [|left]|].
  destruct x as [| | | | | |xp]; try done.
  cbn [find_first]. destruct (slug_is_decides id xp) as [b ->]. cbn [rbind].
  destruct b.
  - exists (VObj xp). split; [done|]. right. split; [done|]. apply list_elem_of_here.
  - exists p. split; [done|]. destruct Hp as [->|[Hp Hin]]; [by left|right].
    split; [done|]. by apply list_elem_of_further.
Qed.

(** X23. The detail page degrades without an exception: when whatever the
    fetch delivers is an array of objects none of whose values raises when
    converted, loadProjectDetail returns, on any page and for any id: a
    field of another type than the data model gives it (a number for a
    title, a string for [tags], null for [body]) is rendered or skipped. *)
Theorem loadProjectDetail_returns_on_objects (w : window) :
  (∀ data, delivered (network w) = Some data →
           ∃ items, data = VArr items
                    ∧ Forall (λ x, is_object x = true) items
                    ∧ plain data = true) →
  returns (loadProjectDetail w) = true.
Proof.
  intros Hdata.
  destruct (has_element "project-article" w) eqn:Hpage;
    [|unfold loadProjectDetail; by rewrite Hpage].
  destruct (requested_id w) as [id|] eqn:Hreq;
    [|by rewrite detail_without_id by auto].
  destruct (decide (id = "")) as [->|Hid];
    [by rewrite detail_without_id by auto|].
  rewrite (detail_with_id w Hpage id Hreq Hid).
  destruct (delivered (network w)) as [data|]; [|done].
  destruct (Hdata data eq_refl) as (items & -> & Hobj & Hplain). cbn [find].
  destruct (find_first_objects id items Hobj) as (p & -> & [-> | [Hp Hin]]); [done|].
  destruct p; try done. cbn [truthy]. rewrite render_detail_record; [done|].
  apply plain_entries in Hplain. rewrite Forall_forall in Hplain. by apply Hplain.
Qed.

Lemma loadProjectDetail_returns_on_objects_witness :
  returns (loadProjectDetail
             (detail_page (Some "maze")
                (Response 200
                   (Some (VArr [VObj [("slug", VStr "maze"); ("title", VNum 7);
                                      ("tags", VStr "c"); ("images", VBool true);
                                      ("body", VNull)]])))))
  = true.
Proof.
  apply loadProjectDetail_returns_on_objects.
  intros data [= <-]. eexists. split; [reflexivity|]. split; [|reflexivity].
  repeat constructor.
Defined.
